(** * A resume-screening retrieval pipeline, embedded in Rocq

    Shallow embedding of the Python package [src/rag]:
    - [chunking.py]    : text normalisation, section splitting, bounded chunking;
    - [embeddings.py]  : the hashing encoder (BLAKE2b buckets, L2 normalisation);
    - [vectorstore.py] : the SQLite-backed similarity store;
    - [rag.py]         : the retrieval orchestrator with its confidence gate,
                         backend calls and evidence-only fallbacks;
    - [llm.py]         : the backend interface and the client of an Ollama server;
    - [loaders.py]     : the readers of text, docx and pdf files.

    Conventions of the embedding.
    - A Python [float] is an IEEE-754 binary64 value, modelled by the
      Standard Library's [spec_float] with precision 53 and [emax] 1024, so
      that comparisons, rounding, infinities and NaN behave as in CPython.
    - A Python [str] is a sequence of code points; the model keeps the code
      points below 256, one [ascii] per code point.
    - A call that can raise returns a [Result]; only subclasses of
      [Exception] are modelled, since those are what [except Exception]
      catches.
    - Behaviour of libraries outside the repository that the code only
      calls (SQLite's REAL-to-TEXT conversion, [float(str)], [repr], pydantic
      field coercion) is collected in the record [Extern]. *)

From Stdlib Require Import ZArith NArith List String Ascii Bool Lia.
From Stdlib Require Import Floats.SpecFloat.
From Stdlib Require Import DecimalString DecimalN.
From Stdlib Require Import Sorting.Sorted Sorting.Permutation.
Import ListNotations.

Local Open Scope string_scope.
Local Open Scope list_scope.
Local Open Scope Z_scope.

(** ** Exceptions and results *)

(** An exception value: the name of its class, as [e.__class__.__name__]
    reports it. *)
Record exn : Type := Exn { exn_class : string }.

Inductive Result (A : Type) : Type :=
| Ok (a : A)
| Raise (e : exn).
Arguments Ok {A} a.
Arguments Raise {A} e.

Definition bind {A B : Type} (r : Result A) (k : A -> Result B) : Result B :=
  match r with
  | Ok a => k a
  | Raise e => Raise e
  end.

Notation "x <- r ;; k" := (bind r (fun x => k))
  (at level 61, r at next level, right associativity).

Fixpoint mapM {A B : Type} (f : A -> Result B) (l : list A) : Result (list B) :=
  match l with
  | [] => Ok []
  | a :: l' => b <- f a ;; bs <- mapM f l' ;; Ok (b :: bs)
  end.


Definition value_or {A : Type} (default : A) (r : Result A) : A :=
  match r with Ok a => a | Raise _ => default end.

(** ** Python floats: IEEE-754 binary64 *)

Module PyFloat.

Definition float : Type := spec_float.

Definition prec : Z := 53.
Definition emax : Z := 1024.

Definition of_Z (z : Z) : float := binary_normalize prec emax z 0 false.

Definition add : float -> float -> float := SFadd prec emax.
Definition mul : float -> float -> float := SFmul prec emax.
Definition div : float -> float -> float := SFdiv prec emax.
Definition sqrt : float -> float := SFsqrt prec emax.

Definition ltb : float -> float -> bool := SFltb.
Definition leb : float -> float -> bool := SFleb.
Definition eqb : float -> float -> bool := SFeqb.

Definition zero : float := S754_zero false.
Definition one : float := Eval vm_compute in of_Z 1.
Definition half : float := Eval vm_compute in div (of_Z 1) (of_Z 2).

(** The decimal literal [n/d] (for instance [0.35] is [lit 35 100]): the
    correctly rounded quotient of two exactly representable integers is
    the double nearest to the decimal. *)
Definition lit (n d : Z) : float := div (of_Z n) (of_Z d).

(** [bool(x)]: a float is falsy exactly when it compares equal to zero. *)
Definition truthy (x : float) : bool := negb (eqb x zero).

(** [min(a, b)] and [max(a, b)] as the builtins compute them on two
    arguments: the first argument is kept unless the second is strictly
    smaller (respectively greater). *)
Definition py_min (a b : float) : float := if ltb b a then b else a.
Definition py_max (a b : float) : float := if ltb a b then b else a.

(** [max(0.0, min(1.0, x))]. *)
Definition clamp01 (x : float) : float := py_max zero (py_min one x).

(** Narrowing to binary32, as storing into [array("f")] does. *)
Definition to_f32 (x : float) : float :=
  match x with
  | S754_finite s m e => binary_round 24 128 s m e
  | _ => x
  end.

(** [x] lies in the closed interval [0, 1]. *)
Definition in_unit (x : float) : bool := leb zero x && leb x one.

(** *** Formatting with [:.2f] *)

Definition round_half_even_div (n d : Z) : Z :=
  let q := n / d in
  let r := n mod d in
  match (2 * r ?= d) with
  | Lt => q
  | Gt => q + 1
  | Eq => if Z.even q then q else q + 1
  end.

Definition dec_of_Z (z : Z) : string :=
  NilZero.string_of_uint (N.to_uint (Z.to_N z)).

Definition two_digits (z : Z) : string :=
  if z <? 10 then ("0" ++ dec_of_Z z)%string else dec_of_Z z.

(** The number of hundredths nearest to the exact value [m * 2^e], ties
    to even. *)
Definition hundredths (m : positive) (e : Z) : Z :=
  if 0 <=? e then Zpos m * 2 ^ e * 100
  else round_half_even_div (Zpos m * 100) (2 ^ (- e)).

Definition fmt_2f (x : float) : string :=
  match x with
  | S754_nan => "nan"
  | S754_infinity s => if s then "-inf" else "inf"
  | S754_zero s => ((if s then "-" else "") ++ "0.00")%string
  | S754_finite s m e =>
      let n := hundredths m e in
      ((if s then "-" else "") ++ dec_of_Z (n / 100) ++ "." ++ two_digits (n mod 100))%string
  end.

End PyFloat.

(** ** Python strings *)

Module PyStr.

Definition TAB : ascii := "009"%char.
Definition LF : ascii := "010"%char.
Definition CR : ascii := "013"%char.
Definition SP : ascii := " "%char.

Definition nl : string := String LF "".
Definition nlnl : string := String LF (String LF "").

Definition code (c : ascii) : Z := Z.of_N (N_of_ascii c).

Definition len (s : string) : Z := Z.of_nat (String.length s).

(** [str.isspace] on one code point below 256; the same class is [\s] in
    a [str] pattern. *)
Definition is_space (c : ascii) : bool :=
  let n := code c in
  ((9 <=? n) && (n <=? 13)) || ((28 <=? n) && (n <=? 32))
  || (n =? 133) || (n =? 160).

Fixpoint lstrip (s : string) : string :=
  match s with
  | "" => ""
  | String c s' => if is_space c then lstrip s' else s
  end.

Fixpoint rstrip (s : string) : string :=
  match s with
  | "" => ""
  | String c s' =>
      match rstrip s' with
      | "" => if is_space c then "" else String c ""
      | r => String c r
      end
  end.

Definition strip (s : string) : string := rstrip (lstrip s).

(** [bool(s)]: the empty string is falsy. *)
Definition truthy (s : string) : bool :=
  match s with "" => false | _ => true end.

(** [str.lower] on one code point below 256. *)
Definition lower_char (c : ascii) : ascii :=
  let n := code c in
  if ((65 <=? n) && (n <=? 90))
     || ((192 <=? n) && (n <=? 222) && negb (n =? 215))
  then ascii_of_N (Z.to_N (n + 32)) else c.

Fixpoint lower (s : string) : string :=
  match s with
  | "" => ""
  | String c s' => String (lower_char c) (lower s')
  end.

(** Slice bounds as Python normalises them: a negative index counts from
    the end, and both ends are clipped to the string. *)
Definition slice_index (n i : Z) : Z :=
  if i <? 0 then Z.max 0 (i + n) else Z.min i n.

(** [s[lo:hi]] *)
Definition slice (s : string) (lo hi : Z) : string :=
  let n := len s in
  let lo' := slice_index n lo in
  let hi' := slice_index n hi in
  substring (Z.to_nat lo') (Z.to_nat (hi' - lo')) s.

(** [s[lo:]] and [s[:hi]] *)
Definition slice_from (s : string) (lo : Z) : string := slice s lo (len s).
Definition slice_to (s : string) (hi : Z) : string := slice s 0 hi.

(** [s.replace("\r\n", "\n")] *)
Fixpoint replace_crlf (s : string) : string :=
  match s with
  | "" => ""
  | String c s1 =>
      if Ascii.eqb c CR then
        match s1 with
        | String c2 s2 =>
            if Ascii.eqb c2 LF then String LF (replace_crlf s2)
            else String c (replace_crlf s1)
        | "" => String c ""
        end
      else String c (replace_crlf s1)
  end.

(** [s.replace("\r", "\n")] *)
Fixpoint replace_cr (s : string) : string :=
  match s with
  | "" => ""
  | String c s' =>
      String (if Ascii.eqb c CR then LF else c) (replace_cr s')
  end.

(** [re.sub(r"[ \t]+", " ", s)]; [in_run] tells that the previous
    character belonged to the run being replaced. *)
Fixpoint collapse_blanks_from (in_run : bool) (s : string) : string :=
  match s with
  | "" => ""
  | String c s' =>
      if Ascii.eqb c SP || Ascii.eqb c TAB then
        if in_run then collapse_blanks_from true s'
        else String SP (collapse_blanks_from true s')
      else String c (collapse_blanks_from false s')
  end.

Definition collapse_blanks (s : string) : string :=
  collapse_blanks_from false s.

(** [re.sub(r"\n{3,}", "\n\n", s)]; [seen] counts the newlines of the
    current run already copied, so that a run keeps at most two. *)
Fixpoint collapse_newlines_from (seen : nat) (s : string) : string :=
  match s with
  | "" => ""
  | String c s' =>
      if Ascii.eqb c LF then
        if Nat.ltb seen 2 then String LF (collapse_newlines_from (S seen) s')
        else collapse_newlines_from seen s'
      else String c (collapse_newlines_from 0 s')
  end.

Definition collapse_newlines (s : string) : string :=
  collapse_newlines_from 0 s.

Definition cons_head (c : ascii) (l : list string) : list string :=
  match l with
  | [] => [String c ""]
  | h :: t => String c h :: t
  end.

(** [s.split("\n")] *)
Fixpoint split_lines (s : string) : list string :=
  match s with
  | "" => [""]
  | String c s' =>
      if Ascii.eqb c LF then "" :: split_lines s'
      else cons_head c (split_lines s')
  end.

(** [s.split("\n\n")]: leftmost, non-overlapping separators. *)
Fixpoint split_blank_lines (s : string) : list string :=
  match s with
  | "" => [""]
  | String c s1 =>
      if Ascii.eqb c LF then
        match s1 with
        | String c2 s2 =>
            if Ascii.eqb c2 LF then "" :: split_blank_lines s2
            else cons_head c (split_blank_lines s1)
        | "" => cons_head c (split_blank_lines s1)
        end
      else cons_head c (split_blank_lines s1)
  end.

(** [sep.join(parts)] *)
Definition join (sep : string) (parts : list string) : string :=
  String.concat sep parts.

(** [f"{n:04d}"]: zero padding to width four, the sign counted in. *)
Definition zeros (k : nat) : string := String.concat "" (repeat "0" k).

Definition fmt_04d (n : Z) : string :=
  let d := PyFloat.dec_of_Z (Z.abs n) in
  if n <? 0 then ("-" ++ zeros (3 - String.length d)%nat ++ d)%string
  else (zeros (4 - String.length d)%nat ++ d)%string.

(** [s.encode("utf-8", errors="ignore")] for code points below 256. *)
Fixpoint encode_utf8 (s : string) : list Z :=
  match s with
  | "" => []
  | String c s' =>
      let n := code c in
      if n <? 128 then n :: encode_utf8 s'
      else (192 + Z.shiftr n 6) :: (128 + Z.land n 63) :: encode_utf8 s'
  end.

End PyStr.

(** ** Python values that travel as JSON

    Metadata dictionaries and the backend's structured answers are built
    from these values. A [dict] keeps its keys in insertion order; [JObj]
    lists the bindings in that order and a lookup takes the first binding
    of the key. *)

#[warnings="-register-all"]
Inductive json : Type :=
| JNull
| JBool (b : bool)
| JInt (z : Z)
| JFloat (f : PyFloat.float)
| JStr (s : string)
| JArr (items : list json)
| JObj (bindings : list (string * json)).

Definition dict : Type := list (string * json).

Module PyDict.

(** [d.get(k)], with [None] as an absent result. *)
Fixpoint get (d : dict) (k : string) : option json :=
  match d with
  | [] => None
  | (k', v) :: d' => if String.eqb k' k then Some v else get d' k
  end.

(** [d.get(k, default)] *)
Definition get_default (d : dict) (k : string) (default : json) : json :=
  match get d k with Some v => v | None => default end.

(** [k in d] *)
Definition mem (d : dict) (k : string) : bool :=
  match get d k with Some _ => true | None => false end.

(** [d[k] = v]: an existing key keeps its place. *)
Fixpoint set (d : dict) (k : string) (v : json) : dict :=
  match d with
  | [] => [(k, v)]
  | (k', v') :: d' =>
      if String.eqb k' k then (k', v) :: d' else (k', v') :: set d' k v
  end.

(** [d.update(other)] *)
Definition update (d other : dict) : dict :=
  fold_left (fun acc kv => set acc (fst kv) (snd kv)) other d.

End PyDict.

(** [bool(v)] *)
Definition py_bool (v : json) : bool :=
  match v with
  | JNull => false
  | JBool b => b
  | JInt z => negb (z =? 0)
  | JFloat f => PyFloat.truthy f
  | JStr s => PyStr.truthy s
  | JArr items => match items with [] => false | _ => true end
  | JObj bindings => match bindings with [] => false | _ => true end
  end.

(** The value of [d.get(k)] as an expression: [None] when the key is absent. *)
Definition get_or_none (d : dict) (k : string) : json :=
  PyDict.get_default d k JNull.

(** [a or b] *)
Definition py_or (a b : json) : json := if py_bool a then a else b.

(** ** chunking.py *)

Module Chunking.
Import PyStr.

Record Chunk : Type := mkChunk {
  chunk_id : string;
  text : string;
  meta : dict
}.

(** The alternatives of [_SECTION_RE]. *)
Definition section_keywords : list string :=
  [ "summary"; "experience"; "work experience"; "projects"; "skills";
    "education"; "certifications"; "certificates"; "publications";
    "achievements"; "languages"; "interests" ].

(** Case folding of [re.IGNORECASE] against the ASCII letters of the
    keywords. *)
Definition fold_char (c : ascii) : ascii :=
  let n := code c in
  if (65 <=? n) && (n <=? 90) then ascii_of_N (Z.to_N (n + 32)) else c.

Fixpoint fold_case (s : string) : string :=
  match s with
  | "" => ""
  | String c s' => String (fold_char c) (fold_case s')
  end.

(** [_SECTION_RE.match(ln)]: optional white space, one keyword, optional
    white space, end of line. *)
Definition section_re_match (ln : string) : bool :=
  existsb (String.eqb (fold_case (strip ln))) section_keywords.

Definition normalize_text (s : string) : string :=
  let s := replace_cr (replace_crlf s) in
  let s := collapse_blanks s in
  strip (collapse_newlines s).

(** State of the loop of [split_into_sections]. *)
Record split_state : Type := mkSplit {
  sections : list (string * list string);
  current_title : string;
  current : list string
}.

Definition split_step (st : split_state) (ln : string) : split_state :=
  if negb (PyStr.truthy ln) then
    mkSplit (sections st) (current_title st) (current st ++ [""])
  else if section_re_match ln then
    let flushed :=
      match current st with
      | [] => sections st
      | _ => sections st ++ [(current_title st, current st)]
      end in
    mkSplit flushed (strip ln) []
  else
    mkSplit (sections st) (current_title st) (current st ++ [ln]).

Definition split_into_sections (text : string) : list (string * string) :=
  let lines := map strip (split_lines text) in
  let st := fold_left split_step lines (mkSplit [] "BODY" []) in
  let sections :=
    match current st with
    | [] => sections st
    | _ => sections st ++ [(current_title st, current st)]
    end in
  map (fun tb => (fst tb, strip (join nl (snd tb))))
      (filter (fun tb => PyStr.truthy (strip (join nl (snd tb)))) sections).

Definition make_chunk (doc_name section_title : string) (seq : Z) (text : string) : Chunk :=
  {| chunk_id := (doc_name ++ ":" ++ fmt_04d seq)%string;
     text := text;
     meta := [ ("doc_name", JStr doc_name);
               ("section", JStr section_title);
               ("seq", JInt seq) ] |}.

Section Chunker.
Variables (doc_name : string) (max_chars overlap_chars : Z).

(** The [while start < len(p)] loop that cuts an oversized paragraph.
    Without fuel left the loop has not finished: [None]. *)
Fixpoint hard_split (fuel : nat) (section_title p : string) (start : Z)
         (chunks : list Chunk) (seq : Z) : option (list Chunk * Z) :=
  if start <? len p then
    match fuel with
    | O => None
    | S fuel' =>
        let piece := slice p start (start + max_chars) in
        let chunks := chunks ++ [make_chunk doc_name section_title seq piece] in
        let seq := seq + 1 in
        let start :=
          start + (if overlap_chars <? max_chars
                   then max_chars - overlap_chars else max_chars) in
        hard_split fuel' section_title p start chunks seq
    end
  else Some (chunks, seq).

(** One turn of [for p in paras], on the state [(buf, chunks, seq)]. *)
Definition pack_step (section_title : string)
           (st : string * list Chunk * Z) (p : string)
  : option (string * list Chunk * Z) :=
  let '(buf, chunks, seq) := st in
  let candidate :=
    if PyStr.truthy buf then strip (buf ++ nlnl ++ p) else p in
  if len candidate <=? max_chars then Some (candidate, chunks, seq)
  else if PyStr.truthy buf then
    let chunks := chunks ++ [make_chunk doc_name section_title seq buf] in
    let seq := seq + 1 in
    let tail := if 0 <? overlap_chars then slice_from buf (- overlap_chars) else "" in
    Some (strip (tail ++ nlnl ++ p), chunks, seq)
  else
    match hard_split (S (String.length p)) section_title p 0 chunks seq with
    | Some (chunks, seq) => Some ("", chunks, seq)
    | None => None
    end.

Fixpoint pack (section_title : string) (paras : list string)
         (st : string * list Chunk * Z) : option (string * list Chunk * Z) :=
  match paras with
  | [] => Some st
  | p :: paras' =>
      match pack_step section_title st p with
      | Some st' => pack section_title paras' st'
      | None => None
      end
  end.

(** One turn of [for section_title, section_text in sections]. *)
Definition section_step (st : list Chunk * Z) (sec : string * string)
  : option (list Chunk * Z) :=
  let '(chunks, seq) := st in
  let '(section_title, section_text) := sec in
  let paras :=
    map strip (filter (fun p => PyStr.truthy (strip p))
                      (split_blank_lines section_text)) in
  match pack section_title paras ("", chunks, seq) with
  | Some (buf, chunks, seq) =>
      if PyStr.truthy buf
      then Some (chunks ++ [make_chunk doc_name section_title seq buf], seq + 1)
      else Some (chunks, seq)
  | None => None
  end.

Fixpoint chunk_sections (secs : list (string * string)) (st : list Chunk * Z)
  : option (list Chunk * Z) :=
  match secs with
  | [] => Some st
  | sec :: secs' =>
      match section_step st sec with
      | Some st' => chunk_sections secs' st'
      | None => None
      end
  end.

(** [chunk_text(text, doc_name=..., max_chars=..., overlap_chars=...)];
    [None] when the hard-split loop never ends. *)
Definition chunk_text (text : string) : option (list Chunk) :=
  let text := normalize_text text in
  let sections :=
    match split_into_sections text with
    | [] => [("BODY", text)]
    | secs => secs
    end in
  match chunk_sections sections ([], 0) with
  | Some (chunks, _) => Some chunks
  | None => None
  end.

End Chunker.

End Chunking.

(** ** BLAKE2b (RFC 7693), unkeyed, as [hashlib.blake2b] computes it *)

Module Blake2b.

Definition w64 (x : Z) : Z := x mod 2 ^ 64.

Definition rotr64 (x n : Z) : Z :=
  w64 (Z.lor (Z.shiftr x n) (Z.shiftl x (64 - n))).

Definition IV : list Z :=
  [ 0x6a09e667f3bcc908; 0xbb67ae8584caa73b; 0x3c6ef372fe94f82b;
    0xa54ff53a5f1d36f1; 0x510e527fade682d1; 0x9b05688c2b3e6c1f;
    0x1f83d9abfb41bd6b; 0x5be0cd19137e2179 ].

Definition SIGMA : list (list nat) :=
  [ [0; 1; 2; 3; 4; 5; 6; 7; 8; 9; 10; 11; 12; 13; 14; 15];
    [14; 10; 4; 8; 9; 15; 13; 6; 1; 12; 0; 2; 11; 7; 5; 3];
    [11; 8; 12; 0; 5; 2; 15; 13; 10; 14; 3; 6; 7; 1; 9; 4];
    [7; 9; 3; 1; 13; 12; 11; 14; 2; 6; 5; 10; 4; 0; 15; 8];
    [9; 0; 5; 7; 2; 4; 10; 15; 14; 1; 11; 12; 6; 8; 3; 13];
    [2; 12; 6; 10; 0; 11; 8; 3; 4; 13; 7; 5; 15; 14; 1; 9];
    [12; 5; 1; 15; 14; 13; 4; 10; 0; 7; 6; 3; 9; 2; 8; 11];
    [13; 11; 7; 14; 12; 1; 3; 9; 5; 0; 15; 4; 8; 6; 2; 10];
    [6; 15; 14; 9; 11; 3; 0; 8; 12; 2; 13; 7; 1; 4; 10; 5];
    [10; 2; 8; 4; 7; 6; 1; 5; 15; 11; 9; 14; 3; 12; 13; 0];
    [0; 1; 2; 3; 4; 5; 6; 7; 8; 9; 10; 11; 12; 13; 14; 15];
    [14; 10; 4; 8; 9; 15; 13; 6; 1; 12; 0; 2; 11; 7; 5; 3] ]%nat.

Definition word (v : list Z) (i : nat) : Z := nth i v 0.

Fixpoint put (v : list Z) (i : nat) (x : Z) : list Z :=
  match v, i with
  | [], _ => []
  | _ :: v', O => x :: v'
  | y :: v', S i' => y :: put v' i' x
  end.

(** The mixing function G. *)
Definition G (v : list Z) (a b c d : nat) (x y : Z) : list Z :=
  let v := put v a (w64 (word v a + word v b + x)) in
  let v := put v d (rotr64 (Z.lxor (word v d) (word v a)) 32) in
  let v := put v c (w64 (word v c + word v d)) in
  let v := put v b (rotr64 (Z.lxor (word v b) (word v c)) 24) in
  let v := put v a (w64 (word v a + word v b + y)) in
  let v := put v d (rotr64 (Z.lxor (word v d) (word v a)) 16) in
  let v := put v c (w64 (word v c + word v d)) in
  put v b (rotr64 (Z.lxor (word v b) (word v c)) 63).

Definition round (m : list Z) (v : list Z) (s : list nat) : list Z :=
  let mw (i : nat) : Z := word m (nth i s O) in
  let v := G v 0 4 8 12 (mw 0%nat) (mw 1%nat) in
  let v := G v 1 5 9 13 (mw 2%nat) (mw 3%nat) in
  let v := G v 2 6 10 14 (mw 4%nat) (mw 5%nat) in
  let v := G v 3 7 11 15 (mw 6%nat) (mw 7%nat) in
  let v := G v 0 5 10 15 (mw 8%nat) (mw 9%nat) in
  let v := G v 1 6 11 12 (mw 10%nat) (mw 11%nat) in
  let v := G v 2 7 8 13 (mw 12%nat) (mw 13%nat) in
  G v 3 4 9 14 (mw 14%nat) (mw 15%nat).

(** Little-endian integer of a byte string, [int.from_bytes(b, "little")]. *)
Fixpoint from_bytes_le (bytes : list Z) : Z :=
  match bytes with
  | [] => 0
  | b :: bytes' => b + 256 * from_bytes_le bytes'
  end.

Fixpoint to_bytes_le (n : nat) (x : Z) : list Z :=
  match n with
  | O => []
  | S n' => x mod 256 :: to_bytes_le n' (x / 256)
  end.

Fixpoint words_of (n : nat) (bytes : list Z) : list Z :=
  match n with
  | O => []
  | S n' => from_bytes_le (firstn 8 bytes) :: words_of n' (skipn 8 bytes)
  end.

(** The compression function F on chaining value [h], a 128-byte block,
    the byte counter [t] and the finalisation flag. *)
Definition compress (h : list Z) (block : list Z) (t : Z) (final : bool) : list Z :=
  let m := words_of 16 block in
  let v := h ++ IV in
  let v := put v 12 (Z.lxor (word v 12) (w64 t)) in
  let v := put v 13 (Z.lxor (word v 13) (w64 (Z.shiftr t 64))) in
  let v := if final then put v 14 (Z.lxor (word v 14) (2 ^ 64 - 1)) else v in
  let v := fold_left (round m) SIGMA v in
  map (fun i => Z.lxor (Z.lxor (word h i) (word v i)) (word v (i + 8)))
      (seq 0 8).

Definition pad_block (bytes : list Z) : list Z :=
  bytes ++ repeat 0 (128 - List.length bytes).

Fixpoint absorb (fuel : nat) (h : list Z) (data : list Z) (t : Z) : list Z :=
  match fuel with
  | O => h
  | S fuel' =>
      if (List.length data <=? 128)%nat then
        compress h (pad_block data) (t + Z.of_nat (List.length data)) true
      else
        absorb fuel' (compress h (firstn 128 data) (t + 128) false)
               (skipn 128 data) (t + 128)
  end.

(** [hashlib.blake2b(data, digest_size=nn).digest()] *)
Definition digest (nn : nat) (data : list Z) : list Z :=
  let h0 := put IV 0 (Z.lxor (word IV 0) (0x01010000 + Z.of_nat nn)) in
  let h := absorb (S (List.length data)) h0 data 0 in
  firstn nn (flat_map (to_bytes_le 8) h).

End Blake2b.

(** ** Python lists indexed by an [int] *)

Module PyList.

(** Position designated by the index [i] of a list of length [n]:
    negative indices count from the end, anything else is out of range. *)
Definition index (n : nat) (i : Z) : option nat :=
  let len := Z.of_nat n in
  if (0 <=? i) && (i <? len) then Some (Z.to_nat i)
  else if (- len <=? i) && (i <? 0) then Some (Z.to_nat (i + len))
  else None.

Fixpoint put {A : Type} (l : list A) (k : nat) (x : A) : list A :=
  match l, k with
  | [], _ => []
  | _ :: l', O => x :: l'
  | y :: l', S k' => y :: put l' k' x
  end.

(** [l[:k]] *)
Definition slice_to {A : Type} (l : list A) (k : Z) : list A :=
  if k <? 0 then firstn (List.length l - Z.to_nat (- k)) l
  else firstn (Z.to_nat k) l.

End PyList.

(** ** embeddings.py *)

Module Embeddings.
Import PyStr PyFloat.

Record EmbeddingConfig : Type := { local_dim : Z }.

Definition default_config : EmbeddingConfig := {| local_dim := 384 |}.

(** The character class of [_TOKEN_RE], [[a-z0-9\+\#\.\-]] with
    [re.IGNORECASE]. *)
Definition is_token_char (c : ascii) : bool :=
  let n := code c in
  ((97 <=? n) && (n <=? 122)) || ((65 <=? n) && (n <=? 90))
  || ((48 <=? n) && (n <=? 57))
  || (n =? 43) || (n =? 35) || (n =? 46) || (n =? 45).

Definition flush_token (cur : string) : list string :=
  if (2 <=? String.length cur)%nat then [cur] else [].

(** [_TOKEN_RE.findall]: the maximal runs of token characters that are at
    least two characters long; [cur] is the run being read. *)
Fixpoint scan_tokens (cur : string) (s : string) : list string :=
  match s with
  | "" => flush_token cur
  | String c s' =>
      if is_token_char c then scan_tokens (cur ++ String c "")%string s'
      else flush_token cur ++ scan_tokens "" s'
  end.

Definition findall_tokens (s : string) : list string := scan_tokens "" s.

Record LocalHashingEmbedder : Type := { _dim : Z }.

Definition _hash_to_idx (self : LocalHashingEmbedder) (s : string) : Result Z :=
  let h := Blake2b.digest 8 (encode_utf8 s) in
  let n := Blake2b.from_bytes_le h in
  if _dim self =? 0 then Raise (Exn "ZeroDivisionError")
  else Ok (n mod _dim self).

(** [v[idx] += x] *)
Definition add_at (v : list float) (idx : Z) (x : float) : Result (list float) :=
  match PyList.index (List.length v) idx with
  | Some k => Ok (PyList.put v k (add (nth k v zero) x))
  | None => Raise (Exn "IndexError")
  end.

(** The loop over [enumerate(tokens)]: a unigram weighs 1.0, the bigram
    with the next token 0.5. *)
Fixpoint accumulate (self : LocalHashingEmbedder) (tokens : list string)
         (v : list float) : Result (list float) :=
  match tokens with
  | [] => Ok v
  | tok :: rest =>
      idx <- _hash_to_idx self tok ;;
      v <- add_at v idx one ;;
      v <- match rest with
           | next :: _ =>
               bi <- _hash_to_idx self (tok ++ "_" ++ next)%string ;;
               add_at v bi half
           | [] => Ok v
           end ;;
      accumulate self rest v
  end.

(** [sum(x * x for x in v)]: the left fold from 0 of CPython up to 3.11
    (later versions compensate the rounding of the partial sums; no
    property below depends on the last bits of the sum). *)
Definition sum_squares (v : list float) : float :=
  fold_left (fun acc x => add acc (mul x x)) v zero.

(** [a / b] on floats raises on a zero divisor. *)
Definition truediv (a b : float) : Result float :=
  if eqb b zero then Raise (Exn "ZeroDivisionError") else Ok (div a b).

(** [math.sqrt(...) or 1.0] *)
Definition norm_or_one (v : list float) : float :=
  let n := sqrt (sum_squares v) in
  if truthy n then n else one.

Definition _embed_one (self : LocalHashingEmbedder) (text : string)
  : Result (list float) :=
  let v := repeat zero (Z.to_nat (_dim self)) in
  let tokens := findall_tokens (lower text) in
  v <- accumulate self tokens v ;;
  let norm := norm_or_one v in
  mapM (fun x => truediv x norm) v.

Definition embed (self : LocalHashingEmbedder) (texts : list string)
  : Result (list (list float)) :=
  mapM (_embed_one self) texts.

Definition make_embedder (cfg : EmbeddingConfig) : LocalHashingEmbedder :=
  {| _dim := local_dim cfg |}.

End Embeddings.

(** ** Library behaviour outside the repository

    What the code obtains from libraries and what no claim depends on in
    detail: every theorem below holds for all values of these fields. *)

Record Extern : Type := {
  (** SQLite's rendering of a REAL stored into a TEXT column. *)
  sqlite_real_text : PyFloat.float -> string;
  (** [float(s)] on a string. *)
  float_of_str : string -> Result PyFloat.float;
  (** [str(v)] on a float, a list or a dict. *)
  repr : json -> string;
  (** pydantic's validation of a [str] field. *)
  validate_str : json -> Result string;
  (** pydantic's validation of an [Optional[int]] field. *)
  validate_optional_int : json -> Result (option Z)
}.

(** [str(n)] on an [int]. *)
Definition str_of_int (n : Z) : string :=
  if n <? 0 then ("-" ++ PyFloat.dec_of_Z (- n))%string else PyFloat.dec_of_Z n.

(** [str(v)] *)
Definition py_str (X : Extern) (v : json) : string :=
  match v with
  | JStr s => s
  | JNull => "None"
  | JBool true => "True"
  | JBool false => "False"
  | JInt n => str_of_int n
  | _ => repr X v
  end.

(** ** vectorstore.py *)

Module VectorStore.
Import PyFloat.

(** Values as SQLite holds them. *)
Inductive sqlval : Type :=
| SqlNull
| SqlInteger (z : Z)
| SqlReal (f : float)
| SqlText (s : string).

(** A row of the table [chunks]. The column [meta_json] holds
    [json.dumps(meta)], which [json.loads] maps back to [meta]: the row
    keeps the dictionary. The column [embedding] holds the bytes of an
    [array("f")]: the row keeps its binary32 items. *)
Record Row : Type := mkRow {
  id : string;
  doc_name : string;
  text : string;
  meta_json : dict;
  embedding : list float
}.

(** The table, its rows in rowid order: the order in which SQLite scans
    the table, and the rows of one [doc_name] through the index. *)
Definition store : Type := list Row.

(** A result of [query]: [(id, document_text, metadata, score)]. *)
Definition hit : Type := (string * string * dict * float)%type.

Definition hit_id (h : hit) : string := fst (fst (fst h)).
Definition hit_text (h : hit) : string := snd (fst (fst h)).
Definition hit_meta (h : hit) : dict := snd (fst h).
Definition hit_score (h : hit) : float := snd h.

(** How the [sqlite3] module binds a Python value to a parameter: [None]
    and NaN become NULL, a [bool] is an integer, an integer must fit in 64
    bits, and a list or a dict is refused. *)
Definition bind_param (v : json) : Result sqlval :=
  match v with
  | JNull => Ok SqlNull
  | JBool b => Ok (SqlInteger (if b then 1 else 0))
  | JInt z =>
      if (- 2 ^ 63 <=? z) && (z <? 2 ^ 63) then Ok (SqlInteger z)
      else Raise (Exn "OverflowError")
  | JFloat S754_nan => Ok SqlNull
  | JFloat f => Ok (SqlReal f)
  | JStr s => Ok (SqlText s)
  | JArr _ | JObj _ => Raise (Exn "ProgrammingError")
  end.

(** [array("f", [float(x) for x in xs])] *)
Definition array_f (xs : list float) : list float := map to_f32 xs.

(** [zip(ids, embeddings, documents, metadatas)] *)
Fixpoint zip4 {A B C D : Type} (a : list A) (b : list B) (c : list C) (d : list D)
  : list (A * B * C * D) :=
  match a, b, c, d with
  | x :: a', y :: b', z :: c', w :: d' => (x, y, z, w) :: zip4 a' b' c' d'
  | _, _, _, _ => []
  end.

(** The loop [for i in range(n): score += q[i] * emb[i]] with
    [n = min(len(q), len(emb))]. *)
Definition dot_score (q emb : list float) : float :=
  let n := Nat.min (List.length q) (List.length emb) in
  fold_left (fun score i => add score (mul (nth i q zero) (nth i emb zero)))
            (seq 0 n) zero.

(** [scored.sort(key=lambda x: x[3], reverse=True)]. [list.sort] is
    stable, also with [reverse=True]; on keys that [<] orders totally the
    stable arrangement is unique, and insertion computes it. *)
Fixpoint insert_desc (x : hit) (l : list hit) : list hit :=
  match l with
  | [] => [x]
  | y :: l' =>
      if ltb (hit_score x) (hit_score y) then y :: insert_desc x l'
      else x :: y :: l'
  end.

Definition sort_desc (l : list hit) : list hit := fold_right insert_desc [] l.

(** [SELECT DISTINCT doc_name ... ORDER BY doc_name]: a name takes its
    place among the names already sorted, unless it is there. *)
Fixpoint insert_name (s : string) (l : list string) : list string :=
  match l with
  | [] => [s]
  | t :: l' =>
      match String.compare s t with
      | Lt => s :: t :: l'
      | Eq => t :: l'
      | Gt => t :: insert_name s l'
      end
  end.

Section WithExtern.
Variable X : Extern.

(** A column of TEXT affinity turns a number into its text. *)
Definition text_affinity (v : sqlval) : sqlval :=
  match v with
  | SqlInteger z => SqlText (str_of_int z)
  | SqlReal f => SqlText (sqlite_real_text X f)
  | _ => v
  end.

(** The value bound to [doc_name TEXT NOT NULL]. *)
Definition doc_name_column (v : json) : Result string :=
  p <- bind_param v ;;
  match text_affinity p with
  | SqlText s => Ok s
  | _ => Raise (Exn "IntegrityError")
  end.

(** [INSERT OR REPLACE INTO chunks ... VALUES (?, ?, ?, ?, ?)]: the row
    that holds the primary key goes away and the new row takes the next
    rowid. *)
Definition insert_or_replace (st : store)
           (r : string * json * string * dict * list float) : Result store :=
  let '(_id, doc_name, doc, meta, blob) := r in
  name <- doc_name_column doc_name ;;
  Ok (filter (fun row => negb (String.eqb (id row) _id)) st
      ++ [mkRow _id name doc meta blob]).

Fixpoint executemany (st : store)
         (rows : list (string * json * string * dict * list float))
  : Result store :=
  match rows with
  | [] => Ok st
  | r :: rows' => st' <- insert_or_replace st r ;; executemany st' rows'
  end.

Definition upsert (st : store) (ids : list string)
           (embeddings : list (list float)) (documents : list string)
           (metadatas : list dict) : Result store :=
  let rows :=
    map (fun r : string * list float * string * dict =>
           let '(_id, emb, doc, meta) := r in
           let doc_name :=
             py_or (py_or (get_or_none meta "doc_name") (get_or_none meta "source"))
                   (JStr "unknown") in
           (_id, doc_name, doc, meta, array_f emb))
        (zip4 ids embeddings documents metadatas) in
  executemany st rows.

Definition reset (st : store) : store := [].

Definition list_doc_names (st : store) : list string :=
  fold_right insert_name [] (map doc_name st).

(** [doc_name = ?] against the TEXT column. *)
Definition doc_name_matches (param : sqlval) (row : Row) : bool :=
  match text_affinity param with
  | SqlText s => String.eqb (doc_name row) s
  | _ => false
  end.

(** The rows that the [SELECT] of [query] returns. *)
Definition select_rows (st : store) (where_ : option dict) : Result (list Row) :=
  match where_ with
  | Some w =>
      if py_bool (JObj w) && PyDict.mem w "doc_name" then
        param <- bind_param (get_or_none w "doc_name") ;;
        Ok (filter (doc_name_matches param) st)
      else Ok st
  | None => Ok st
  end.

Definition score_row (q : list float) (row : Row) : hit :=
  (id row, text row, meta_json row, clamp01 (dot_score q (embedding row))).

Definition query (st : store) (query_embedding : list float) (top_k : Z)
           (where_ : option dict) : Result (list hit) :=
  let q := array_f query_embedding in
  rows <- select_rows st where_ ;;
  let scored := map (score_row q) rows in
  Ok (PyList.slice_to (sort_desc scored) top_k).

End WithExtern.

End VectorStore.

(** ** prompts.py *)

Module Prompts.

(** The quotation mark. *)
Definition dq : string := String "034"%char "".

Definition SCREEN_SYSTEM : string :=
  PyStr.join PyStr.nl
    [ "You are a resume screening assistant.";
      "";
      "CRITICAL RULES (anti-hallucination guardrails):";
      "- You MUST ONLY use information present in the provided CONTEXT chunks.";
      "- If the CONTEXT does not contain support for a claim, you must say it is not stated / not supported.";
      "- You MUST return VALID JSON ONLY (no markdown, no extra text).";
      "- You MUST include citations by referencing chunk_ids provided in CONTEXT.";
      "";
      "Output JSON schema:";
      "{";
      ("  " ++ dq ++ "overall_fit" ++ dq ++ ": " ++ dq ++ "Strong|Moderate|Weak|Unclear" ++ dq ++ ",")%string;
      ("  " ++ dq ++ "confidence" ++ dq ++ ": 0.0-1.0,")%string;
      ("  " ++ dq ++ "summary" ++ dq ++ ": " ++ dq ++ "string" ++ dq ++ ",")%string;
      ("  " ++ dq ++ "strengths" ++ dq ++ ": [" ++ dq ++ "string" ++ dq ++ ", ...],")%string;
      ("  " ++ dq ++ "gaps" ++ dq ++ ": [" ++ dq ++ "string" ++ dq ++ ", ...],")%string;
      ("  " ++ dq ++ "citations" ++ dq ++ ": [{" ++ dq ++ "chunk_id" ++ dq ++ ": " ++ dq ++ "string" ++ dq ++ ", " ++ dq ++ "quote" ++ dq ++ ": " ++ dq ++ "string" ++ dq ++ "} ...]")%string;
      "}";
      "" ].

Definition ANSWER_SYSTEM : string :=
  PyStr.join PyStr.nl
    [ "You are a source-grounded assistant answering questions about resumes.";
      "";
      "CRITICAL RULES (anti-hallucination guardrails):";
      "- Answer ONLY using the provided CONTEXT.";
      ("- If you cannot answer from CONTEXT, respond with: " ++ dq ++ "I don't have enough evidence in the indexed resumes to answer that." ++ dq ++ "")%string;
      "- Always include citations for factual claims, using the chunk_id(s).";
      "- Keep answers concise.";
      "" ].

Definition COMPARE_SYSTEM : string :=
  PyStr.join PyStr.nl
    [ "You compare multiple resumes against a job description.";
      "";
      "CRITICAL RULES:";
      "- Use ONLY the provided CONTEXT per resume.";
      "- Every non-trivial claim must be backed by at least one citation (chunk_id).";
      "- If evidence is missing for a candidate, say so explicitly.";
      "Return MARKDOWN (not JSON).";
      "" ].

End Prompts.

(** ** schemas.py *)

Module Citation.
Record t : Type := make {
  source : string;
  chunk_id : string;
  quote : string
}.
End Citation.

Module ScreeningResult.
Record t : Type := make {
  resume_name : string;
  overall_fit : string;
  confidence : PyFloat.float;
  summary : string;
  strengths : list string;
  gaps : list string;
  citations : list Citation.t
}.

(** The values of the literal type [OverallFit]. *)
Definition OverallFit : list string := ["Strong"; "Moderate"; "Weak"; "Unclear"].

(** Construction validates: [overall_fit] is one of the literals and
    [confidence] satisfies [ge=0.0] and [le=1.0]. *)
Definition validated (resume_name : string) (overall_fit : json)
           (confidence : PyFloat.float) (summary : string)
           (strengths gaps : list string) (citations : list Citation.t)
  : Result t :=
  match overall_fit with
  | JStr fit =>
      if existsb (String.eqb fit) OverallFit
         && PyFloat.leb PyFloat.zero confidence
         && PyFloat.leb confidence PyFloat.one
      then Ok (make resume_name fit confidence summary strengths gaps citations)
      else Raise (Exn "ValidationError")
  | _ => Raise (Exn "ValidationError")
  end.
End ScreeningResult.

Module RetrievedChunk.
Record t : Type := make {
  doc_name : string;
  chunk_id : string;
  text : string;
  score : PyFloat.float;
  page : option Z
}.
End RetrievedChunk.

(** ** llm.py: the interface of a generation backend

    A backend answers a call with a value or an exception and moves to a
    new state of its own ([S]): the answers of successive calls need not
    agree. *)

Record BaseLLM (S : Type) : Type := {
  complete_json : S -> string -> string -> Result json * S;
  complete_markdown : S -> string -> string -> Result string * S
}.
Arguments complete_json {S} _ _ _ _.
Arguments complete_markdown {S} _ _ _ _.

(** *** The Ollama backend *)

Module Ollama.

Record OllamaLLM : Type := {
  _model : string;
  _base_url : string
}.

(** [base_url.rstrip("/")] *)
Fixpoint rstrip_slash (s : string) : string :=
  match s with
  | "" => ""
  | String c s' =>
      match rstrip_slash s' with
      | "" => if Ascii.eqb c "/"%char then "" else String c ""
      | r => String c r
      end
  end.

(** [OllamaLLM(model=..., base_url=...)] *)
Definition make (model base_url : string) : OllamaLLM :=
  {| _model := model; _base_url := rstrip_slash base_url |}.

(** [v.get(k, default)] on a value that need not be a [dict]. *)
Definition py_get (v : json) (k : string) (default : json) : Result json :=
  match v with
  | JObj d => Ok (PyDict.get_default d k default)
  | _ => Raise (Exn "AttributeError")
  end.

(** [v.strip()] on a value that need not be a [str]. *)
Definition py_strip (v : json) : Result string :=
  match v with
  | JStr s => Ok (PyStr.strip s)
  | _ => Raise (Exn "AttributeError")
  end.

Section Transport.
Variable S : Type.

(** The HTTP exchange, [requests.post(url, json=payload, timeout=...)]
    followed by [raise_for_status()] and [resp.json()]: the decoded body or
    the exception of one of the three calls, and the next state of the
    server. *)
Variable post : S -> string -> json -> Z -> Result json * S.

(** [json.loads] *)
Variable json_loads : string -> Result json.

Definition payload (self : OllamaLLM) (system user : string) : json :=
  JObj [ ("model", JStr (_model self));
         ("stream", JBool false);
         ("messages",
          JArr [ JObj [("role", JStr "system"); ("content", JStr system)];
                 JObj [("role", JStr "user"); ("content", JStr user)] ]) ].

Definition _chat (self : OllamaLLM) (s : S) (system user : string) : Result json * S :=
  let url := (_base_url self ++ "/api/chat")%string in
  match post s url (payload self system user) 120 with
  | (Ok data, s') =>
      (message <- py_get data "message" (JObj []) ;;
       content <- py_get (py_or message (JObj [])) "content" (JStr "") ;;
       Ok (py_or content (JStr "")),
       s')
  | (Raise e, s') => (Raise e, s')
  end.

Definition complete_markdown (self : OllamaLLM) (s : S) (system user : string)
  : Result string * S :=
  match _chat self s system user with
  | (Ok content, s') => (py_strip content, s')
  | (Raise e, s') => (Raise e, s')
  end.

Definition complete_json (self : OllamaLLM) (s : S) (system user : string)
  : Result json * S :=
  match _chat self s system user with
  | (Ok content, s') =>
      (text <- py_strip content ;;
       match json_loads text with
       | Ok v => Ok v
       | Raise _ =>
           (* If the model doesn't strictly obey JSON, wrap as best-effort. *)
           Ok (JObj [("raw", JStr text)])
       end,
       s')
  | (Raise e, s') => (Raise e, s')
  end.

(** An [OllamaLLM] as a [BaseLLM]. *)
Definition backend (self : OllamaLLM) : BaseLLM S :=
  Build_BaseLLM S (complete_json self) (complete_markdown self).

End Transport.

End Ollama.

(** Iteration over a value, as a [for] loop or a comprehension does it. *)
Fixpoint chars (s : string) : list string :=
  match s with
  | "" => []
  | String c s' => String c "" :: chars s'
  end.

Definition py_iter (v : json) : Result (list json) :=
  match v with
  | JArr items => Ok items
  | JObj bindings => Ok (map (fun kv => JStr (fst kv)) bindings)
  | JStr s => Ok (map JStr (chars s))
  | _ => Raise (Exn "TypeError")
  end.

(** [float(v)] *)
Definition py_float (X : Extern) (v : json) : Result PyFloat.float :=
  match v with
  | JFloat f => Ok f
  | JInt z =>
      match PyFloat.of_Z z with
      | S754_infinity _ => Raise (Exn "OverflowError")
      | f => Ok f
      end
  | JBool b => Ok (if b then PyFloat.one else PyFloat.zero)
  | JStr s => float_of_str X s
  | _ => Raise (Exn "TypeError")
  end.

(** ** loaders.py *)

Module Loaders.
Import PyStr.

Record LoadedDoc : Type := {
  doc_name : string;
  text : string;
  meta : dict
}.

(** A [pathlib.Path], by the two attributes that the loader reads. *)
Record Path : Type := {
  name : string;
  suffix : string
}.

(** What the libraries read from a file: [path.read_text(encoding="utf-8",
    errors="ignore")]; the [text] of each paragraph of
    [DocxDocument(str(path)).paragraphs]; and the pages of
    [PdfReader(str(path)).pages], each by what its [extract_text()] returns
    or raises. *)
Record Readers : Type := {
  read_text : Path -> Result string;
  docx_paragraphs : Path -> Result (list string);
  pdf_pages : Path -> Result (list (Result (option string)))
}.

Section WithReaders.
Variable R : Readers.

Definition _read_txt (path : Path) : Result string := read_text R path.

Definition _read_docx (path : Path) : Result string :=
  paragraphs <- docx_paragraphs R path ;;
  let parts :=
    map strip (filter (fun t => PyStr.truthy t && PyStr.truthy (strip t)) paragraphs) in
  Ok (strip (join nl parts)).

(** [t = page.extract_text() or ""], and [t = ""] when the call raises. *)
Definition page_text (page : Result (option string)) : string :=
  match page with
  | Ok (Some t) => t
  | Ok None => ""
  | Raise _ => ""
  end.

(** The entry of the page at index [i]. *)
Definition page_entry (i : nat) (t : string) : string :=
  if PyStr.truthy (strip t)
  then ("[PAGE " ++ str_of_int (Z.of_nat i + 1) ++ "]" ++ nl ++ strip t)%string
  else ("[PAGE " ++ str_of_int (Z.of_nat i + 1) ++ "]" ++ nl)%string.

Definition _read_pdf (path : Path) : Result (string * dict) :=
  pages <- pdf_pages R path ;;
  let entries :=
    map (fun ip => page_entry (fst ip) (page_text (snd ip)))
        (combine (seq 0 (List.length pages)) pages) in
  Ok (strip (join nlnl entries), [("num_pages", JInt (Z.of_nat (List.length pages)))]).

Definition load_document (path : Path) : Result LoadedDoc :=
  let suffix := lower (suffix path) in
  let doc_name := name path in
  if String.eqb suffix ".txt" then
    text <- _read_txt path ;;
    Ok {| doc_name := doc_name; text := text; meta := [("type", JStr "txt")] |}
  else if String.eqb suffix ".docx" then
    text <- _read_docx path ;;
    Ok {| doc_name := doc_name; text := text; meta := [("type", JStr "docx")] |}
  else if String.eqb suffix ".pdf" then
    tm <- _read_pdf path ;;
    let meta := PyDict.update [("type", JStr "pdf")] (snd tm) in
    Ok {| doc_name := doc_name; text := fst tm; meta := meta |}
  else Raise (Exn "ValueError").

End WithReaders.

End Loaders.

(** ** rag.py *)

Module Rag.
Import PyStr.

Record RAGConfig : Type := {
  persist_dir : string;
  collection_name : string;
  top_k : Z;
  min_relevance_score : PyFloat.float
}.

(** The defaults of the dataclass. *)
Definition default_config (persist_dir : string) : RAGConfig :=
  {| persist_dir := persist_dir;
     collection_name := "resumes";
     top_k := 6;
     min_relevance_score := PyFloat.lit 25 100 |}.

(** [f"[{c.chunk_id} | score={c.score:.2f}]\n{c.text}"], joined by blank
    lines. *)
Definition context_entry (c : RetrievedChunk.t) : string :=
  ("[" ++ RetrievedChunk.chunk_id c ++ " | score="
       ++ PyFloat.fmt_2f (RetrievedChunk.score c) ++ "]" ++ nl
       ++ RetrievedChunk.text c)%string.

Definition context_of (chunks : list RetrievedChunk.t) : string :=
  join nlnl (map context_entry chunks).

(** The excerpt lines of the narrative fallbacks, over [chunks[:3]]. *)
Definition bullet (c : RetrievedChunk.t) : string :=
  ("- `" ++ RetrievedChunk.chunk_id c ++ "`: "
         ++ strip (slice_to (RetrievedChunk.text c) 220) ++ "...")%string.

Definition bullets_of (chunks : list RetrievedChunk.t) : string :=
  join nl (map bullet (PyList.slice_to chunks 3)).

(** [Citation(source=doc_name, chunk_id=t.chunk_id, quote=t.text[:240].strip())] *)
Definition citation_of_chunk (doc_name : string) (c : RetrievedChunk.t) : Citation.t :=
  Citation.make doc_name (RetrievedChunk.chunk_id c)
                (strip (slice_to (RetrievedChunk.text c) 240)).

(** [max(c.score for c in chunks)] on a non-empty list: the running
    maximum changes when an item is strictly greater. *)
Definition best_score (c : RetrievedChunk.t) (cs : list RetrievedChunk.t) : PyFloat.float :=
  fold_left (fun best c' => PyFloat.py_max best (RetrievedChunk.score c'))
            cs (RetrievedChunk.score c).

(** [sum(c.score for c in top) / len(top)] *)
Definition mean_score (top : list RetrievedChunk.t) : PyFloat.float :=
  PyFloat.div
    (fold_left (fun acc c => PyFloat.add acc (RetrievedChunk.score c)) top PyFloat.zero)
    (PyFloat.of_Z (Z.of_nat (List.length top))).

(** The [user] messages sent to the backend. *)
Definition answer_prompt (question : string) (chunks : list RetrievedChunk.t) : string :=
  ("QUESTION:" ++ nl ++ question ++ nlnl ++ "CONTEXT:" ++ nl ++ context_of chunks)%string.

Definition screen_prompt (job_desc doc_name : string) (chunks : list RetrievedChunk.t) : string :=
  ("JOB DESCRIPTION:" ++ nl ++ job_desc ++ nlnl
     ++ "CONTEXT (single resume: " ++ doc_name ++ "):" ++ nl ++ context_of chunks)%string.

Definition compare_prompt (job_desc : string) (per_resume_blocks : list string) : string :=
  ("JOB DESCRIPTION:" ++ nl ++ job_desc ++ nlnl
     ++ "CONTEXT (grouped by resume):" ++ nl ++ join nlnl per_resume_blocks ++ nlnl
     ++ "Return a markdown report with:" ++ nl
     ++ "- a comparison table" ++ nl
     ++ "- a ranked recommendation" ++ nl
     ++ "- bullet evidence per candidate with chunk_id citations." ++ nl)%string.

Section Service.
Variable X : Extern.
Variable S : Type.

(** The fields of a [RAGService]. The embedder is the one that
    [__init__] builds from [EmbeddingConfig()]. *)
Variable _cfg : RAGConfig.
Variable _llm : option (BaseLLM S).
Variable _vs : VectorStore.store.

Definition _embedder : Embeddings.LocalHashingEmbedder :=
  Embeddings.make_embedder Embeddings.default_config.

Definition reset_index : VectorStore.store := VectorStore.reset _vs.

(** [ingest_file], from the document that [load_document(path)]
    returned; the result is the new content of the store, and [None]
    stands for a chunker that never returns. *)
Definition ingest_file (doc : Loaders.LoadedDoc) : option (Result VectorStore.store) :=
  match Chunking.chunk_text (Loaders.doc_name doc) 1200 150 (Loaders.text doc) with
  | None => None
  | Some chunks =>
      let texts := map Chunking.text chunks in
      Some (vecs <- Embeddings.embed _embedder texts ;;
            let ids := map Chunking.chunk_id chunks in
            let metas :=
              map (fun c =>
                     PyDict.update
                       (Chunking.meta c)
                       (PyDict.update
                          [ ("doc_name", JStr (Loaders.doc_name doc));
                            ("source", JStr (Loaders.doc_name doc)) ]
                          (Loaders.meta doc)))
                  chunks in
            VectorStore.upsert X _vs ids vecs texts metas)
  end.

Definition list_documents : list string := VectorStore.list_doc_names _vs.

Definition retrieved_of_hit (h : VectorStore.hit) : Result RetrievedChunk.t :=
  let '(_id, doc, meta, score) := h in
  d <- validate_str X (PyDict.get_default meta "doc_name" (JStr "unknown")) ;;
  p <- validate_optional_int X (get_or_none meta "page") ;;
  Ok (RetrievedChunk.make d _id doc score p).

Definition _retrieve (query : string) (where_ : option dict)
  : Result (list RetrievedChunk.t) :=
  vecs <- Embeddings.embed _embedder [query] ;;
  qv <- match vecs with
        | v :: _ => Ok v
        | [] => Raise (Exn "IndexError")
        end ;;
  res <- VectorStore.query X _vs qv (top_k _cfg) where_ ;;
  mapM retrieved_of_hit res.

(** Guardrail 1: confidence gating based on retrieval score. *)
Definition _guardrail_context (chunks : list RetrievedChunk.t) : bool * string :=
  match chunks with
  | [] => (false, "No relevant context retrieved.")
  | c :: cs =>
      let best := best_score c cs in
      if PyFloat.ltb best (min_relevance_score _cfg) then
        (false,
         ("Low retrieval confidence (best score=" ++ PyFloat.fmt_2f best
            ++ " < " ++ PyFloat.fmt_2f (min_relevance_score _cfg) ++ ").")%string)
      else (true, "")
  end.

Definition answer_fallback (chunks : list RetrievedChunk.t) : string :=
  ("LLM is currently unavailable (for example, due to rate limits or exhausted quota)."
     ++ nlnl
     ++ "Here are the most relevant excerpts from the resumes instead:"
     ++ nlnl ++ bullets_of chunks)%string.

Definition answer_question (question : string) (s : S) : Result string * S :=
  match _retrieve question None with
  | Raise e => (Raise e, s)
  | Ok chunks =>
      let '(ok, reason) := _guardrail_context chunks in
      if negb ok then
        (Ok ("I don't have enough evidence in the indexed resumes to answer that."
               ++ nlnl ++ "Reason: " ++ reason)%string, s)
      else
        match _llm with
        | None =>
            (* no-LLM fallback: return top chunks only *)
            (Ok ("LLM is not configured (set `OPENAI_API_KEY`). Here are the most relevant excerpts:"
                   ++ nlnl ++ bullets_of chunks)%string, s)
        | Some llm =>
            let user := answer_prompt question chunks in
            match complete_markdown llm s Prompts.ANSWER_SYSTEM user with
            | (Ok answer, s') => (Ok (strip answer), s')
            | (Raise e, s') => (Ok (answer_fallback chunks), s')
            end
        end
  end.

(** The usable citations of a backend answer: the dictionaries with a
    truthy [chunk_id] and a truthy [quote]. *)
Definition citation_of_json (doc_name : string) (c : json) : list Citation.t :=
  match c with
  | JObj d =>
      if py_bool (get_or_none d "chunk_id") && py_bool (get_or_none d "quote")
      then [Citation.make doc_name (py_str X (get_or_none d "chunk_id"))
                          (py_str X (get_or_none d "quote"))]
      else []
  | _ => []
  end.

(** [[str(x) for x in (data.get(key) or [])][:8]] *)
Definition str_list (data : dict) (key : string) : Result (list string) :=
  items <- py_iter (py_or (get_or_none data key) (JArr [])) ;;
  Ok (PyList.slice_to (map (py_str X) items) 8).

Definition _parse_screening_json (doc_name : string) (data : json)
           (chunks : list RetrievedChunk.t) : Result ScreeningResult.t :=
  match data with
  | JObj data =>
      (* If model forgets citations, patch them with top chunks. *)
      items <- py_iter (py_or (PyDict.get_default data "citations" (JArr [])) (JArr [])) ;;
      let citations := flat_map (citation_of_json doc_name) items in
      let citations :=
        match citations with
        | [] => map (citation_of_chunk doc_name) (PyList.slice_to chunks 3)
        | _ => citations
        end in
      confidence <- py_float X (PyDict.get_default data "confidence" (JFloat (PyFloat.lit 4 10))) ;;
      strengths <- str_list data "strengths" ;;
      gaps <- str_list data "gaps" ;;
      ScreeningResult.validated
        doc_name
        (PyDict.get_default data "overall_fit" (JStr "Unclear"))
        confidence
        (py_str X (PyDict.get_default data "summary" (JStr "")))
        strengths gaps
        (PyList.slice_to citations 6)
  | _ => Raise (Exn "AttributeError")
  end.

Definition _screen_fallback (doc_name job_desc : string)
           (chunks : list RetrievedChunk.t) (reason : string)
  : Result ScreeningResult.t :=
  (* Very simple heuristic: average of top scores to approximate confidence. *)
  let top := PyList.slice_to chunks 5 in
  let conf := match top with [] => PyFloat.zero | _ => mean_score top end in
  let overall :=
    if PyFloat.ltb conf (PyFloat.lit 35 100) then "Unclear"
    else if PyFloat.ltb conf (PyFloat.lit 55 100) then "Moderate"
    else "Strong" in
  let citations := map (citation_of_chunk doc_name) (PyList.slice_to top 3) in
  let summary :=
    ("LLM is not configured or retrieval confidence is low. "
       ++ "Showing best-effort, evidence-first excerpts." ++ nl
       ++ "Reason: " ++ reason)%string in
  let strengths := ["See cited excerpts for evidence; configure LLM for richer synthesis."] in
  let gaps := ["Insufficient evidence to fully assess without stronger retrieval / LLM synthesis."] in
  ScreeningResult.validated doc_name (JStr overall) (PyFloat.clamp01 conf)
                            summary strengths gaps citations.

(** One turn of the loop of [screen_resumes]. *)
Definition screen_one (job_desc doc_name : string) (s : S)
  : Result ScreeningResult.t * S :=
  let where_ := [("doc_name", JStr doc_name)] in
  match _retrieve job_desc (Some where_) with
  | Raise e => (Raise e, s)
  | Ok chunks =>
      let '(ok, reason) := _guardrail_context chunks in
      match _llm with
      | Some llm =>
          if negb ok then (_screen_fallback doc_name job_desc chunks reason, s)
          else
            let user := screen_prompt job_desc doc_name chunks in
            match complete_json llm s Prompts.SCREEN_SYSTEM user with
            | (Ok data, s') =>
                match _parse_screening_json doc_name data chunks with
                | Ok sr => (Ok sr, s')
                | Raise e =>
                    (_screen_fallback doc_name job_desc chunks
                       ("LLM error: " ++ exn_class e)%string, s')
                end
            | (Raise e, s') =>
                (* Fall back to evidence-first heuristic if LLM fails. *)
                (_screen_fallback doc_name job_desc chunks
                   ("LLM error: " ++ exn_class e)%string, s')
            end
      | None => (_screen_fallback doc_name job_desc chunks reason, s)
      end
  end.

Fixpoint screen_resumes (job_desc : string) (resume_doc_names : list string) (s : S)
  : Result (list ScreeningResult.t) * S :=
  match resume_doc_names with
  | [] => (Ok [], s)
  | doc_name :: rest =>
      match screen_one job_desc doc_name s with
      | (Ok sr, s') =>
          match screen_resumes job_desc rest s' with
          | (Ok results, s'') => (Ok (sr :: results), s'')
          | (Raise e, s'') => (Raise e, s'')
          end
      | (Raise e, s') => (Raise e, s')
      end
  end.

(** One turn of the loop of [compare_resumes]: the block of a resume. *)
Definition compare_block (job_desc doc_name : string) : Result string :=
  chunks <- _retrieve job_desc (Some [("doc_name", JStr doc_name)]) ;;
  let '(ok, reason) := _guardrail_context chunks in
  if negb ok then
    Ok ("## " ++ doc_name ++ nl ++ "No strong evidence retrieved. Reason: "
              ++ reason ++ nl)%string
  else
    Ok ("## " ++ doc_name ++ nl ++ context_of chunks ++ nl)%string.

Definition compare_fallback (per_resume_blocks : list string) : string :=
  ("LLM is currently unavailable (for example, due to rate limits or exhausted quota)."
     ++ nlnl ++ "Here is the raw evidence per resume instead:" ++ nlnl
     ++ join nlnl (PyList.slice_to per_resume_blocks 6))%string.

Definition compare_resumes (job_desc : string) (resume_doc_names : list string) (s : S)
  : Result string * S :=
  (* Retrieve context per resume independently to avoid cross-contamination. *)
  match mapM (compare_block job_desc) resume_doc_names with
  | Raise e => (Raise e, s)
  | Ok per_resume_blocks =>
      match _llm with
      | None =>
          (Ok ("LLM is not configured (set `OPENAI_API_KEY`)." ++ nlnl
                 ++ "Top evidence per resume:" ++ nlnl
                 ++ join nlnl (PyList.slice_to per_resume_blocks 6))%string, s)
      | Some llm =>
          let user := compare_prompt job_desc per_resume_blocks in
          match complete_markdown llm s Prompts.COMPARE_SYSTEM user with
          | (Ok report, s') => (Ok report, s')
          | (Raise e, s') => (Ok (compare_fallback per_resume_blocks), s')
          end
      end
  end.

End Service.

End Rag.

(** *** [ingest_file] from the path *)

Module Ingestion.

(** [ingest_file(path)]: the document is loaded, then chunked, embedded
    and stored. *)
Definition ingest_path (R : Loaders.Readers) (X : Extern) (vs : VectorStore.store)
           (path : Loaders.Path) : option (Result VectorStore.store) :=
  match Loaders.load_document R path with
  | Ok doc => Rag.ingest_file X vs doc
  | Raise e => Some (Raise e)
  end.

End Ingestion.

(** ** Notions used to state the properties *)

Module FloatOrder.
Import PyFloat.

Definition is_nan (x : float) : bool :=
  match x with S754_nan => true | _ => false end.

(** A key whose lexicographic order is the order of the floats that are
    not NaN: sign class first, then exponent and mantissa, reversed below
    zero. *)
Definition rank (x : float) : Z * Z * Z :=
  match x with
  | S754_nan => (0, 0, 0)
  | S754_zero _ => (0, 0, 0)
  | S754_infinity s => (if s then -2 else 2, 0, 0)
  | S754_finite s m e => if s then (-1, - e, Zneg m) else (1, e, Zpos m)
  end.

Definition lex3 (a b : Z * Z * Z) : comparison :=
  match fst (fst a) ?= fst (fst b) with
  | Eq =>
      match snd (fst a) ?= snd (fst b) with
      | Eq => snd a ?= snd b
      | c => c
      end
  | c => c
  end.

Definition lex_le (a b : Z * Z * Z) : Prop :=
  fst (fst a) < fst (fst b)
  \/ (fst (fst a) = fst (fst b)
      /\ (snd (fst a) < snd (fst b)
          \/ (snd (fst a) = snd (fst b) /\ snd a <= snd b))).

(** The sign bit is clear, or the value is NaN. *)
Definition sign_clear (x : float) : bool :=
  match x with
  | S754_nan => true
  | S754_zero s | S754_infinity s | S754_finite s _ _ => negb s
  end.

End FloatOrder.

Module StoreSpec.
Import PyFloat VectorStore.



(** [a] may stand before [b] in a result: its score is not smaller. *)
Definition score_ge (a b : hit) : Prop := leb (hit_score b) (hit_score a) = true.


End StoreSpec.

(** ** Worked inputs *)

Module Examples.
Import PyFloat VectorStore.

(** Library behaviour for the worked inputs: pydantic accepts a string
    for a [str] field and [None] or an integer for an [Optional[int]]
    field; the worked inputs hold no float to render or to parse. *)
Definition extern : Extern :=
  {| sqlite_real_text := fun _ => "0.0";
     float_of_str := fun _ => Raise (Exn "ValueError");
     repr := fun _ => "<repr>";
     validate_str := fun v =>
       match v with JStr s => Ok s | _ => Raise (Exn "ValidationError") end;
     validate_optional_int := fun v =>
       match v with
       | JNull => Ok None
       | JInt z => Ok (Some z)
       | _ => Raise (Exn "ValidationError")
       end |}.

(** Three stored chunks of two documents, with vectors of two and of
    three components. *)
Definition three_rows : store :=
  [ mkRow "a.txt:0000" "a.txt" "python developer"
          [("doc_name", JStr "a.txt")] [to_f32 one; to_f32 zero];
    mkRow "a.txt:0001" "a.txt" "rust scheduler"
          [("doc_name", JStr "a.txt")] [to_f32 (lit 6 10); to_f32 (lit 8 10)];
    mkRow "b.txt:0000" "b.txt" "go services"
          [("doc_name", JStr "b.txt")] [to_f32 zero; to_f32 half; to_f32 half] ].

End Examples.

Module RagSpec.
Import Rag.

(** The citations that an answer of the backend offers: those of the
    dictionaries of its [citations] that have a truthy [chunk_id] and a
    truthy [quote]. *)
Definition usable_citations (X : Extern) (doc_name : string) (data : json) : list Citation.t :=
  match data with
  | JObj d =>
      match py_iter (py_or (PyDict.get_default d "citations" (JArr [])) (JArr [])) with
      | Ok items => flat_map (citation_of_json X doc_name) items
      | Raise _ => []
      end
  | _ => []
  end.

(** Every citation of [r] names a chunk of [chunks]. *)
Definition cites_only (chunks : list RetrievedChunk.t) (r : ScreeningResult.t) : Prop :=
  Forall (fun c => In (Citation.chunk_id c) (map RetrievedChunk.chunk_id chunks))
         (ScreeningResult.citations r).

(** Where the citations of the results of [screen_resumes] come from,
    turn by turn, [s] being the state of the backend before the turn: from
    the first three chunks retrieved for the turn, or from the usable
    citations of the answer that the backend gave in that turn. *)
Fixpoint citations_traced {S : Type} (X : Extern) (cfg : RAGConfig)
         (llm : option (BaseLLM S)) (vs : VectorStore.store) (job_desc : string)
         (resume_doc_names : list string) (results : list ScreeningResult.t) (s : S)
  : Prop :=
  match resume_doc_names, results with
  | [], [] => True
  | doc_name :: rest, r :: results' =>
      ScreeningResult.resume_name r = doc_name
      /\ (exists chunks,
            _retrieve X cfg vs job_desc (Some [("doc_name", JStr doc_name)]) = Ok chunks
            /\ ((ScreeningResult.citations r
                   = map (citation_of_chunk doc_name) (firstn 3 chunks)
                 /\ cites_only chunks r)
                \/ (exists l s2 data,
                      llm = Some l
                      /\ complete_json l s Prompts.SCREEN_SYSTEM
                                        (screen_prompt job_desc doc_name chunks)
                         = (Ok data, s2)
                      /\ usable_citations X doc_name data <> []
                      /\ ScreeningResult.citations r
                         = firstn 6 (usable_citations X doc_name data))))
      /\ citations_traced X cfg llm vs job_desc rest results'
                          (snd (screen_one X S cfg llm vs job_desc doc_name s))
  | _, _ => False
  end.


End RagSpec.

Module Scenario.
Import PyFloat VectorStore.

Definition embed_text (t : string) : list float :=
  value_or [] (Embeddings._embed_one Rag._embedder t).

(** A store that holds the two chunks of one resume. *)
Definition resume_store : store :=
  value_or [] (upsert Examples.extern []
                      ["a.txt:0000"; "a.txt:0001"]
                      [embed_text "python developer"; embed_text "rust scheduler"]
                      ["python developer"; "rust scheduler"]
                      [[("doc_name", JStr "a.txt")]; [("doc_name", JStr "a.txt")]]).

Definition config : Rag.RAGConfig := Rag.default_config "db".

(** A backend whose structured answer cites a chunk that no retrieval
    returned; its state counts the calls. *)
Definition fabricating_llm : BaseLLM nat :=
  {| complete_json := fun s _ _ =>
       (Ok (JObj [ ("overall_fit", JStr "Strong");
                   ("confidence", JFloat (lit 9 10));
                   ("summary", JStr "Good match.");
                   ("citations",
                    JArr [JObj [ ("chunk_id", JStr "z.txt:0042");
                                 ("quote", JStr "ten years of python") ]]) ]),
        S s);
     complete_markdown := fun s _ _ => (Ok "report", S s) |}.

(** A backend that raises on its first call and answers afterwards. *)
Definition flaky_llm : BaseLLM nat :=
  {| complete_json := fun s _ _ =>
       match s with
       | O => (Raise (Exn "TimeoutError"), S s)
       | _ => (Ok (JObj [("overall_fit", JStr "Moderate")]), S s)
       end;
     complete_markdown := fun s _ _ =>
       match s with
       | O => (Raise (Exn "TimeoutError"), S s)
       | _ => (Ok "report", S s)
       end |}.

(** What [screen_resumes] returns when the resume is screened twice with
    the flaky backend: a fallback result, then a parsed one. *)
Definition flaky_results : list ScreeningResult.t :=
  Eval vm_compute in
    value_or [] (fst (Rag.screen_resumes Examples.extern nat config (Some flaky_llm)
                                         resume_store "python developer" ["a.txt"; "a.txt"] O)).

(** The chunks that the retrieval of a screening call on [a.txt] returns. *)
Definition retrieved : list RetrievedChunk.t :=
  Eval vm_compute in
    value_or [] (Rag._retrieve Examples.extern config resume_store "python developer"
                               (Some [("doc_name", JStr "a.txt")])).

(** An encoder of eight buckets and two batches that share a text. *)
Definition small_embedder : Embeddings.LocalHashingEmbedder := {| Embeddings._dim := 8 |}.



(** The vector of a text of three tokens. *)
Definition three_token_vector : list float :=
  Eval vm_compute in value_or [] (Embeddings._embed_one small_embedder "Python C++ a .NET").

End Scenario.

(** ** Shapes of texts *)

Module TextShape.
Import PyStr.

(** No character of [s] is [c]. *)
Fixpoint lacks (c : ascii) (s : string) : bool :=
  match s with
  | "" => true
  | String a s' => negb (Ascii.eqb a c) && lacks c s'
  end.

(** No run of more than [k] consecutive [c] in [s], when [seen]
    occurrences of [c] stand just before [s]. *)
Fixpoint runs_at_most (c : ascii) (k seen : nat) (s : string) : bool :=
  match s with
  | "" => true
  | String a s' =>
      if Ascii.eqb a c then Nat.ltb seen k && runs_at_most c k (S seen) s'
      else runs_at_most c k 0 s'
  end.

(** Every character of [s] is white space. *)
Fixpoint all_space (s : string) : bool :=
  match s with
  | "" => true
  | String a s' => is_space a && all_space s'
  end.

(** [s] does not begin with white space. *)
Definition head_not_space (s : string) : bool :=
  match s with
  | "" => true
  | String a _ => negb (is_space a)
  end.

End TextShape.

(** ** Notions for the chunker *)

Module ChunkSpec.
Import PyStr Chunking.

(** The sections that [chunk_text] walks through. *)
Definition sections_of (text : string) : list (string * string) :=
  let text := normalize_text text in
  match split_into_sections text with
  | [] => [("BODY", text)]
  | secs => secs
  end.

(** The paragraphs of a section:
    [[p.strip() for p in section_text.split("\n\n") if p.strip()]]. *)
Definition paragraphs_of (section_text : string) : list string :=
  map strip (filter (fun p => PyStr.truthy (strip p)) (split_blank_lines section_text)).

(** The paragraphs of a text, section after section. *)
Definition paragraphs (text : string) : list string :=
  flat_map (fun sec => paragraphs_of (snd sec)) (sections_of text).

(** The chunks are numbered from zero in the order of the list, and each
    carries the name of the document, the title of one of the sections, and
    a text that satisfies [Q]. *)
Definition numbered (doc_name : string) (titles : list string) (Q : string -> Prop)
           (chunks : list Chunk) : Prop :=
  forall i c, nth_error chunks i = Some c ->
    exists title txt,
      In title titles /\ Q txt /\ c = make_chunk doc_name title (Z.of_nat i) txt.

(** The number that a string of decimal digits denotes. *)
Definition digits_value (s : string) : option N :=
  option_map N.of_uint (NilEmpty.uint_of_string s).

(** The title of the section is a line that [_SECTION_RE] matches. *)
Definition header_title {A : Type} (tb : string * A) : Prop :=
  section_re_match (fst tb) = true.

(** The title of the section is [BODY] or a header line. *)
Definition body_or_header {A : Type} (tb : string * A) : Prop :=
  fst tb = "BODY" \/ section_re_match (fst tb) = true.

(** The sections are titled as the splitter titles them: [BODY] stands
    first, if anywhere, and every other title is a header line. *)
Definition titled {A : Type} (l : list (string * A)) : Prop :=
  Forall body_or_header l /\ Forall header_title (tl l).

(** The state of the loops of [chunk_text]: the chunks emitted so far,
    numbered, and the next sequence number, which is their count. *)
Definition numbered_state (doc_name : string) (titles : list string) (Q : string -> Prop)
           (st : list Chunk * Z) : Prop :=
  snd st = Z.of_nat (List.length (fst st)) /\ numbered doc_name titles Q (fst st).

End ChunkSpec.

(** ** Notions for the tokens *)

Module TokenSpec.
Import PyStr Embeddings.


(** No two token characters of [s] stand side by side; [prev] tells that
    a token character stands just before [s]. *)
Fixpoint lone_token_chars (prev : bool) (s : string) : bool :=
  match s with
  | "" => true
  | String c s' =>
      if is_token_char c then negb prev && lone_token_chars true s'
      else lone_token_chars false s'
  end.

End TokenSpec.

(** ** Notions for batches and listings *)

Module BatchSpec.
Import PyFloat VectorStore.

(** The name under which [upsert] stores a record: the [doc_name] of its
    metadata, else its [source], else [unknown], as the column takes it. *)
Definition stored_name (X : Extern) (meta : dict) : Result string :=
  doc_name_column X
    (py_or (py_or (get_or_none meta "doc_name") (get_or_none meta "source"))
           (JStr "unknown")).

(** The row that a record of a batch becomes. *)
Definition row_of (X : Extern) (r : string * list float * string * dict) : Result Row :=
  let '(_id, emb, doc, meta) := r in
  name <- stored_name X meta ;;
  Ok (mkRow _id name doc meta (array_f emb)).

(** The id of the row is none of [ids]. *)
Definition id_not_in (ids : list string) (row : Row) : bool :=
  negb (existsb (String.eqb (id row)) ids).

(** Strictly ascending order of strings, by code points. *)
Definition str_lt (a b : string) : Prop := String.compare a b = Lt.

(** The id of a record of a batch. *)
Definition record_id (r : string * list float * string * dict) : string :=
  fst (fst (fst r)).

(** The tuple that [upsert] builds for a record. *)
Definition raw_row (r : string * list float * string * dict)
  : string * json * string * dict * list float :=
  let '(_id, emb, doc, meta) := r in
  (_id,
   py_or (py_or (get_or_none meta "doc_name") (get_or_none meta "source")) (JStr "unknown"),
   doc, meta, array_f emb).

End BatchSpec.

(** ** Notions for the results of the orchestrator *)

Module ResultSpec.
Import PyFloat.

(** What the schema and the slices of the orchestrator promise of a
    screening result. *)
Definition well_formed (r : ScreeningResult.t) : Prop :=
  In (ScreeningResult.overall_fit r) ScreeningResult.OverallFit
  /\ in_unit (ScreeningResult.confidence r) = true
  /\ (List.length (ScreeningResult.strengths r) <= 8)%nat
  /\ (List.length (ScreeningResult.gaps r) <= 8)%nat
  /\ (List.length (ScreeningResult.citations r) <= 6)%nat.



(** The evidence-only result of a document of which nothing was
    retrieved. *)
Definition no_evidence_result (doc_name : string) : ScreeningResult.t :=
  ScreeningResult.make
    doc_name "Unclear" zero
    ("LLM is not configured or retrieval confidence is low. "
       ++ "Showing best-effort, evidence-first excerpts." ++ PyStr.nl
       ++ "Reason: No relevant context retrieved.")
    ["See cited excerpts for evidence; configure LLM for richer synthesis."]
    ["Insufficient evidence to fully assess without stronger retrieval / LLM synthesis."]
    [].

End ResultSpec.

(** ** Answers without the keys asked for *)

Module ReplySpec.

(** The [dict] holds none of the keys that [_parse_screening_json] reads. *)
Definition no_screening_key (data : dict) : bool :=
  forallb (fun k => negb (PyDict.mem data k))
          ["citations"; "overall_fit"; "confidence"; "summary"; "strengths"; "gaps"].

(** What [_parse_screening_json] makes of an answer without any of its
    keys: the defaults of the code, and the first three retrieved chunks as
    citations. *)
Definition default_result (doc_name : string) (chunks : list RetrievedChunk.t)
  : ScreeningResult.t :=
  ScreeningResult.make doc_name "Unclear" (PyFloat.lit 4 10) "" [] []
                       (map (Rag.citation_of_chunk doc_name) (firstn 3 chunks)).

End ReplySpec.

(** ** What ingestion stores *)

Module IngestSpec.
Import VectorStore.

(** The metadata that [ingest_file] writes for a chunk: those of the
    chunk, updated with the name of the document, as [doc_name] and as
    [source], and with the metadata of the document. *)
Definition ingest_meta (doc : Loaders.LoadedDoc) (c : Chunking.Chunk) : dict :=
  PyDict.update
    (Chunking.meta c)
    (PyDict.update
       [ ("doc_name", JStr (Loaders.doc_name doc));
         ("source", JStr (Loaders.doc_name doc)) ]
       (Loaders.meta doc)).

(** The row of a chunk and its vector, stored under the name of the
    document. *)
Definition ingest_row (doc : Loaders.LoadedDoc) (cv : Chunking.Chunk * list PyFloat.float)
  : Row :=
  mkRow (Chunking.chunk_id (fst cv)) (Loaders.doc_name doc) (Chunking.text (fst cv))
        (ingest_meta doc (fst cv)) (array_f (snd cv)).

(** Every binding of [k] in [d] holds [v]. *)
Definition binds_only (k : string) (v : json) (d : dict) : Prop :=
  forall v', In (k, v') d -> v' = v.

End IngestSpec.

(** ** The types of files *)

Module LoadingSpec.

(** The file types that [load_document] supports. *)
Definition supported : list string := ["txt"; "docx"; "pdf"].

End LoadingSpec.

(** ** Zeros *)

Module ZeroSpec.
Import PyFloat.

(** The value is a zero or a finite number: neither an infinity nor NaN. *)
Definition is_finite (x : float) : bool :=
  match x with
  | S754_zero _ | S754_finite _ _ _ => true
  | _ => false
  end.

(** The value is a zero, of either sign. *)
Definition is_zero (x : float) : bool :=
  match x with
  | S754_zero _ => true
  | _ => false
  end.

(** The refusal of [answer_question]. *)
Definition refusal (reason : string) : string :=
  ("I don't have enough evidence in the indexed resumes to answer that."
     ++ PyStr.nlnl ++ "Reason: " ++ reason)%string.

End ZeroSpec.

(** ** More worked inputs *)

Module Cases.
Import PyFloat.

(** An Ollama server that answers every call in prose; its state counts
    the calls. *)
Definition prose_server (s : nat) (url : string) (payload : json) (timeout : Z)
  : Result json * nat :=
  (Ok (JObj [ ("model", JStr "llama3.1");
              ("message", JObj [ ("role", JStr "assistant");
                                 ("content", JStr " A good fit, I think. ") ]) ]),
   S s).

(** A parser that refuses the text at hand. *)
Definition refusing_loads (text : string) : Result json := Raise (Exn "JSONDecodeError").

Definition local_ollama : Ollama.OllamaLLM :=
  Ollama.make "llama3.1" "http://127.0.0.1:11434/".

(** Seven names, of which the store holds the first. *)
Definition seven_names : list string :=
  ["a.txt"; "b.txt"; "c.txt"; "d.txt"; "e.txt"; "f.txt"; "g.txt"].

Definition seven_blocks : list string :=
  Eval vm_compute in
    value_or [] (mapM (Rag.compare_block Examples.extern Scenario.config Scenario.resume_store
                                         "python developer") seven_names).

(** The chunks retrieved for a question that holds no token. *)
Definition retrieved_for_no_token : list RetrievedChunk.t :=
  Eval vm_compute in
    value_or [] (Rag._retrieve Examples.extern Scenario.config Scenario.resume_store
                               "? & !" None).

(** A scanned PDF of two pages: the extraction of the first page raises,
    that of the second returns nothing. *)
Definition scanned : Loaders.Readers :=
  {| Loaders.read_text := fun _ => Raise (Exn "FileNotFoundError");
     Loaders.docx_paragraphs := fun _ => Raise (Exn "PackageNotFoundError");
     Loaders.pdf_pages := fun _ => Ok [Raise (Exn "PdfReadError"); Ok None] |}.

Definition scan_path : Loaders.Path :=
  {| Loaders.name := "scan.PDF"; Loaders.suffix := ".PDF" |}.

(** The document that is loaded from it. *)
Definition scanned_doc : Loaders.LoadedDoc :=
  {| Loaders.doc_name := "scan.PDF";
     Loaders.text := ("[PAGE 1]" ++ PyStr.nlnl ++ PyStr.nl ++ "[PAGE 2]")%string;
     Loaders.meta := [("type", JStr "pdf"); ("num_pages", JInt 2)] |}.

End Cases.

(** * Properties *)

(** ** Order of binary64 values *)

Module FloatFacts.
Import PyFloat FloatOrder.

Lemma compare_rank (x y : float) :
  is_nan x = false -> is_nan y = false ->
  SFcompare x y = Some (lex3 (rank x) (rank y)).
Proof.
  destruct x as [sx|sx| |sx mx ex], y as [sy|sy| |sy my ey];
    simpl; try discriminate; intros _ _;
    try (destruct sx); try (destruct sy); try reflexivity.
  unfold lex3; simpl. rewrite Z.compare_opp.
  rewrite (Z.compare_antisym ex ey).
  destruct (ex ?= ey); reflexivity.
Qed.

Lemma lex3_le (a b : Z * Z * Z) : lex3 a b <> Gt <-> lex_le a b.
Proof.
  destruct a as [[a1 a2] a3], b as [[b1 b2] b3]; unfold lex3, lex_le; simpl.
  destruct (Z.compare_spec a1 b1); [destruct (Z.compare_spec a2 b2);
    [destruct (Z.compare_spec a3 b3)| | ]| | ];
    split; intros; try congruence; try lia.
Qed.

Lemma lex3_lt (a b : Z * Z * Z) : lex3 a b = Lt <-> ~ lex_le b a.
Proof.
  destruct a as [[a1 a2] a3], b as [[b1 b2] b3]; unfold lex3, lex_le; simpl.
  destruct (Z.compare_spec a1 b1); [destruct (Z.compare_spec a2 b2);
    [destruct (Z.compare_spec a3 b3)| | ]| | ];
    split; intros; try congruence; try lia.
Qed.


Lemma lex_le_trans (a b c : Z * Z * Z) : lex_le a b -> lex_le b c -> lex_le a c.
Proof. unfold lex_le; lia. Qed.

Lemma leb_not_nan (x y : float) :
  leb x y = true -> is_nan x = false /\ is_nan y = false.
Proof.
  unfold leb, SFleb; destruct x, y; simpl; try discriminate; auto.
Qed.



Lemma leb_rank (x y : float) :
  is_nan x = false -> is_nan y = false ->
  (leb x y = true <-> lex_le (rank x) (rank y)).
Proof.
  intros Hx Hy. unfold leb, SFleb. rewrite (compare_rank x y Hx Hy).
  rewrite <- lex3_le. destruct (lex3 (rank x) (rank y)); split; congruence.
Qed.

Lemma ltb_rank (x y : float) :
  is_nan x = false -> is_nan y = false ->
  (ltb x y = true <-> ~ lex_le (rank y) (rank x)).
Proof.
  intros Hx Hy. unfold ltb, SFltb. rewrite (compare_rank x y Hx Hy).
  rewrite <- lex3_lt. destruct (lex3 (rank x) (rank y)); split; congruence.
Qed.


Lemma ltb_leb (x y : float) : ltb x y = true -> leb x y = true.
Proof.
  unfold ltb, leb, SFltb, SFleb. destruct (SFcompare x y) as [[]|]; congruence.
Qed.

Lemma leb_trans (x y z : float) :
  leb x y = true -> leb y z = true -> leb x z = true.
Proof.
  intros Hxy Hyz.
  destruct (leb_not_nan _ _ Hxy) as [Hx Hy].
  destruct (leb_not_nan _ _ Hyz) as [_ Hz].
  apply leb_rank; auto.
  apply lex_le_trans with (rank y); apply leb_rank; auto.
Qed.

(** Among values that are not NaN, [not (x < y)] means [y <= x]. *)
Lemma not_ltb_leb (x y : float) :
  is_nan x = false -> is_nan y = false -> ltb x y = false -> leb y x = true.
Proof.
  intros Hx Hy H. apply leb_rank; auto.
  destruct (ltb x y) eqn:E; [discriminate|].
  pose proof (ltb_rank x y Hx Hy) as R.
  unfold lex_le in *. destruct (rank x) as [[a1 a2] a3], (rank y) as [[b1 b2] b3].
  simpl in *.
  assert (N : ~ ~ (b1 < a1 \/ b1 = a1 /\ (b2 < a2 \/ b2 = a2 /\ b3 <= a3))).
  { intro K. apply R in K. congruence. }
  lia.
Qed.


Lemma in_unit_not_nan (x : float) : in_unit x = true -> is_nan x = false.
Proof.
  unfold in_unit. intros H. apply andb_prop in H. destruct H as [H _].
  apply leb_not_nan in H. tauto.
Qed.

(** [max(0.0, min(1.0, x))] lies in [0, 1] whatever [x] is, NaN and the
    infinities included. *)
Lemma clamp01_in_unit (x : float) : in_unit (clamp01 x) = true.
Proof.
  unfold clamp01, py_min, py_max.
  destruct (ltb x one) eqn:L1.
  - destruct (ltb zero x) eqn:L0.
    + unfold in_unit. rewrite (ltb_leb _ _ L0), (ltb_leb _ _ L1). reflexivity.
    + reflexivity.
  - reflexivity.
Qed.

End FloatFacts.

(** ** The similarity store *)

Module VectorStoreFacts.
Import PyFloat FloatOrder FloatFacts VectorStore StoreSpec.

(** *** Lists *)

Lemma Forall_firstn_of {A : Type} (P : A -> Prop) (n : nat) (l : list A) :
  Forall P l -> Forall P (firstn n l).
Proof.
  revert n; induction l as [|a l IH]; intros [|n] H; simpl; auto.
  inversion H; subst. constructor; auto.
Qed.

Lemma StronglySorted_firstn {A : Type} (R : A -> A -> Prop) (n : nat) (l : list A) :
  StronglySorted R l -> StronglySorted R (firstn n l).
Proof.
  revert n; induction l as [|a l IH]; intros [|n] H; simpl; try constructor.
  - apply IH. inversion H; assumption.
  - apply Forall_firstn_of. inversion H; assumption.
Qed.


Lemma slice_to_firstn {A : Type} (l : list A) (k : Z) :
  exists n, PyList.slice_to l k = firstn n l /\ (0 <= k -> n = Z.to_nat k).
Proof.
  unfold PyList.slice_to. destruct (k <? 0) eqn:E.
  - eexists; split; [reflexivity|]. apply Z.ltb_lt in E. lia.
  - eexists; split; [reflexivity|]. reflexivity.
Qed.

(** *** The stable descending sort *)

Lemma insert_desc_perm (x : hit) (l : list hit) :
  Permutation (insert_desc x l) (x :: l).
Proof.
  induction l as [|y l IH]; simpl; auto.
  destruct (ltb (hit_score x) (hit_score y)); auto.
  rewrite IH. apply perm_swap.
Qed.

Lemma sort_desc_perm (l : list hit) : Permutation (sort_desc l) l.
Proof.
  induction l as [|x l IH]; simpl; auto.
  rewrite insert_desc_perm. auto.
Qed.

Lemma insert_desc_sorted (x : hit) (l : list hit) :
  is_nan (hit_score x) = false ->
  Forall (fun h => is_nan (hit_score h) = false) l ->
  StronglySorted score_ge l -> StronglySorted score_ge (insert_desc x l).
Proof.
  intros Hx Hl Hs. induction l as [|y l IH]; simpl.
  - repeat constructor.
  - inversion Hl as [|? ? Hy Hl']; subst. inversion Hs as [|? ? Hs' Hall]; subst.
    destruct (ltb (hit_score x) (hit_score y)) eqn:L.
    + constructor; [apply IH; assumption|].
      rewrite (insert_desc_perm x l). constructor; [|assumption].
      unfold score_ge. apply ltb_leb. assumption.
    + assert (Hyx : score_ge x y) by (apply not_ltb_leb; assumption).
      constructor; [assumption|]. constructor; [assumption|].
      eapply Forall_impl; [|exact Hall].
      intros h Hh. unfold score_ge in *. eapply leb_trans; eassumption.
Qed.

Lemma sort_desc_sorted (l : list hit) :
  Forall (fun h => is_nan (hit_score h) = false) l ->
  StronglySorted score_ge (sort_desc l).
Proof.
  induction l as [|x l IH]; simpl; intros H.
  - constructor.
  - inversion H; subst. apply insert_desc_sorted; auto.
    rewrite (sort_desc_perm l). assumption.
Qed.



(** *** Scores *)

Lemma fold_left_ext {A B : Type} (f g : A -> B -> A) (l : list B) (a : A) :
  (forall a b, f a b = g a b) -> fold_left f l a = fold_left g l a.
Proof.
  intros H. revert a. induction l as [|b l IH]; intros a; simpl; auto.
  rewrite H. apply IH.
Qed.

Lemma fold_left_through_map {A B C : Type} (f : A -> C -> A) (g : B -> C)
      (l : list B) (a : A) :
  fold_left f (map g l) a = fold_left (fun a b => f a (g b)) l a.
Proof.
  revert a. induction l as [|b l IH]; intros a; simpl; auto.
Qed.

Lemma fold_seq_combine (q emb : list float) (acc : float) :
  fold_left (fun score i => add score (mul (nth i q zero) (nth i emb zero)))
            (seq 0 (Nat.min (List.length q) (List.length emb))) acc
  = fold_left (fun acc p => add acc (mul (fst p) (snd p))) (combine q emb) acc.
Proof.
  revert emb acc. induction q as [|x q IH]; intros [|y emb] acc; try reflexivity.
  cbn [List.length Nat.min seq combine fold_left nth fst snd].
  rewrite <- seq_shift, fold_left_through_map. rewrite <- IH.
  apply fold_left_ext. reflexivity.
Qed.





Lemma dot_score_combine (q emb : list float) :
  dot_score q emb
  = fold_left (fun acc p => add acc (mul (fst p) (snd p))) (combine q emb) zero.
Proof. unfold dot_score. apply fold_seq_combine. Qed.

(** *** Selection *)


(** *** Claims on [query] *)

Lemma scored_in_unit (q : list float) (rows : list Row) :
  Forall (fun h => in_unit (hit_score h) = true) (map (score_row q) rows).
Proof.
  apply Forall_forall. intros h Hin. apply in_map_iff in Hin.
  destruct Hin as [row [<- _]]. apply clamp01_in_unit.
Qed.





End VectorStoreFacts.

(** ** Writing to the store *)

Module UpsertFacts.
Import PyFloat VectorStore StoreSpec VectorStoreFacts.

Lemma filter_filter_negb {A : Type} (p : A -> bool) (l : list A) :
  filter p (filter (fun a => negb (p a)) l) = [].
Proof.
  induction l as [|a l IH]; simpl; auto.
  destruct (p a) eqn:E; simpl; auto. rewrite E. assumption.
Qed.

Lemma filter_idem {A : Type} (p : A -> bool) (l : list A) :
  filter p (filter p l) = filter p l.
Proof.
  induction l as [|a l IH]; simpl; auto.
  destruct (p a) eqn:E; simpl; auto. rewrite E, IH. reflexivity.
Qed.

(** A single-record [upsert] is one [INSERT OR REPLACE]. *)
Lemma upsert_one (X : Extern) (st : store) (_id : string) (emb : list float)
      (doc : string) (meta : dict) :
  upsert X st [_id] [emb] [doc] [meta]
  = (name <- doc_name_column X
               (py_or (py_or (get_or_none meta "doc_name") (get_or_none meta "source"))
                      (JStr "unknown")) ;;
     Ok (filter (fun row => negb (String.eqb (id row) _id)) st
         ++ [mkRow _id name doc meta (array_f emb)])).
Proof.
  unfold upsert. cbn [zip4 map executemany insert_or_replace].
  destruct (doc_name_column X _); reflexivity.
Qed.

Lemma insert_name_in (s : string) (l : list string) : In s (insert_name s l).
Proof.
  induction l as [|t l IH]; simpl; auto.
  destruct (String.compare s t) eqn:E; simpl; auto.
  apply String.compare_eq_iff in E. auto.
Qed.

Lemma insert_name_keeps (s t : string) (l : list string) :
  In t l -> In t (insert_name s l).
Proof.
  induction l as [|u l IH]; simpl; [tauto|].
  intros H. destruct (String.compare s u); simpl; tauto.
Qed.

Lemma list_doc_names_in (st : store) (row : Row) :
  In row st -> In (doc_name row) (list_doc_names st).
Proof.
  unfold list_doc_names. induction st as [|r st IH]; simpl; [tauto|].
  intros [->|H]; [apply insert_name_in | apply insert_name_keeps; auto].
Qed.

(** C6. In every store state and for every id, after a record has been
    upserted under the id and then another record under the same id, the
    store holds exactly one row under the id, and its text, metadata and
    vector are those of the second write; the rows of the other ids are
    what they were, in the same order. *)
Theorem upsert_twice_last_write_wins (X : Extern) (st st1 st2 : store) (_id : string)
        (emb1 emb2 : list float) (doc1 doc2 : string) (meta1 meta2 : dict) :
  upsert X st [_id] [emb1] [doc1] [meta1] = Ok st1 ->
  upsert X st1 [_id] [emb2] [doc2] [meta2] = Ok st2 ->
  (exists name,
      doc_name_column X
        (py_or (py_or (get_or_none meta2 "doc_name") (get_or_none meta2 "source"))
               (JStr "unknown")) = Ok name
      /\ filter (fun row => String.eqb (id row) _id) st2
         = [mkRow _id name doc2 meta2 (array_f emb2)])
  /\ filter (fun row => negb (String.eqb (id row) _id)) st2
     = filter (fun row => negb (String.eqb (id row) _id)) st.
Proof.
  rewrite !upsert_one. intros H1 H2.
  destruct (doc_name_column X _) as [name1|] in H1; [|discriminate].
  destruct (doc_name_column X _) as [name2|] eqn:Hname in H2; [|discriminate].
  cbn [bind] in *. injection H1 as <-. injection H2 as <-.
  split.
  - exists name2. split; [exact Hname|]. rewrite filter_app, filter_filter_negb.
    cbn [filter app id]. rewrite String.eqb_refl. reflexivity.
  - rewrite filter_app, filter_idem. cbn [filter id].
    rewrite String.eqb_refl. cbn [negb]. rewrite app_nil_r.
    rewrite filter_app, filter_idem. cbn [filter id].
    rewrite String.eqb_refl. cbn [negb]. apply app_nil_r.
Qed.

Lemma upsert_twice_last_write_wins_witness :
  (exists name,
      doc_name_column Examples.extern
        (py_or (py_or (get_or_none [("doc_name", JStr "a.txt"); ("n", JInt 2)] "doc_name")
                      (get_or_none [("doc_name", JStr "a.txt"); ("n", JInt 2)] "source"))
               (JStr "unknown")) = Ok name
      /\ filter (fun row => String.eqb (id row) "a.txt:0001")
             (filter (fun row => negb (String.eqb (id row) "a.txt:0001")) Examples.three_rows
                ++ [mkRow "a.txt:0001" "a.txt" "second" [("doc_name", JStr "a.txt"); ("n", JInt 2)]
                          (array_f [half])])
      = [mkRow "a.txt:0001" name "second" [("doc_name", JStr "a.txt"); ("n", JInt 2)]
               (array_f [half])])
  /\ filter (fun row => negb (String.eqb (id row) "a.txt:0001"))
            (filter (fun row => negb (String.eqb (id row) "a.txt:0001")) Examples.three_rows
                ++ [mkRow "a.txt:0001" "a.txt" "second" [("doc_name", JStr "a.txt"); ("n", JInt 2)]
                          (array_f [half])])
     = filter (fun row => negb (String.eqb (id row) "a.txt:0001")) Examples.three_rows.
Proof.
  apply (upsert_twice_last_write_wins Examples.extern Examples.three_rows
           (filter (fun row => negb (String.eqb (id row) "a.txt:0001")) Examples.three_rows
              ++ [mkRow "a.txt:0001" "b.txt" "first" [("source", JStr "b.txt")] (array_f [one; one])])
           _ "a.txt:0001" [one; one] [half] "first" "second"
           [("source", JStr "b.txt")] [("doc_name", JStr "a.txt"); ("n", JInt 2)]);
    reflexivity.
Defined.





End UpsertFacts.

(** ** The orchestrator *)

Module RagFacts.
Import PyFloat FloatOrder FloatFacts Rag.

(** *** The confidence gate *)

Lemma eqb_not_ltb (x y : float) : eqb x y = true -> ltb x y = false.
Proof.
  unfold eqb, ltb, SFeqb, SFltb. destruct (SFcompare x y) as [[]|]; congruence.
Qed.

Lemma leb_refl (x : float) : is_nan x = false -> leb x x = true.
Proof.
  intros H. apply leb_rank; auto. unfold lex_le. lia.
Qed.

Lemma py_max_not_nan (a b : float) :
  is_nan a = false -> is_nan b = false -> is_nan (py_max a b) = false.
Proof. unfold py_max. destruct (ltb a b); auto. Qed.

Lemma py_max_upper (a b : float) :
  is_nan a = false -> is_nan b = false ->
  leb a (py_max a b) = true /\ leb b (py_max a b) = true.
Proof.
  intros Ha Hb. unfold py_max. destruct (ltb a b) eqn:L.
  - split; [apply ltb_leb; assumption | apply leb_refl; assumption].
  - split; [apply leb_refl; assumption | apply not_ltb_leb; assumption].
Qed.

(** On scores that are not NaN, the running maximum of [max(...)] is an
    upper bound of the start value and of every score. *)
Lemma running_max_upper (cs : list RetrievedChunk.t) (b : float) :
  is_nan b = false ->
  Forall (fun c => is_nan (RetrievedChunk.score c) = false) cs ->
  let best := fold_left (fun best c' => py_max best (RetrievedChunk.score c')) cs b in
  is_nan best = false
  /\ leb b best = true
  /\ Forall (fun c => leb (RetrievedChunk.score c) best = true) cs.
Proof.
  revert b. induction cs as [|c cs IH]; intros b Hb Hcs; cbn [fold_left].
  - split; [assumption|]. split; [apply leb_refl; assumption | constructor].
  - inversion Hcs as [|? ? Hc Hcs']; subst.
    destruct (py_max_upper b _ Hb Hc) as [U1 U2].
    destruct (IH (py_max b (RetrievedChunk.score c))
                 (py_max_not_nan _ _ Hb Hc) Hcs') as [N [L F]].
    split; [assumption|]. split; [eapply leb_trans; eassumption|].
    constructor; [eapply leb_trans; eassumption | assumption].
Qed.

(** C3. The gate fails exactly when no chunk was retrieved (with the
    reason that no relevant context was retrieved) or when the best
    retrieved score is strictly below [min_relevance_score] (with a reason
    that reports both numbers); a best score equal to the threshold passes.
    With the threshold 0.25, a best score of 0.25 passes and a best score
    of 0.24999 fails. The best score is the greatest retrieved score
    whenever the scores come from the store (they lie in [0, 1]). *)
Theorem guardrail_gate (cfg : RAGConfig) (chunks : list RetrievedChunk.t) :
  (fst (_guardrail_context cfg chunks) = false <->
     chunks = []
     \/ exists c cs, chunks = c :: cs
                     /\ ltb (best_score c cs) (min_relevance_score cfg) = true)
  /\ (chunks = [] ->
      _guardrail_context cfg chunks = (false, "No relevant context retrieved."))
  /\ (forall c cs, chunks = c :: cs ->
        ltb (best_score c cs) (min_relevance_score cfg) = true ->
        _guardrail_context cfg chunks
        = (false,
           ("Low retrieval confidence (best score=" ++ fmt_2f (best_score c cs)
              ++ " < " ++ fmt_2f (min_relevance_score cfg) ++ ").")%string))
  /\ (forall c cs, chunks = c :: cs ->
        eqb (best_score c cs) (min_relevance_score cfg) = true ->
        _guardrail_context cfg chunks = (true, ""))
  /\ (forall c cs, chunks = c :: cs ->
        Forall (fun c' => in_unit (RetrievedChunk.score c') = true) chunks ->
        Forall (fun c' => leb (RetrievedChunk.score c') (best_score c cs) = true) chunks)
  /\ (forall c,
        RetrievedChunk.score c = lit 25 100 ->
        _guardrail_context (default_config "db") [c] = (true, ""))
  /\ (forall c,
        RetrievedChunk.score c = lit 24999 100000 ->
        _guardrail_context (default_config "db") [c]
        = (false, "Low retrieval confidence (best score=0.25 < 0.25).")).
Proof.
  split; [|split; [|split; [|split; [|split; [|split]]]]].
  - destruct chunks as [|c cs]; cbn [_guardrail_context].
    + split; auto.
    + destruct (ltb (best_score c cs) (min_relevance_score cfg)) eqn:L; cbn [fst].
      * split; [|reflexivity]. intros _. right. exists c, cs. auto.
      * split; [discriminate|]. intros [H|[c' [cs' [H L']]]]; [discriminate|].
        injection H as <- <-. congruence.
  - intros ->. reflexivity.
  - intros c cs -> L. cbn [_guardrail_context]. rewrite L. reflexivity.
  - intros c cs -> E. cbn [_guardrail_context]. rewrite (eqb_not_ltb _ _ E). reflexivity.
  - intros c cs -> H. inversion H as [|? ? Hc Hcs]; subst.
    assert (Nc : is_nan (RetrievedChunk.score c) = false) by (apply in_unit_not_nan; assumption).
    assert (Ncs : Forall (fun c' => is_nan (RetrievedChunk.score c') = false) cs).
    { eapply Forall_impl; [|exact Hcs]. intros ?; apply in_unit_not_nan. }
    destruct (running_max_upper cs _ Nc Ncs) as [_ [L F]].
    constructor; assumption.
  - intros c Hc. cbn [_guardrail_context best_score fold_left]. rewrite Hc. reflexivity.
  - intros c Hc. cbn [_guardrail_context best_score fold_left]. rewrite Hc. reflexivity.
Qed.

(** *** Structured screening *)

Lemma slice_to_nonneg {A : Type} (l : list A) (k : Z) :
  0 <= k -> PyList.slice_to l k = firstn (Z.to_nat k) l.
Proof.
  intros H. unfold PyList.slice_to.
  destruct (k <? 0) eqn:E; [apply Z.ltb_lt in E; lia | reflexivity].
Qed.

Lemma in_firstn_in {A : Type} (n : nat) (l : list A) (x : A) :
  In x (firstn n l) -> In x l.
Proof.
  intros H. rewrite <- (firstn_skipn n l). apply in_or_app. left. assumption.
Qed.

Lemma citations_of_chunks_cite (doc_name : string) (n : nat) (chunks : list RetrievedChunk.t) :
  Forall (fun c => In (Citation.chunk_id c) (map RetrievedChunk.chunk_id chunks))
         (map (citation_of_chunk doc_name) (firstn n chunks)).
Proof.
  apply Forall_forall. intros c Hin. apply in_map_iff in Hin.
  destruct Hin as [ch [<- Hch]]. cbn [citation_of_chunk Citation.chunk_id].
  apply in_map. eapply in_firstn_in; eassumption.
Qed.

(** The evidence-only result never fails validation: its label is one of
    the literals and its confidence is clamped. Its citations are the first
    three retrieved chunks. *)
Lemma screen_fallback_ok (doc_name job_desc : string) (chunks : list RetrievedChunk.t)
      (reason : string) :
  exists fb,
    _screen_fallback doc_name job_desc chunks reason = Ok fb
    /\ ScreeningResult.resume_name fb = doc_name
    /\ ScreeningResult.citations fb = map (citation_of_chunk doc_name) (firstn 3 chunks).
Proof.
  unfold _screen_fallback, ScreeningResult.validated.
  set (conf := match PyList.slice_to chunks 5 with [] => zero | _ => _ end).
  pose proof (clamp01_in_unit conf) as U. unfold in_unit in U.
  apply andb_prop in U. destruct U as [U0 U1]. rewrite U0, U1.
  rewrite !slice_to_nonneg by lia. rewrite firstn_firstn.
  change (Nat.min (Z.to_nat 3) (Z.to_nat 5)) with 3%nat.
  destruct (ltb conf (lit 35 100)); [|destruct (ltb conf (lit 55 100))];
    cbn [existsb ScreeningResult.OverallFit String.eqb Ascii.eqb Bool.eqb orb andb];
    eexists; (split; [reflexivity|]); split; reflexivity.
Qed.

(** What a parsed answer cites: the first three retrieved chunks when the
    answer offers no usable citation, the first six offered citations
    otherwise. *)
Lemma parse_citations (X : Extern) (doc_name : string) (data : json)
      (chunks : list RetrievedChunk.t) (sr : ScreeningResult.t) :
  _parse_screening_json X doc_name data chunks = Ok sr ->
  ScreeningResult.resume_name sr = doc_name
  /\ ((RagSpec.usable_citations X doc_name data = []
       /\ ScreeningResult.citations sr = map (citation_of_chunk doc_name) (firstn 3 chunks))
      \/ (RagSpec.usable_citations X doc_name data <> []
          /\ ScreeningResult.citations sr
             = firstn 6 (RagSpec.usable_citations X doc_name data))).
Proof.
  destruct data as [| | | | |items|d]; try discriminate.
  unfold _parse_screening_json, RagSpec.usable_citations.
  destruct (py_iter _) as [items|e]; [|discriminate]. cbn [bind].
  destruct (py_float X _) as [conf|e]; [|discriminate]. cbn [bind].
  destruct (str_list X d "strengths") as [strengths|e]; [|discriminate]. cbn [bind].
  destruct (str_list X d "gaps") as [gaps|e]; [|discriminate]. cbn [bind].
  unfold ScreeningResult.validated.
  destruct (PyDict.get_default d "overall_fit" (JStr "Unclear")); try discriminate.
  destruct (_ && _ && _); [|discriminate].
  intros H. injection H as <-. cbn [ScreeningResult.resume_name ScreeningResult.citations].
  split; [reflexivity|].
  rewrite !slice_to_nonneg by lia.
  destruct (flat_map (citation_of_json X doc_name) items) as [|c cs] eqn:E.
  - left. split; [reflexivity|].
    apply firstn_all2. rewrite length_map.
    pose proof (firstn_le_length 3 chunks) as L.
    change (Z.to_nat 6) with 6%nat. lia.
  - right. split; [discriminate|reflexivity].
Qed.

Lemma screen_one_result (X : Extern) (S : Type) (cfg : RAGConfig) (llm : option (BaseLLM S))
      (vs : VectorStore.store) (job_desc doc_name : string) (s s' : S)
      (r : ScreeningResult.t) :
  screen_one X S cfg llm vs job_desc doc_name s = (Ok r, s') ->
  ScreeningResult.resume_name r = doc_name
  /\ exists chunks,
      _retrieve X cfg vs job_desc (Some [("doc_name", JStr doc_name)]) = Ok chunks
      /\ ((ScreeningResult.citations r = map (citation_of_chunk doc_name) (firstn 3 chunks)
           /\ RagSpec.cites_only chunks r)
          \/ (exists l s2 data,
                llm = Some l
                /\ complete_json l s Prompts.SCREEN_SYSTEM
                                  (screen_prompt job_desc doc_name chunks) = (Ok data, s2)
                /\ RagSpec.usable_citations X doc_name data <> []
                /\ ScreeningResult.citations r
                   = firstn 6 (RagSpec.usable_citations X doc_name data))).
Proof.
  unfold screen_one.
  destruct (_retrieve X cfg vs job_desc _) as [chunks|e]; [|discriminate].
  assert (FB : forall reason st,
             (_screen_fallback doc_name job_desc chunks reason, st) = (Ok r, s') ->
             ScreeningResult.resume_name r = doc_name
             /\ ScreeningResult.citations r = map (citation_of_chunk doc_name) (firstn 3 chunks)
             /\ RagSpec.cites_only chunks r).
  { intros reason st H.
    destruct (screen_fallback_ok doc_name job_desc chunks reason) as [fb [Hfb [Hn Hc]]].
    rewrite Hfb in H. injection H as <- _. split; [assumption|]. split; [assumption|].
    unfold RagSpec.cites_only. rewrite Hc. apply citations_of_chunks_cite. }
  destruct (_guardrail_context cfg chunks) as [ok reason].
  destruct llm as [l|].
  - destruct ok; cbn [negb].
    + destruct (complete_json l s Prompts.SCREEN_SYSTEM _) as [[data|e] s2] eqn:Hcall.
      * destruct (_parse_screening_json X doc_name data chunks) as [sr|e] eqn:Hparse.
        -- intros H. injection H as <- <-.
           destruct (parse_citations X doc_name data chunks sr Hparse) as [Hn [[_ Hc]|[Hu Hc]]].
           ++ split; [assumption|]. exists chunks. split; [reflexivity|]. left.
              split; [assumption|]. unfold RagSpec.cites_only. rewrite Hc.
              apply citations_of_chunks_cite.
           ++ split; [assumption|]. exists chunks. split; [reflexivity|]. right.
              exists l, s2, data. auto.
        -- intros H. destruct (FB _ _ H) as [Hn Hc].
           split; [assumption|]. exists chunks. split; [reflexivity|]. left. assumption.
      * intros H. destruct (FB _ _ H) as [Hn Hc].
        split; [assumption|]. exists chunks. split; [reflexivity|]. left. assumption.
    + intros H. destruct (FB _ _ H) as [Hn Hc].
      split; [assumption|]. exists chunks. split; [reflexivity|]. left. assumption.
  - intros H. destruct (FB _ _ H) as [Hn Hc].
    split; [assumption|]. exists chunks. split; [reflexivity|]. left. assumption.
Qed.

(** C1, as stated, fails: with a backend whose answer cites the chunk
    [z.txt:0042], which the store does not hold, [screen_resumes] returns
    that citation, although the retrieval of the call returned the chunks
    [a.txt:0000] and [a.txt:0001] only. *)
Lemma screen_keeps_fabricated_citation :
  exists (r : ScreeningResult.t) (chunks : list RetrievedChunk.t) (c : Citation.t),
    screen_resumes Examples.extern nat Scenario.config (Some Scenario.fabricating_llm)
                   Scenario.resume_store "python developer" ["a.txt"] O
    = (Ok [r], 1%nat)
    /\ _retrieve Examples.extern Scenario.config Scenario.resume_store
                 "python developer" (Some [("doc_name", JStr "a.txt")]) = Ok chunks
    /\ map RetrievedChunk.chunk_id chunks = ["a.txt:0000"; "a.txt:0001"]
    /\ In c (ScreeningResult.citations r)
    /\ Citation.chunk_id c = "z.txt:0042"
    /\ ~ In (Citation.chunk_id c) (map RetrievedChunk.chunk_id chunks).
Proof.
  exists (ScreeningResult.make
            "a.txt" "Strong" (lit 9 10) "Good match." [] []
            [Citation.make "a.txt" "z.txt:0042" "ten years of python"]).
  exists [ RetrievedChunk.make "a.txt" "a.txt:0000" "python developer" one None;
           RetrievedChunk.make "a.txt" "a.txt:0001" "rust scheduler" zero None ].
  exists (Citation.make "a.txt" "z.txt:0042" "ten years of python").
  split; [vm_compute; reflexivity|].
  split; [vm_compute; reflexivity|].
  split; [reflexivity|].
  split; [left; reflexivity|].
  split; [reflexivity|].
  cbn. intros [H|[H|[]]]; discriminate H.
Qed.

(** C1, amended. Every result of [screen_resumes] belongs to the document
    of its turn, and its citations are either those of the first three
    chunks retrieved for that call (so that every [chunk_id] is drawn from
    the retrieved chunks), or, when the backend answered the call of that
    turn with at least one usable citation, the first six usable citations
    of that answer, copied without a check against the retrieved chunks. *)
Theorem screen_citations_origin (X : Extern) (S : Type) (cfg : RAGConfig)
        (llm : option (BaseLLM S)) (vs : VectorStore.store) (job_desc : string)
        (resume_doc_names : list string) (s s' : S) (results : list ScreeningResult.t) :
  screen_resumes X S cfg llm vs job_desc resume_doc_names s = (Ok results, s') ->
  RagSpec.citations_traced X cfg llm vs job_desc resume_doc_names results s.
Proof.
  revert s s' results.
  induction resume_doc_names as [|doc_name rest IH]; intros s s' results;
    cbn [screen_resumes RagSpec.citations_traced].
  - intros H. injection H as <- _. exact I.
  - destruct (screen_one X S cfg llm vs job_desc doc_name s) as [[sr|e] s1] eqn:Hone;
      [|discriminate].
    destruct (screen_resumes X S cfg llm vs job_desc rest s1) as [[rs|e] s2] eqn:Hrest;
      [|discriminate].
    intros H. injection H as <- _.
    destruct (screen_one_result X S cfg llm vs job_desc doc_name s s1 sr Hone) as [Hn Hc].
    split; [assumption|]. split; [assumption|].
    cbn [snd]. exact (IH s1 s2 rs Hrest).
Qed.

Lemma screen_citations_origin_witness :
  RagSpec.citations_traced Examples.extern Scenario.config (Some Scenario.flaky_llm)
                           Scenario.resume_store "python developer" ["a.txt"; "a.txt"]
                           Scenario.flaky_results O.
Proof.
  apply (screen_citations_origin Examples.extern nat Scenario.config (Some Scenario.flaky_llm)
           Scenario.resume_store "python developer" ["a.txt"; "a.txt"] O 2%nat).
  vm_compute. reflexivity.
Defined.

(** *** Failures of the backend *)

(** The gate is known to pass ([Hg]): take the branch of the call. *)
Ltac gate_passed Hg :=
  match goal with
  | |- context [_guardrail_context ?cfg ?chunks] =>
      let ok := fresh "ok" in
      let reason := fresh "reason" in
      destruct (_guardrail_context cfg chunks) as [ok reason];
      cbn [fst] in Hg; subst ok; cbn [negb]
  end.


(** An answer that cannot be parsed is treated like a failed call. *)
Lemma screen_one_malformed_answer (X : Extern) (S : Type) (cfg : RAGConfig) (l : BaseLLM S)
      (vs : VectorStore.store) (job_desc doc_name : string) (s s' : S)
      (chunks : list RetrievedChunk.t) (data : json) (e : exn) :
  _retrieve X cfg vs job_desc (Some [("doc_name", JStr doc_name)]) = Ok chunks ->
  fst (_guardrail_context cfg chunks) = true ->
  complete_json l s Prompts.SCREEN_SYSTEM (screen_prompt job_desc doc_name chunks)
  = (Ok data, s') ->
  _parse_screening_json X doc_name data chunks = Raise e ->
  screen_one X S cfg (Some l) vs job_desc doc_name s
  = (_screen_fallback doc_name job_desc chunks ("LLM error: " ++ exn_class e)%string, s').
Proof.
  intros Hr Hg Hc Hp. unfold screen_one. rewrite Hr.
  gate_passed Hg. rewrite Hc, Hp. reflexivity.
Qed.





End RagFacts.

(** ** The segmenter *)

Module ChunkingFacts.
Import PyStr Chunking.

(** C2 fails on the code. With [max_chars = 10] and [overlap_chars = 5], two
    paragraphs of eight characters give a second chunk of fifteen
    characters: the buffer seeded with the overlap tail and the next
    paragraph is emitted without being measured. With the defaults (1200
    and 150), a paragraph of 100 characters followed by one of 5000 gives a
    chunk of 5102 characters. *)
Lemma chunk_text_exceeds_max_chars :
  chunk_text "d" 10 5 ("aaaaaaaa" ++ nlnl ++ "bbbbbbbb")
  = Some [ make_chunk "d" "BODY" 0 "aaaaaaaa";
           make_chunk "d" "BODY" 1 ("aaaaa" ++ nlnl ++ "bbbbbbbb") ]
  /\ len (text (make_chunk "d" "BODY" 1 ("aaaaa" ++ nlnl ++ "bbbbbbbb"))) = 15
  /\ 10 < len (text (make_chunk "d" "BODY" 1 ("aaaaa" ++ nlnl ++ "bbbbbbbb")))
  /\ option_map (map (fun c => (chunk_id c, len (text c))))
                (chunk_text "cv.txt" 1200 150
                            (String.concat "" (repeat "a" 100) ++ nlnl
                               ++ String.concat "" (repeat "b" 5000)))
     = Some [ ("cv.txt:0000", 100); ("cv.txt:0001", 5102) ].
Proof.
  split; [vm_compute; reflexivity|]. split; [reflexivity|]. split; [reflexivity|].
  vm_compute. reflexivity.
Qed.

(** The hard split itself respects the bound: each piece is a slice of at
    most [max_chars] characters. *)
Lemma slice_length_le (p : string) (start max_chars : Z) :
  0 <= start -> 0 <= max_chars ->
  len (slice p start (start + max_chars)) <= max_chars.
Proof.
  intros Hs Hm. unfold slice, slice_index, len.
  set (n := Z.of_nat (String.length p)).
  destruct (start <? 0) eqn:E1; [apply Z.ltb_lt in E1; lia|].
  destruct (start + max_chars <? 0) eqn:E2; [apply Z.ltb_lt in E2; lia|].
  assert (L : forall a b s, (String.length (substring a b s) <= b)%nat).
  { intros a b s. revert a b. induction s as [|c s IH]; intros [|a] [|b]; simpl; try lia.
    - specialize (IH 0%nat b). lia.
    - apply IH. - apply IH. }
  specialize (L (Z.to_nat (Z.min start n))
                (Z.to_nat (Z.min (start + max_chars) n - Z.min start n)) p).
  lia.
Qed.

(** *** Termination *)

(** With [max_chars >= 1] the hard split advances by at least one
    character: the fuel that [pack_step] provides is enough, and the loop
    ends. *)
Lemma hard_split_ends (doc_name : string) (max_chars overlap_chars : Z) (fuel : nat)
      (section_title p : string) (start : Z) (chunks : list Chunk) (seq : Z) :
  1 <= max_chars ->
  len p - start < Z.of_nat fuel ->
  exists r, hard_split doc_name max_chars overlap_chars fuel section_title p start chunks seq
            = Some r.
Proof.
  intros Hm. revert start chunks seq.
  induction fuel as [|fuel IH]; intros start chunks seq Hf; cbn [hard_split].
  - destruct (start <? len p) eqn:E; [apply Z.ltb_lt in E; lia|]. eexists; reflexivity.
  - destruct (start <? len p) eqn:E; [|eexists; reflexivity].
    apply IH. destruct (overlap_chars <? max_chars) eqn:O; [apply Z.ltb_lt in O|]; lia.
Qed.

Lemma pack_ends (doc_name : string) (max_chars overlap_chars : Z) (section_title : string)
      (paras : list string) (st : string * list Chunk * Z) :
  1 <= max_chars ->
  exists st', pack doc_name max_chars overlap_chars section_title paras st = Some st'.
Proof.
  intros Hm. revert st. induction paras as [|p paras IH]; intros st; cbn [pack].
  - eexists; reflexivity.
  - assert (exists st1, pack_step doc_name max_chars overlap_chars section_title st p = Some st1)
      as [st1 ->].
    { unfold pack_step. destruct st as [[buf chunks] seq].
      destruct (len _ <=? max_chars); [eexists; reflexivity|].
      destruct (PyStr.truthy buf); [eexists; reflexivity|].
      destruct (hard_split_ends doc_name max_chars overlap_chars (S (String.length p))
                                section_title p 0 chunks seq Hm) as [[c q] ->].
      - unfold len. lia.
      - eexists; reflexivity. }
    apply IH.
Qed.

(** For [max_chars >= 1] the chunker returns, whatever the text and the
    overlap. *)
Lemma chunk_text_returns (doc_name : string) (max_chars overlap_chars : Z) (text : string) :
  1 <= max_chars ->
  exists chunks, chunk_text doc_name max_chars overlap_chars text = Some chunks.
Proof.
  intros Hm. unfold chunk_text.
  set (secs := match split_into_sections _ with [] => _ | _ => _ end).
  assert (G : forall st, exists st',
               chunk_sections doc_name max_chars overlap_chars secs st = Some st').
  { induction secs as [|sec secs IH]; intros st; cbn [chunk_sections].
    - eexists; reflexivity.
    - assert (exists st1, section_step doc_name max_chars overlap_chars st sec = Some st1)
        as [st1 ->].
      { unfold section_step. destruct st as [chunks seq], sec as [title body].
        destruct (pack_ends doc_name max_chars overlap_chars title
                    (map strip (filter (fun p => PyStr.truthy (strip p))
                                       (split_blank_lines body)))
                    ("", chunks, seq) Hm) as [[[buf c] q] ->].
        destruct (PyStr.truthy buf); eexists; reflexivity. }
      apply IH. }
  destruct (G ([], 0)) as [[chunks seq] ->]. eexists; reflexivity.
Qed.

End ChunkingFacts.

(** ** The encoder *)

Module EmbeddingFacts.
Import PyStr PyFloat FloatOrder Embeddings.



(** *** Shape of the vectors *)

Lemma put_length {A : Type} (l : list A) (k : nat) (x : A) :
  List.length (PyList.put l k x) = List.length l.
Proof.
  revert k. induction l as [|y l IH]; intros [|k]; simpl; auto.
Qed.

Lemma add_at_in_range (v : list float) (idx : Z) (x : float) :
  0 <= idx < Z.of_nat (List.length v) ->
  exists v', add_at v idx x = Ok v' /\ List.length v' = List.length v.
Proof.
  intros H. unfold add_at, PyList.index.
  destruct (0 <=? idx) eqn:E1; [|apply Z.leb_gt in E1; lia].
  destruct (idx <? Z.of_nat (List.length v)) eqn:E2; [|apply Z.ltb_ge in E2; lia].
  cbn [andb]. eexists. split; [reflexivity|]. apply put_length.
Qed.

Lemma hash_to_idx_in_range (self : LocalHashingEmbedder) (s : string) :
  0 < _dim self ->
  exists idx, _hash_to_idx self s = Ok idx /\ 0 <= idx < _dim self.
Proof.
  intros H. unfold _hash_to_idx.
  destruct (_dim self =? 0) eqn:E; [apply Z.eqb_eq in E; lia|].
  eexists. split; [reflexivity|]. apply Z.mod_pos_bound. assumption.
Qed.

Lemma accumulate_ok (self : LocalHashingEmbedder) (tokens : list string) (v : list float) :
  0 < _dim self ->
  Z.of_nat (List.length v) = _dim self ->
  exists v', accumulate self tokens v = Ok v' /\ List.length v' = List.length v.
Proof.
  intros Hd. revert v. induction tokens as [|tok rest IH]; intros v Hv; cbn [accumulate].
  - exists v. auto.
  - destruct (hash_to_idx_in_range self tok Hd) as [idx [-> Hidx]]. cbn [bind].
    destruct (add_at_in_range v idx one) as [v1 [-> L1]]; [lia|]. cbn [bind].
    assert (exists v2, match rest with
                       | next :: _ =>
                           bi <- _hash_to_idx self (tok ++ "_" ++ next)%string ;;
                           add_at v1 bi half
                       | [] => Ok v1
                       end = Ok v2 /\ List.length v2 = List.length v) as [v2 [-> L2]].
    { destruct rest as [|next rest'].
      - exists v1. auto.
      - destruct (hash_to_idx_in_range self (tok ++ "_" ++ next)%string Hd) as [bi [-> Hbi]].
        cbn [bind]. destruct (add_at_in_range v1 bi half) as [v2 [-> L2]]; [lia|].
        exists v2. split; [reflexivity|]. congruence. }
    cbn [bind]. destruct (IH v2) as [v' [-> L']]; [lia|].
    exists v'. split; [reflexivity|]. congruence.
Qed.

(** The divisor of the normalisation is never zero: no division raises. *)
Lemma truediv_norm_ok (v : list float) (x : float) :
  truediv x (norm_or_one v) = Ok (div x (norm_or_one v)).
Proof.
  unfold truediv, norm_or_one, truthy.
  destruct (eqb (sqrt (sum_squares v)) zero) eqn:E; cbn [negb].
  - reflexivity.
  - rewrite E. reflexivity.
Qed.

Lemma mapM_pure {A B : Type} (f : A -> Result B) (g : A -> B) (l : list A) :
  (forall a, f a = Ok (g a)) -> mapM f l = Ok (map g l).
Proof.
  intros H. induction l as [|a l IH]; cbn [mapM map]; [reflexivity|].
  rewrite H, IH. reflexivity.
Qed.

(** With a positive dimension [D], the encoder returns for every text a
    vector of exactly [D] components: no index is out of range and no
    division by zero occurs. *)
Lemma embed_one_dimension (self : LocalHashingEmbedder) (text : string) :
  0 < _dim self ->
  exists v, _embed_one self text = Ok v /\ Z.of_nat (List.length v) = _dim self.
Proof.
  intros Hd. unfold _embed_one.
  destruct (accumulate_ok self (findall_tokens (lower text))
                          (repeat zero (Z.to_nat (_dim self))) Hd) as [v [-> L]].
  { rewrite repeat_length. lia. }
  cbn [bind]. rewrite (mapM_pure _ (fun x => div x (norm_or_one v))).
  - eexists. split; [reflexivity|]. rewrite length_map, L, repeat_length. lia.
  - intros a. apply truediv_norm_ok.
Qed.

Lemma sum_squares_zeros (n : nat) : sum_squares (repeat zero n) = zero.
Proof.
  unfold sum_squares. induction n as [|n IH]; [reflexivity|]. cbn [repeat fold_left].
  exact IH.
Qed.

(** A text without token is encoded as the all-zero vector. *)
Lemma embed_one_no_token (self : LocalHashingEmbedder) (text : string) :
  findall_tokens (lower text) = [] ->
  _embed_one self text = Ok (repeat zero (Z.to_nat (_dim self))).
Proof.
  intros H. unfold _embed_one. rewrite H. cbn [accumulate bind].
  rewrite (mapM_pure _ (fun x => div x (norm_or_one (repeat zero (Z.to_nat (_dim self)))))).
  - f_equal. unfold norm_or_one. rewrite sum_squares_zeros.
    induction (Z.to_nat (_dim self)) as [|n IH]; [reflexivity|].
    cbn [repeat map]. rewrite IH. reflexivity.
  - intros a. apply truediv_norm_ok.
Qed.



(** *** Signs *)

Lemma round_aux_sign_clear (prec emax mx ex : Z) (lx : location) :
  sign_clear (binary_round_aux prec emax false mx ex lx) = true.
Proof.
  unfold binary_round_aux.
  destruct (shr_fexp prec emax mx ex lx) as [mrs' e'].
  destruct (shr_fexp prec emax _ e' loc_Exact) as [mrs'' e''].
  destruct (shr_m mrs''); try reflexivity.
  destruct (e'' <=? emax - prec)%Z; reflexivity.
Qed.

Lemma add_sign_clear (x y : float) :
  sign_clear x = true -> sign_clear y = true -> sign_clear (add x y) = true.
Proof.
  destruct x as [[]|[]| |[] mx ex], y as [[]|[]| |[] my ey];
    try discriminate; intros _ _; try reflexivity.
  unfold add, SFadd. cbn [cond_Zopp].
  unfold binary_normalize.
  destruct (Z.pos _ + Z.pos _)%Z as [|p|p] eqn:E; try reflexivity; try lia.
  clear E. unfold binary_round.
  destruct (shl_align p _ _) as [mz ez]. apply round_aux_sign_clear.
Qed.

Lemma square_sign_clear (x : float) : sign_clear (mul x x) = true.
Proof.
  destruct x as [[]|[]| |[] mx ex]; try reflexivity;
    unfold mul, SFmul; cbn [xorb]; apply round_aux_sign_clear.
Qed.

Lemma sqrt_sign_clear (x : float) :
  sign_clear x = true -> sign_clear (sqrt x) = true.
Proof.
  destruct x as [[]|[]| |[] mx ex]; try discriminate; intros _; try reflexivity.
  unfold sqrt, SFsqrt. destruct (SFsqrt_core_binary _ _ _ _) as [[mz ez] lz].
  apply round_aux_sign_clear.
Qed.

Lemma div_sign_clear (x y : float) :
  sign_clear x = true -> sign_clear y = true -> sign_clear (div x y) = true.
Proof.
  destruct x as [[]|[]| |[] mx ex], y as [[]|[]| |[] my ey];
    try discriminate; intros _ _; try reflexivity.
  unfold div, SFdiv. destruct (SFdiv_core_binary _ _ _ _ _ _) as [[mz ez] lz].
  cbn [xorb]. apply round_aux_sign_clear.
Qed.

Lemma sign_clear_not_negative (x : float) : sign_clear x = true -> ltb x zero = false.
Proof.
  destruct x as [[]|[]| |[] mx ex]; try discriminate; reflexivity.
Qed.

Lemma put_Forall {A : Type} (P : A -> Prop) (l : list A) (k : nat) (x : A) :
  Forall P l -> P x -> Forall P (PyList.put l k x).
Proof.
  intros Hl Hx. revert k. induction Hl as [|y l Hy Hl IH]; intros [|k]; simpl; auto.
Qed.

Lemma add_at_sign_clear (v v' : list float) (idx : Z) (x : float) :
  Forall (fun y => sign_clear y = true) v -> sign_clear x = true ->
  add_at v idx x = Ok v' -> Forall (fun y => sign_clear y = true) v'.
Proof.
  intros Hv Hx. unfold add_at. destruct (PyList.index _ idx) as [k|]; [|discriminate].
  intros H. injection H as <-. apply put_Forall; [assumption|].
  apply add_sign_clear; [|assumption].
  destruct (nth_in_or_default k v zero) as [Hin| ->]; [|reflexivity].
  rewrite Forall_forall in Hv. apply Hv. assumption.
Qed.

Lemma accumulate_sign_clear (self : LocalHashingEmbedder) (tokens : list string)
      (v v' : list float) :
  Forall (fun y => sign_clear y = true) v ->
  accumulate self tokens v = Ok v' -> Forall (fun y => sign_clear y = true) v'.
Proof.
  revert v. induction tokens as [|tok rest IH]; intros v Hv; cbn [accumulate].
  - intros H. injection H as <-. assumption.
  - destruct (_hash_to_idx self tok) as [idx|]; [|discriminate]. cbn [bind].
    destruct (add_at v idx one) as [v1|] eqn:E1; [|discriminate]. cbn [bind].
    pose proof (add_at_sign_clear v v1 idx one Hv eq_refl E1) as H1.
    destruct rest as [|next rest'].
    + cbn [bind]. apply IH. assumption.
    + destruct (_hash_to_idx self (tok ++ "_" ++ next)%string) as [bi|]; [|discriminate].
      cbn [bind]. destruct (add_at v1 bi half) as [v2|] eqn:E2; [|discriminate].
      cbn [bind]. apply IH. exact (add_at_sign_clear v1 v2 bi half H1 eq_refl E2).
Qed.

Lemma sum_squares_sign_clear (v : list float) : sign_clear (sum_squares v) = true.
Proof.
  unfold sum_squares.
  assert (G : forall acc, sign_clear acc = true ->
                          sign_clear (fold_left (fun a x => add a (mul x x)) v acc) = true).
  { induction v as [|x v IH]; intros acc Hacc; cbn [fold_left]; [assumption|].
    apply IH. apply add_sign_clear; [assumption | apply square_sign_clear]. }
  apply G. reflexivity.
Qed.

(** No component of an encoded vector compares below zero. *)
Lemma embed_one_not_negative (self : LocalHashingEmbedder) (text : string) (v : list float) :
  _embed_one self text = Ok v -> Forall (fun y => ltb y zero = false) v.
Proof.
  unfold _embed_one.
  destruct (accumulate self _ _) as [c|] eqn:Hacc; [|discriminate]. cbn [bind].
  rewrite (mapM_pure _ (fun x => div x (norm_or_one c))) by (intros; apply truediv_norm_ok).
  intros H. injection H as <-.
  assert (Hc : Forall (fun y => sign_clear y = true) c).
  { eapply accumulate_sign_clear; [|exact Hacc].
    apply Forall_forall. intros y Hy. apply repeat_spec in Hy. subst y. reflexivity. }
  assert (Hn : sign_clear (norm_or_one c) = true).
  { unfold norm_or_one. destruct (truthy _); [|reflexivity].
    apply sqrt_sign_clear, sum_squares_sign_clear. }
  apply Forall_forall. intros y Hy. apply in_map_iff in Hy. destruct Hy as [x [<- Hx]].
  apply sign_clear_not_negative. apply div_sign_clear; [|assumption].
  rewrite Forall_forall in Hc. apply Hc. assumption.
Qed.

(** The norm that Python computes for an encoded vector is 1 up to
    rounding only: for this text it is the double just below 1
    (0.9999999999999999). *)
Lemma normalised_norm_is_rounded :
  _embed_one Scenario.small_embedder "Python C++ a .NET" = Ok Scenario.three_token_vector
  /\ sqrt (sum_squares Scenario.three_token_vector)
     = S754_finite false 9007199254740991 (-53).
Proof. split; vm_compute; reflexivity. Qed.

End EmbeddingFacts.

(** ** Strings *)

Module TextFacts.
Import PyStr TextShape.

Lemma lstrip_head (s : string) : head_not_space (lstrip s) = true.
Proof.
  induction s as [|a s IH]; [reflexivity|]. cbn [lstrip].
  destruct (is_space a) eqn:E; [assumption|]. cbn [head_not_space]. rewrite E. reflexivity.
Qed.

Lemma lstrip_fixed (s : string) : head_not_space s = true -> lstrip s = s.
Proof.
  destruct s as [|a s]; [reflexivity|]. cbn [head_not_space lstrip].
  destruct (is_space a); [discriminate|reflexivity].
Qed.

Lemma rstrip_head (s : string) : head_not_space s = true -> head_not_space (rstrip s) = true.
Proof.
  destruct s as [|a s]; [reflexivity|]. cbn [head_not_space rstrip]. intros H.
  destruct (rstrip s); [|exact H].
  destruct (is_space a) eqn:E; [discriminate|]. cbn [head_not_space]. rewrite E. reflexivity.
Qed.

Lemma rstrip_cons (a : ascii) (s : string) :
  rstrip (String a s)
  = match rstrip s with
    | "" => if is_space a then "" else String a ""
    | r => String a r
    end.
Proof. reflexivity. Qed.

Lemma rstrip_idem (s : string) : rstrip (rstrip s) = rstrip s.
Proof.
  induction s as [|a s IH]; [reflexivity|]. rewrite rstrip_cons.
  destruct (rstrip s) as [|b r] eqn:E.
  - destruct (is_space a) eqn:Ea; [reflexivity|]. cbn [rstrip]. rewrite Ea. reflexivity.
  - rewrite rstrip_cons, IH. reflexivity.
Qed.

Lemma strip_idem (s : string) : strip (strip s) = strip s.
Proof.
  unfold strip. rewrite (lstrip_fixed (rstrip (lstrip s))).
  - apply rstrip_idem.
  - apply rstrip_head, lstrip_head.
Qed.

Lemma len_nonneg (s : string) : 0 <= len s.
Proof. unfold len. lia. Qed.

Lemma lstrip_length (s : string) : (String.length (lstrip s) <= String.length s)%nat.
Proof.
  induction s as [|a s IH]; [simpl; lia|]. cbn [lstrip].
  destruct (is_space a); simpl; lia.
Qed.

Lemma rstrip_length (s : string) : (String.length (rstrip s) <= String.length s)%nat.
Proof.
  induction s as [|a s IH]; [simpl; lia|]. cbn [rstrip].
  destruct (rstrip s) as [|b r]; [destruct (is_space a)|]; simpl in *; lia.
Qed.

Lemma strip_len (s : string) : len (strip s) <= len s.
Proof.
  unfold len, strip. pose proof (rstrip_length (lstrip s)). pose proof (lstrip_length s). lia.
Qed.

Lemma all_space_lstrip (s : string) : all_space s = true -> lstrip s = "".
Proof.
  induction s as [|a s IH]; [reflexivity|]. cbn [all_space lstrip].
  intros H. apply andb_prop in H. destruct H as [-> H]. auto.
Qed.

Lemma all_space_strip (s : string) : all_space s = true -> strip s = "".
Proof. intros H. unfold strip. rewrite all_space_lstrip by assumption. reflexivity. Qed.

(** A string whose strip is not empty has a character that is not white space,
    and conversely. *)
Lemma lstrip_empty (s : string) : lstrip s = "" -> all_space s = true.
Proof.
  induction s as [|a s IH]; [reflexivity|]. cbn [all_space lstrip].
  destruct (is_space a); [auto|discriminate].
Qed.

Lemma rstrip_empty (s : string) : rstrip s = "" -> all_space s = true.
Proof.
  induction s as [|a s IH]; [reflexivity|]. cbn [all_space rstrip].
  destruct (rstrip s) as [|b r]; [|discriminate].
  destruct (is_space a); [auto|discriminate].
Qed.

Lemma rstrip_keeps (s : string) : head_not_space s = true -> s <> "" -> rstrip s <> "".
Proof.
  destruct s as [|a s]; [congruence|]. cbn [head_not_space rstrip]. intros H _.
  destruct (rstrip s); [|discriminate]. destruct (is_space a); [discriminate|discriminate].
Qed.

Lemma strip_empty (s : string) : strip s = "" -> all_space s = true.
Proof.
  unfold strip. intros H. apply lstrip_empty.
  destruct (lstrip s) as [|a r] eqn:E; [reflexivity|].
  exfalso. revert H. apply rstrip_keeps; [|discriminate].
  rewrite <- E. apply lstrip_head.
Qed.

(** *** Characters that a string lacks *)

Lemma lacks_lstrip (c : ascii) (s : string) : lacks c s = true -> lacks c (lstrip s) = true.
Proof.
  induction s as [|a s IH]; [reflexivity|]. cbn [lacks lstrip]. intros H.
  apply andb_prop in H. destruct H as [H1 H2].
  destruct (is_space a); [auto|]. cbn [lacks]. rewrite H1, H2. reflexivity.
Qed.

Lemma lacks_rstrip (c : ascii) (s : string) : lacks c s = true -> lacks c (rstrip s) = true.
Proof.
  induction s as [|a s IH]; [reflexivity|]. cbn [lacks rstrip]. intros H.
  apply andb_prop in H. destruct H as [H1 H2]. specialize (IH H2).
  destruct (rstrip s) as [|b r].
  - destruct (is_space a); [reflexivity|]. cbn [lacks]. rewrite H1. reflexivity.
  - cbn [lacks] in *. rewrite H1, IH. reflexivity.
Qed.

Lemma lacks_strip (c : ascii) (s : string) : lacks c s = true -> lacks c (strip s) = true.
Proof. intros H. apply lacks_rstrip, lacks_lstrip, H. Qed.

Lemma lacks_replace_cr (s : string) : lacks CR (replace_cr s) = true.
Proof.
  induction s as [|a s IH]; [reflexivity|]. cbn [replace_cr lacks]. rewrite IH.
  destruct (Ascii.eqb a CR) eqn:E; [reflexivity|]. rewrite E. reflexivity.
Qed.

Lemma lacks_collapse_blanks (c : ascii) (b : bool) (s : string) :
  c <> SP -> lacks c s = true -> lacks c (collapse_blanks_from b s) = true.
Proof.
  intros Hc. revert b. induction s as [|a s IH]; intros b; [reflexivity|].
  cbn [lacks collapse_blanks_from]. intros H. apply andb_prop in H. destruct H as [H1 H2].
  destruct (Ascii.eqb a SP || Ascii.eqb a TAB).
  - destruct b; [auto|]. cbn [lacks]. rewrite (IH true H2).
    destruct (Ascii.eqb SP c) eqn:E; [apply Ascii.eqb_eq in E; congruence|reflexivity].
  - cbn [lacks]. rewrite H1, (IH false H2). reflexivity.
Qed.

Lemma tab_collapse_blanks (b : bool) (s : string) :
  lacks TAB (collapse_blanks_from b s) = true.
Proof.
  revert b. induction s as [|a s IH]; intros b; [reflexivity|].
  cbn [collapse_blanks_from].
  destruct (Ascii.eqb a SP) eqn:E1; cbn [orb].
  - destruct b; [auto|]. cbn [lacks]. rewrite IH. reflexivity.
  - destruct (Ascii.eqb a TAB) eqn:E2.
    + destruct b; [auto|]. cbn [lacks]. rewrite IH. reflexivity.
    + cbn [lacks]. rewrite E2, IH. reflexivity.
Qed.

Lemma lacks_collapse_newlines (c : ascii) (n : nat) (s : string) :
  lacks c s = true -> lacks c (collapse_newlines_from n s) = true.
Proof.
  revert n. induction s as [|a s IH]; intros n; [reflexivity|].
  cbn [lacks collapse_newlines_from]. intros H. apply andb_prop in H. destruct H as [H1 H2].
  destruct (Ascii.eqb a LF) eqn:E.
  - apply Ascii.eqb_eq in E. subst a.
    destruct (Nat.ltb n 2); [|auto]. cbn [lacks]. rewrite H1, (IH _ H2). reflexivity.
  - cbn [lacks]. rewrite H1, (IH _ H2). reflexivity.
Qed.

(** *** Runs of a character *)

Lemma runs_weaken (c : ascii) (k n m : nat) (s : string) :
  (m <= n)%nat -> runs_at_most c k n s = true -> runs_at_most c k m s = true.
Proof.
  destruct s as [|a s]; [reflexivity|]. cbn [runs_at_most]. intros Hm.
  destruct (Ascii.eqb a c); [|auto].
  intros H. apply andb_prop in H. destruct H as [H1 H2].
  apply Nat.ltb_lt in H1. apply andb_true_intro. split; [apply Nat.ltb_lt; lia|].
  revert n m Hm H1 H2. induction s as [|b s IH]; intros n m Hm H1 H2; [reflexivity|].
  cbn [runs_at_most] in *. destruct (Ascii.eqb b c); [|assumption].
  apply andb_prop in H2. destruct H2 as [H2 H3]. apply Nat.ltb_lt in H2.
  apply andb_true_intro. split; [apply Nat.ltb_lt; lia|].
  apply (IH (S n) (S m)); [lia|lia|assumption].
Qed.

Lemma runs_lstrip (c : ascii) (k n : nat) (s : string) :
  runs_at_most c k n s = true -> runs_at_most c k 0 (lstrip s) = true.
Proof.
  revert n. induction s as [|a s IH]; intros n; [reflexivity|]. cbn [lstrip].
  destruct (is_space a).
  - cbn [runs_at_most]. destruct (Ascii.eqb a c).
    + intros H. apply andb_prop in H. destruct H as [_ H]. eapply IH; eassumption.
    + apply IH.
  - apply runs_weaken. lia.
Qed.

Lemma runs_rstrip (c : ascii) (k n : nat) (s : string) :
  runs_at_most c k n s = true -> runs_at_most c k n (rstrip s) = true.
Proof.
  revert n. induction s as [|a s IH]; intros n; [reflexivity|]. cbn [rstrip runs_at_most].
  destruct (Ascii.eqb a c) eqn:E.
  - intros H. apply andb_prop in H. destruct H as [H1 H2]. specialize (IH _ H2).
    destruct (rstrip s) as [|b r].
    + destruct (is_space a); [reflexivity|]. cbn [runs_at_most]. rewrite E, H1. reflexivity.
    + cbn [runs_at_most] in *. rewrite E, H1. exact IH.
  - intros H. specialize (IH _ H).
    destruct (rstrip s) as [|b r].
    + destruct (is_space a); [reflexivity|]. cbn [runs_at_most]. rewrite E. reflexivity.
    + cbn [runs_at_most] in *. rewrite E. exact IH.
Qed.

Lemma runs_strip (c : ascii) (k : nat) (s : string) :
  runs_at_most c k 0 s = true -> runs_at_most c k 0 (strip s) = true.
Proof. intros H. apply runs_rstrip. eapply runs_lstrip; eassumption. Qed.

Lemma runs_collapse_blanks (b : bool) (s : string) :
  runs_at_most SP 1 (if b then 1 else 0) (collapse_blanks_from b s) = true.
Proof.
  revert b. induction s as [|a s IH]; intros b; [reflexivity|]. cbn [collapse_blanks_from].
  destruct (Ascii.eqb a SP) eqn:E1; cbn [orb].
  - destruct b; [apply (IH true)|]. cbn [runs_at_most Ascii.eqb]. 
    change (Ascii.eqb SP SP) with true. cbn. apply (IH true).
  - destruct (Ascii.eqb a TAB) eqn:E2.
    + destruct b; [apply (IH true)|].
      change (runs_at_most SP 1 0 (String SP (collapse_blanks_from true s)))
        with (runs_at_most SP 1 1 (collapse_blanks_from true s)). apply (IH true).
    + cbn [runs_at_most]. rewrite E1. apply (IH false).
Qed.

Lemma runs_collapse_newlines (n : nat) (s : string) :
  (n <= 2)%nat -> runs_at_most LF 2 n (collapse_newlines_from n s) = true.
Proof.
  revert n. induction s as [|a s IH]; intros n Hn; [reflexivity|].
  cbn [collapse_newlines_from]. destruct (Ascii.eqb a LF) eqn:E.
  - destruct (Nat.ltb n 2) eqn:L.
    + cbn [runs_at_most]. change (Ascii.eqb LF LF) with true. cbv iota. rewrite L.
      apply IH. apply Nat.ltb_lt in L. lia.
    + apply IH. assumption.
  - cbn [runs_at_most]. rewrite E. apply (IH 0%nat). lia.
Qed.

(** Dropping newlines from a run of newlines brings no two blanks together. *)
Lemma blanks_collapse_newlines (k n : nat) (s : string) :
  ((0 < n)%nat -> k = 0%nat) ->
  runs_at_most SP 1 k s = true ->
  runs_at_most SP 1 k (collapse_newlines_from n s) = true.
Proof.
  revert k n. induction s as [|a s IH]; intros k n Hk; [reflexivity|].
  cbn [collapse_newlines_from runs_at_most].
  destruct (Ascii.eqb a LF) eqn:E.
  - apply Ascii.eqb_eq in E. subst a. change (Ascii.eqb LF SP) with false. cbv iota.
    destruct (Nat.ltb n 2) eqn:L.
    + cbn [runs_at_most]. change (Ascii.eqb LF SP) with false. cbv iota.
      apply IH. auto.
    + intros H. apply Nat.ltb_ge in L. rewrite Hk by lia. apply IH; [auto|]. assumption.
  - cbn [runs_at_most]. destruct (Ascii.eqb a SP).
    + intros H. apply andb_prop in H. destruct H as [H1 H2]. rewrite H1. cbn [andb].
      apply IH; [lia|assumption].
    + apply IH. lia.
Qed.

(** *** Strings that a pass leaves alone *)

Lemma replace_crlf_fixed (s : string) : lacks CR s = true -> replace_crlf s = s.
Proof.
  induction s as [|a s IH]; [reflexivity|]. cbn [lacks replace_crlf]. intros H.
  apply andb_prop in H. destruct H as [H1 H2].
  destruct (Ascii.eqb a CR); [discriminate|]. rewrite IH by assumption. reflexivity.
Qed.

Lemma replace_cr_fixed (s : string) : lacks CR s = true -> replace_cr s = s.
Proof.
  induction s as [|a s IH]; [reflexivity|]. cbn [lacks replace_cr]. intros H.
  apply andb_prop in H. destruct H as [H1 H2].
  destruct (Ascii.eqb a CR); [discriminate|]. rewrite IH by assumption. reflexivity.
Qed.

Lemma collapse_blanks_fixed (b : bool) (s : string) :
  lacks TAB s = true -> runs_at_most SP 1 (if b then 1 else 0) s = true ->
  collapse_blanks_from b s = s.
Proof.
  revert b. induction s as [|a s IH]; intros b; [reflexivity|].
  cbn [lacks collapse_blanks_from runs_at_most]. intros H. apply andb_prop in H.
  destruct H as [H1 H2]. destruct (Ascii.eqb a TAB); [discriminate|].
  rewrite orb_false_r. destruct (Ascii.eqb a SP) eqn:E.
  - apply Ascii.eqb_eq in E. subst a. intros H. apply andb_prop in H. destruct H as [H3 H4].
    destruct b; [discriminate|]. rewrite (IH true) by assumption. reflexivity.
  - intros H. rewrite (IH false) by assumption. reflexivity.
Qed.

Lemma collapse_newlines_fixed (n : nat) (s : string) :
  runs_at_most LF 2 n s = true -> collapse_newlines_from n s = s.
Proof.
  revert n. induction s as [|a s IH]; intros n; [reflexivity|].
  cbn [collapse_newlines_from runs_at_most]. destruct (Ascii.eqb a LF) eqn:E.
  - apply Ascii.eqb_eq in E. subst a.
    intros H. apply andb_prop in H. destruct H as [H1 H2]. rewrite H1.
    rewrite IH by assumption. reflexivity.
  - intros H. rewrite IH by assumption. reflexivity.
Qed.

(** *** White space only *)

Lemma all_space_replace_crlf (s : string) :
  all_space s = true -> all_space (replace_crlf s) = true.
Proof.
  assert (G : forall n s, (String.length s <= n)%nat ->
                          all_space s = true -> all_space (replace_crlf s) = true).
  { induction n as [|n IH]; intros [|a t] L; try reflexivity; [simpl in L; lia|].
    cbn [all_space replace_crlf String.length] in *.
    intros H. apply andb_prop in H. destruct H as [H1 H2].
    assert (R : all_space (String a (replace_crlf t)) = true).
    { cbn [all_space]. rewrite H1. apply IH; [lia|assumption]. }
    destruct (Ascii.eqb a CR); [|exact R].
    destruct t as [|b t']; [cbn [all_space]; rewrite H1; reflexivity|].
    destruct (Ascii.eqb b LF); [|exact R].
    cbn [all_space String.length] in *. apply andb_prop in H2. destruct H2 as [H2 H3].
    apply IH; [lia|assumption]. }
  apply (G (String.length s)). lia.
Qed.

Lemma all_space_replace_cr (s : string) :
  all_space s = true -> all_space (replace_cr s) = true.
Proof.
  induction s as [|a s IH]; [reflexivity|]. cbn [all_space replace_cr].
  intros H. apply andb_prop in H. destruct H as [H1 H2].
  rewrite (IH H2). destruct (Ascii.eqb a CR); [reflexivity|]. rewrite H1. reflexivity.
Qed.

Lemma all_space_collapse_blanks (b : bool) (s : string) :
  all_space s = true -> all_space (collapse_blanks_from b s) = true.
Proof.
  revert b. induction s as [|a s IH]; intros b; [reflexivity|].
  cbn [all_space collapse_blanks_from].
  intros H. apply andb_prop in H. destruct H as [H1 H2].
  destruct (Ascii.eqb a SP || Ascii.eqb a TAB).
  - destruct b; [auto|]. cbn [all_space]. rewrite (IH true H2). reflexivity.
  - cbn [all_space]. rewrite H1, (IH false H2). reflexivity.
Qed.

Lemma all_space_collapse_newlines (n : nat) (s : string) :
  all_space s = true -> all_space (collapse_newlines_from n s) = true.
Proof.
  revert n. induction s as [|a s IH]; intros n; [reflexivity|].
  cbn [all_space collapse_newlines_from].
  intros H. apply andb_prop in H. destruct H as [H1 H2].
  destruct (Ascii.eqb a LF).
  - destruct (Nat.ltb n 2); [|auto]. cbn [all_space]. rewrite (IH _ H2). reflexivity.
  - cbn [all_space]. rewrite H1, (IH _ H2). reflexivity.
Qed.

End TextFacts.

(** ** What the loops of the chunker keep *)

Module ChunkFacts.
Import PyStr Chunking TextShape TextFacts ChunkSpec.

(** *** The sequence numbers in the ids *)

Lemma digits_value_zero (s : string) :
  digits_value (String "0" s) = digits_value s.
Proof.
  unfold digits_value. cbn [NilEmpty.uint_of_string].
  destruct (NilEmpty.uint_of_string s); reflexivity.
Qed.

Lemma zeros_succ (k : nat) (d : string) :
  (zeros (S k) ++ d)%string = String "0" (zeros k ++ d)%string.
Proof.
  unfold zeros. cbn [repeat String.concat]. destruct k; reflexivity.
Qed.

Lemma digits_value_zeros (k : nat) (d : string) :
  digits_value (zeros k ++ d) = digits_value d.
Proof.
  induction k as [|k IH]; [reflexivity|].
  rewrite zeros_succ, digits_value_zero. exact IH.
Qed.

Lemma digits_value_dec (z : Z) : digits_value (PyFloat.dec_of_Z z) = Some (Z.to_N z).
Proof.
  unfold digits_value, PyFloat.dec_of_Z, NilZero.string_of_uint.
  rewrite <- (DecimalN.Unsigned.of_to (Z.to_N z)) at 2.
  destruct (N.to_uint (Z.to_N z)) eqn:E; try (rewrite <- E, NilEmpty.usu; reflexivity).
  reflexivity.
Qed.

Lemma fmt_04d_value (n : Z) : 0 <= n -> digits_value (fmt_04d n) = Some (Z.to_N n).
Proof.
  intros H. unfold fmt_04d. destruct (n <? 0) eqn:E; [apply Z.ltb_lt in E; lia|].
  rewrite digits_value_zeros, Z.abs_eq by assumption. apply digits_value_dec.
Qed.

Lemma fmt_04d_inj (n m : Z) : 0 <= n -> 0 <= m -> fmt_04d n = fmt_04d m -> n = m.
Proof.
  intros Hn Hm E. pose proof (fmt_04d_value n Hn) as V. rewrite E, (fmt_04d_value m Hm) in V.
  injection V as V. lia.
Qed.

Lemma append_inj_l (a x y : string) : (a ++ x)%string = (a ++ y)%string -> x = y.
Proof. induction a as [|c a IH]; simpl; [auto|]. intros H. injection H as H. auto. Qed.

(** *** Slices *)

Lemma substring_length_le (a b : nat) (s : string) :
  (String.length (substring a b s) <= b)%nat.
Proof.
  revert a b. induction s as [|c s IH]; intros [|a] [|b]; simpl; try lia.
  - specialize (IH 0%nat b). lia.
  - apply IH.
  - apply IH.
Qed.

Lemma substring_nonempty (a b : nat) (s : string) :
  (a < String.length s)%nat -> (1 <= b)%nat -> substring a b s <> "".
Proof.
  revert a b. induction s as [|c s IH]; intros a b Ha Hb; [simpl in Ha; lia|].
  destruct a as [|a]; destruct b as [|b]; try lia.
  - simpl. discriminate.
  - simpl. apply IH; [simpl in Ha; lia|lia].
Qed.

Lemma piece_nonempty (p : string) (start max_chars : Z) :
  1 <= max_chars -> 0 <= start < len p -> slice p start (start + max_chars) <> "".
Proof.
  intros Hm Hs. unfold slice, slice_index, len in *.
  set (n := Z.of_nat (String.length p)) in *.
  destruct (start <? 0) eqn:E1; [apply Z.ltb_lt in E1; lia|].
  destruct (start + max_chars <? 0) eqn:E2; [apply Z.ltb_lt in E2; lia|].
  apply substring_nonempty; lia.
Qed.

Lemma len_append (a b : string) : len (a ++ b) = len a + len b.
Proof.
  unfold len. induction a as [|c a IH]; simpl String.length; [lia|].
  rewrite !Nat2Z.inj_succ. lia.
Qed.

Lemma tail_length (buf : string) (overlap_chars : Z) :
  0 <= overlap_chars ->
  len (if 0 <? overlap_chars then slice_from buf (- overlap_chars) else "") <= overlap_chars.
Proof.
  intros H. destruct (0 <? overlap_chars) eqn:E; [|cbn; lia].
  apply Z.ltb_lt in E. unfold slice_from, slice, slice_index, len.
  set (n := Z.of_nat (String.length buf)).
  destruct (- overlap_chars <? 0) eqn:E1; [|apply Z.ltb_ge in E1; lia].
  destruct (n <? 0) eqn:E2; [apply Z.ltb_lt in E2; lia|].
  pose proof (substring_length_le (Z.to_nat (Z.max 0 (- overlap_chars + n)))
                (Z.to_nat (Z.min n n - Z.max 0 (- overlap_chars + n))) buf).
  lia.
Qed.

(** *** What the loops keep *)

Section Loops.
Variables (doc_name : string) (max_chars overlap_chars : Z).
Hypothesis Hmax : 1 <= max_chars.

(** [Pp] holds of the paragraphs, [B] of the buffer, [Q] of the emitted
    texts. *)
Variables (titles : list string) (Pp B Q : string -> Prop).
Hypothesis B_empty : B "".
Hypothesis B_fits : forall buf p,
  B buf -> Pp p ->
  len (if PyStr.truthy buf then strip (buf ++ nlnl ++ p) else p) <= max_chars ->
  B (if PyStr.truthy buf then strip (buf ++ nlnl ++ p) else p).
Hypothesis B_seed : forall buf p,
  B buf -> Pp p -> PyStr.truthy buf = true ->
  B (strip ((if 0 <? overlap_chars then slice_from buf (- overlap_chars) else "")
              ++ nlnl ++ p)).
Hypothesis Q_flush : forall buf, B buf -> PyStr.truthy buf = true -> Q buf.
Hypothesis Q_piece : forall p start,
  Pp p -> max_chars < len p -> 0 <= start < len p ->
  Q (slice p start (start + max_chars)).


Lemma numbered_state_snoc (chunks : list Chunk) (seq : Z) (title txt : string) :
  numbered_state doc_name titles Q (chunks, seq) -> In title titles -> Q txt ->
  numbered_state doc_name titles Q (chunks ++ [make_chunk doc_name title seq txt], seq + 1).
Proof.
  unfold numbered_state. cbn [fst snd]. intros [Hs Hn] Ht Hq. split.
  - rewrite length_app. cbn [List.length]. lia.
  - intros i c Hi. destruct (Nat.lt_ge_cases i (List.length chunks)) as [L|L].
    + rewrite nth_error_app1 in Hi by assumption. exact (Hn i c Hi).
    + rewrite nth_error_app2 in Hi by assumption.
      destruct (i - List.length chunks)%nat as [|k] eqn:E; [|destruct k; discriminate].
      cbn [nth_error] in Hi. injection Hi as <-. exists title, txt.
      split; [assumption|]. split; [assumption|]. f_equal. lia.
Qed.

Lemma hard_split_keeps (fuel : nat) (title p : string) (start : Z)
      (chunks : list Chunk) (seq : Z) (r : list Chunk * Z) :
  In title titles -> Pp p -> max_chars < len p -> 0 <= start ->
  numbered_state doc_name titles Q (chunks, seq) ->
  hard_split doc_name max_chars overlap_chars fuel title p start chunks seq = Some r ->
  numbered_state doc_name titles Q r.
Proof.
  intros Ht Hp Hl. revert start chunks seq.
  induction fuel as [|fuel IH]; intros start chunks seq Hs Hw; cbn [hard_split].
  - destruct (start <? len p); [discriminate|]. intros H. injection H as <-. exact Hw.
  - destruct (start <? len p) eqn:E; [|intros H; injection H as <-; exact Hw].
    apply Z.ltb_lt in E. apply IH.
    + destruct (overlap_chars <? max_chars) eqn:O; [apply Z.ltb_lt in O|]; lia.
    + apply numbered_state_snoc; [assumption|assumption|]. apply Q_piece; [assumption|assumption|lia].
Qed.

Lemma pack_step_keeps (title : string) (buf : string) (chunks : list Chunk) (seq : Z)
      (p : string) (buf' : string) (chunks' : list Chunk) (seq' : Z) :
  In title titles -> Pp p -> B buf -> numbered_state doc_name titles Q (chunks, seq) ->
  pack_step doc_name max_chars overlap_chars title (buf, chunks, seq) p
  = Some (buf', chunks', seq') ->
  B buf' /\ numbered_state doc_name titles Q (chunks', seq').
Proof.
  intros Ht Hp Hb Hw. unfold pack_step.
  destruct (len _ <=? max_chars) eqn:E.
  - intros H. injection H as <- <- <-. split; [|assumption].
    apply B_fits; [assumption|assumption|]. apply Z.leb_le. assumption.
  - destruct (PyStr.truthy buf) eqn:T.
    + intros H. injection H as <- <- <-. split.
      * apply B_seed; assumption.
      * apply numbered_state_snoc; [assumption|assumption|]. apply Q_flush; assumption.
    + destruct (hard_split _ _ _ _ _ _ _ _ _) as [[c q]|] eqn:Hh; [|discriminate].
      intros H. injection H as <- <- <-. split; [exact B_empty|].
      apply Z.leb_gt in E.
      apply (hard_split_keeps (S (String.length p)) title p 0 chunks seq (c, q) Ht Hp);
        [lia|lia|exact Hw|exact Hh].
Qed.

Lemma pack_keeps (title : string) (paras : list string) (buf : string)
      (chunks : list Chunk) (seq : Z) (buf' : string) (chunks' : list Chunk) (seq' : Z) :
  In title titles -> Forall Pp paras -> B buf -> numbered_state doc_name titles Q (chunks, seq) ->
  pack doc_name max_chars overlap_chars title paras (buf, chunks, seq)
  = Some (buf', chunks', seq') ->
  B buf' /\ numbered_state doc_name titles Q (chunks', seq').
Proof.
  intros Ht Hps. revert buf chunks seq.
  induction Hps as [|p paras Hp Hps IH]; intros buf chunks seq Hb Hw; cbn [pack].
  - intros H. injection H as <- <- <-. auto.
  - destruct (pack_step _ _ _ _ _ p) as [[[b1 c1] q1]|] eqn:Hs; [|discriminate].
    destruct (pack_step_keeps _ _ _ _ _ _ _ _ Ht Hp Hb Hw Hs) as [Hb1 Hw1].
    apply IH; assumption.
Qed.

Lemma section_step_keeps (st : list Chunk * Z) (sec : string * string) (st' : list Chunk * Z) :
  In (fst sec) titles -> Forall Pp (paragraphs_of (snd sec)) -> numbered_state doc_name titles Q st ->
  section_step doc_name max_chars overlap_chars st sec = Some st' -> numbered_state doc_name titles Q st'.
Proof.
  destruct st as [chunks seq], sec as [title body]. cbn [fst snd]. intros Ht Hps Hw.
  unfold section_step. fold (paragraphs_of body).
  destruct (pack _ _ _ _ _ _) as [[[buf c] q]|] eqn:Hp; [|discriminate].
  destruct (pack_keeps _ _ _ _ _ _ _ _ Ht Hps B_empty Hw Hp) as [Hb Hw'].
  destruct (PyStr.truthy buf) eqn:T; intros H; injection H as <-; [|assumption].
  apply numbered_state_snoc; [assumption|assumption|]. apply Q_flush; assumption.
Qed.

Lemma chunk_sections_keeps (secs : list (string * string)) (st st' : list Chunk * Z) :
  incl (map fst secs) titles ->
  Forall Pp (flat_map (fun sec => paragraphs_of (snd sec)) secs) -> numbered_state doc_name titles Q st ->
  chunk_sections doc_name max_chars overlap_chars secs st = Some st' -> numbered_state doc_name titles Q st'.
Proof.
  revert st. induction secs as [|sec secs IH]; intros st Ht Hps Hw; cbn [chunk_sections].
  - intros H. injection H as <-. assumption.
  - cbn [flat_map] in Hps. apply Forall_app in Hps. destruct Hps as [Hp1 Hp2].
    destruct (section_step _ _ _ st sec) as [st1|] eqn:Hs; [|discriminate].
    apply IH; [|assumption|].
    + intros t Hin. apply Ht. right. assumption.
    + eapply section_step_keeps; [|exact Hp1|exact Hw|exact Hs].
      apply Ht. left. reflexivity.
Qed.

Lemma chunk_text_keeps (text : string) (chunks : list Chunk) :
  titles = map fst (sections_of text) ->
  Forall Pp (paragraphs text) ->
  chunk_text doc_name max_chars overlap_chars text = Some chunks ->
  numbered doc_name titles Q chunks.
Proof.
  intros Ht Hps. unfold chunk_text. fold (sections_of text).
  destruct (chunk_sections _ _ _ _ _) as [[c q]|] eqn:Hc; [|discriminate].
  intros H. injection H as <-.
  assert (Hw : numbered_state doc_name titles Q (c, q)).
  { eapply chunk_sections_keeps; [| |unfold numbered_state; split|exact Hc].
    - rewrite Ht. apply incl_refl.
    - exact Hps.
    - reflexivity.
    - intros i x Hi. destruct i; discriminate. }
  exact (proj2 Hw).
Qed.

End Loops.

End ChunkFacts.

(** ** Normal form and sections *)

Module SectionFacts.
Import PyStr Chunking TextShape TextFacts ChunkSpec ChunkFacts.

(** The text that [normalize_text] returns is in normal form: it holds no
    carriage return and no tab, no two blanks in a row and no three
    newlines in a row, it neither starts nor ends with white space, and
    normalising it again changes nothing. *)
Theorem normalize_text_normal_form (s : string) :
  lacks CR (normalize_text s) = true
  /\ lacks TAB (normalize_text s) = true
  /\ runs_at_most SP 1 0 (normalize_text s) = true
  /\ runs_at_most LF 2 0 (normalize_text s) = true
  /\ strip (normalize_text s) = normalize_text s
  /\ normalize_text (normalize_text s) = normalize_text s.
Proof.
  assert (H1 : lacks CR (normalize_text s) = true).
  { unfold normalize_text. apply lacks_strip, lacks_collapse_newlines.
    apply lacks_collapse_blanks; [discriminate|]. apply lacks_replace_cr. }
  assert (H2 : lacks TAB (normalize_text s) = true).
  { unfold normalize_text. apply lacks_strip, lacks_collapse_newlines, tab_collapse_blanks. }
  assert (H3 : runs_at_most SP 1 0 (normalize_text s) = true).
  { unfold normalize_text. apply runs_strip. apply blanks_collapse_newlines; [lia|].
    apply (runs_collapse_blanks false). }
  assert (H4 : runs_at_most LF 2 0 (normalize_text s) = true).
  { unfold normalize_text. apply runs_strip. apply runs_collapse_newlines. lia. }
  assert (H5 : strip (normalize_text s) = normalize_text s).
  { unfold normalize_text. apply strip_idem. }
  repeat (split; [assumption|]).
  unfold normalize_text at 1.
  rewrite replace_crlf_fixed, replace_cr_fixed by assumption.
  unfold collapse_blanks. rewrite (collapse_blanks_fixed false) by assumption.
  unfold collapse_newlines. rewrite collapse_newlines_fixed by assumption.
  exact H5.
Qed.

(** *** Sections *)


Lemma Forall_tl {A : Type} (P : A -> Prop) (l : list A) : Forall P l -> Forall P (tl l).
Proof. intros H. destruct H; [constructor|assumption]. Qed.

Lemma titled_filter {A : Type} (f : string * A -> bool) (l : list (string * A)) :
  titled l -> titled (filter f l).
Proof.
  intros [H1 H2]. split.
  - apply Forall_forall. intros x Hx. apply filter_In in Hx.
    rewrite Forall_forall in H1. apply H1. tauto.
  - destruct l as [|h t]; [constructor|]. cbn [tl filter] in *.
    assert (Ht : Forall header_title (filter f t)).
    { apply Forall_forall. intros x Hx. apply filter_In in Hx.
      rewrite Forall_forall in H2. apply H2. tauto. }
    destruct (f h); [exact Ht | apply Forall_tl; exact Ht].
Qed.

Lemma titled_map {A B : Type} (g : string * A -> B) (l : list (string * A)) :
  titled l -> titled (map (fun tb => (fst tb, g tb)) l).
Proof.
  intros [H1 H2]. split.
  - apply Forall_forall. intros x Hx. apply in_map_iff in Hx. destruct Hx as [y [<- Hy]].
    rewrite Forall_forall in H1. exact (H1 y Hy).
  - destruct l as [|h t]; [constructor|]. cbn [tl map] in *.
    apply Forall_forall. intros x Hx. apply in_map_iff in Hx. destruct Hx as [y [<- Hy]].
    rewrite Forall_forall in H2. exact (H2 y Hy).
Qed.

Lemma titled_init {A : Type} (l : list (string * A)) (x : string * A) :
  titled (l ++ [x]) -> titled l.
Proof.
  intros [H1 H2]. apply Forall_app in H1. destruct H1 as [H1 _]. split; [assumption|].
  destruct l as [|h t]; [constructor|]. cbn [tl app] in *.
  apply Forall_app in H2. tauto.
Qed.

Lemma titled_last_body {A : Type} (l : list (string * A)) (t : string) (b b' : A) :
  titled (l ++ [(t, b)]) -> titled (l ++ [(t, b')]).
Proof.
  intros [H1 H2]. apply Forall_app in H1. destruct H1 as [H1 H1']. split.
  - apply Forall_app. split; [assumption|]. inversion H1'; subst. constructor; [assumption|constructor].
  - destruct l as [|h r]; [constructor|]. cbn [tl app] in *.
    apply Forall_app in H2. destruct H2 as [H2 H2']. apply Forall_app. split; [assumption|].
    inversion H2'; subst. constructor; [assumption|constructor].
Qed.

Lemma titled_last_header {A : Type} (l : list (string * A)) (x : string * A)
      (t : string) (b : A) :
  titled (l ++ [x]) -> section_re_match t = true -> titled (l ++ [(t, b)]).
Proof.
  intros Hl Ht. pose proof (titled_init l x Hl) as [H1 H2]. split.
  - apply Forall_app. split; [assumption|]. constructor; [right; exact Ht|constructor].
  - destruct l as [|h r]; [constructor|]. cbn [tl app] in *.
    apply Forall_app. split; [assumption|]. constructor; [exact Ht|constructor].
Qed.

Lemma titled_snoc_header {A : Type} (l : list (string * A)) (x : string * A)
      (t : string) (b : A) :
  titled (l ++ [x]) -> section_re_match t = true -> titled ((l ++ [x]) ++ [(t, b)]).
Proof.
  intros [H1 H2] Ht. split.
  - apply Forall_app. split; [assumption|]. constructor; [right; exact Ht|constructor].
  - destruct l as [|h r]; cbn [tl app] in *.
    + constructor; [exact Ht|constructor].
    + apply Forall_app. split; [assumption|]. constructor; [exact Ht|constructor].
Qed.

Lemma strip_header (ln : string) :
  section_re_match ln = true -> section_re_match (strip ln) = true.
Proof. unfold section_re_match. rewrite strip_idem. auto. Qed.

Lemma split_step_titled (st : split_state) (ln : string) :
  titled (sections st ++ [(current_title st, current st)]) ->
  titled (sections (split_step st ln)
            ++ [(current_title (split_step st ln), current (split_step st ln))]).
Proof.
  intros H. unfold split_step. destruct (negb (PyStr.truthy ln)).
  - cbn [sections current_title current]. eapply titled_last_body; exact H.
  - destruct (section_re_match ln) eqn:M.
    + cbn [sections current_title current]. destruct (current st) eqn:E.
      * eapply titled_last_header; [exact H | apply strip_header; exact M].
      * apply titled_snoc_header; [exact H | apply strip_header; exact M].
    + cbn [sections current_title current]. eapply titled_last_body; exact H.
Qed.

Lemma fold_split_titled (lines : list string) (st : split_state) :
  titled (sections st ++ [(current_title st, current st)]) ->
  titled (sections (fold_left split_step lines st)
            ++ [(current_title (fold_left split_step lines st),
                 current (fold_left split_step lines st))]).
Proof.
  revert st. induction lines as [|ln lines IH]; intros st H; cbn [fold_left]; [assumption|].
  apply IH, split_step_titled, H.
Qed.

(** Every section that [split_into_sections] returns has a body that is
    not empty and neither starts nor ends with white space; its title is
    [BODY] or a line that is one of the section headers; and only the first
    section can be titled [BODY]: all the others begin at a header. *)
Theorem split_into_sections_shape (text : string) :
  Forall (fun tb => (fst tb = "BODY" \/ section_re_match (fst tb) = true)
                    /\ snd tb <> "" /\ strip (snd tb) = snd tb)
         (split_into_sections text)
  /\ Forall (fun tb => section_re_match (fst tb) = true) (tl (split_into_sections text))
  /\ section_re_match "BODY" = false.
Proof.
  unfold split_into_sections.
  set (st := fold_left split_step _ _).
  set (secs := match current st with [] => sections st | _ => _ end).
  assert (T : titled secs).
  { assert (T0 : titled (sections st ++ [(current_title st, current st)])).
    { apply fold_split_titled. cbn [sections current_title current app].
      split; [constructor; [left; reflexivity|constructor]|constructor]. }
    subst secs. destruct (current st); [|exact T0]. eapply titled_init; exact T0. }
  set (keep := fun tb : string * list string => PyStr.truthy (strip (join nl (snd tb)))).
  pose proof (titled_map (fun tb => strip (join nl (snd tb))) _ (titled_filter keep _ T))
    as [T1 T2].
  split; [|split; [exact T2|reflexivity]].
  apply Forall_forall. intros x Hx. split.
  - rewrite Forall_forall in T1. exact (T1 x Hx).
  - apply in_map_iff in Hx. destruct Hx as [tb [<- Htb]]. cbn [snd].
    apply filter_In in Htb. destruct Htb as [_ Htb]. unfold keep in Htb. split.
    + destruct (strip (join nl (snd tb))); [discriminate Htb|discriminate].
    + apply strip_idem.
Qed.

End SectionFacts.

(** ** Chunks *)

Module ChunkTextFacts.
Import PyStr Chunking TextShape TextFacts ChunkSpec ChunkFacts.

Lemma numbered_Forall (doc_name : string) (titles : list string) (Q : string -> Prop)
      (chunks : list Chunk) :
  numbered doc_name titles Q chunks -> Forall (fun c => Q (text c)) chunks.
Proof.
  intros H. apply Forall_forall. intros c Hc. apply In_nth_error in Hc.
  destruct Hc as [i Hi]. destruct (H i c Hi) as [title [txt [_ [Hq ->]]]]. exact Hq.
Qed.

Lemma NoDup_by_index {A B : Type} (f : A -> B) (g : nat -> B) (l : list A) :
  (forall i j, g i = g j -> i = j) ->
  (forall i a, nth_error l i = Some a -> f a = g i) ->
  NoDup (map f l).
Proof.
  intros Hg Hf. apply NoDup_nth_error. intros i j Hi E.
  rewrite length_map in Hi. rewrite !nth_error_map in E.
  destruct (nth_error l i) as [a|] eqn:Ea; [|apply nth_error_None in Ea; lia].
  destruct (nth_error l j) as [b|] eqn:Eb; [|discriminate].
  cbn [option_map] in E. injection E as E.
  rewrite (Hf i a Ea), (Hf j b Eb) in E. auto.
Qed.

(** The ids of the chunks of a document count from zero: the chunk at
    position [i] has the id [doc_name:i], [i] written with at least four
    digits, and its metadata name the document, the title of one of the
    sections of the text, and [i] as [seq]. So no two chunks of a document
    share an id. *)
Theorem chunk_ids_count_from_zero (doc_name : string) (max_chars overlap_chars : Z)
        (text : string) (chunks : list Chunk) :
  1 <= max_chars ->
  chunk_text doc_name max_chars overlap_chars text = Some chunks ->
  (forall i c, nth_error chunks i = Some c ->
     chunk_id c = (doc_name ++ ":" ++ fmt_04d (Z.of_nat i))%string
     /\ exists title,
          In title (map fst (sections_of text))
          /\ meta c = [ ("doc_name", JStr doc_name); ("section", JStr title);
                        ("seq", JInt (Z.of_nat i)) ])
  /\ NoDup (map chunk_id chunks).
Proof.
  intros Hm Hc.
  assert (N : numbered doc_name (map fst (sections_of text)) (fun _ => True) chunks).
  { apply (chunk_text_keeps doc_name max_chars overlap_chars Hm
             (map fst (sections_of text)) (fun _ => True) (fun _ => True) (fun _ => True))
      with (text := text); auto.
    apply Forall_forall. auto. }
  assert (Id : forall i c, nth_error chunks i = Some c ->
                 chunk_id c = (doc_name ++ ":" ++ fmt_04d (Z.of_nat i))%string).
  { intros i c Hi. destruct (N i c Hi) as [title [txt [_ [_ ->]]]]. reflexivity. }
  split.
  - intros i c Hi. split; [exact (Id i c Hi)|].
    destruct (N i c Hi) as [title [txt [Ht [_ ->]]]]. exists title. auto.
  - apply (NoDup_by_index chunk_id
             (fun i => (doc_name ++ ":" ++ fmt_04d (Z.of_nat i))%string)); [|exact Id].
    intros i j E. apply append_inj_l, append_inj_l in E.
    apply fmt_04d_inj in E; lia.
Qed.

Lemma chunk_ids_count_from_zero_witness :
  (forall i c,
     nth_error [ make_chunk "d" "BODY" 0 "aaaaaaaa";
                 make_chunk "d" "BODY" 1 ("aaaaa" ++ nlnl ++ "bbbbbbbb") ] i = Some c ->
     chunk_id c = ("d" ++ ":" ++ fmt_04d (Z.of_nat i))%string
     /\ exists title,
          In title (map fst (sections_of ("aaaaaaaa" ++ nlnl ++ "bbbbbbbb")))
          /\ meta c = [ ("doc_name", JStr "d"); ("section", JStr title);
                        ("seq", JInt (Z.of_nat i)) ])
  /\ NoDup (map chunk_id [ make_chunk "d" "BODY" 0 "aaaaaaaa";
                           make_chunk "d" "BODY" 1 ("aaaaa" ++ nlnl ++ "bbbbbbbb") ]).
Proof.
  apply (chunk_ids_count_from_zero "d" 10 5 ("aaaaaaaa" ++ nlnl ++ "bbbbbbbb")).
  - lia.
  - vm_compute. reflexivity.
Defined.

(** With [max_chars >= 1] the chunker returns, and no chunk that it
    returns has an empty text. *)
Theorem chunk_text_no_empty_chunk (doc_name : string) (max_chars overlap_chars : Z)
        (text : string) :
  1 <= max_chars ->
  exists chunks,
    chunk_text doc_name max_chars overlap_chars text = Some chunks
    /\ Forall (fun c => Chunking.text c <> "") chunks.
Proof.
  intros Hm.
  destruct (ChunkingFacts.chunk_text_returns doc_name max_chars overlap_chars text Hm)
    as [chunks Hc].
  exists chunks. split; [exact Hc|].
  apply (numbered_Forall doc_name (map fst (sections_of text)) (fun t => t <> "")).
  apply (chunk_text_keeps doc_name max_chars overlap_chars Hm
           (map fst (sections_of text)) (fun _ => True) (fun _ => True) (fun t => t <> ""))
    with (text := text); auto.
  - intros buf _ T ->. discriminate T.
  - intros p start _ _ Hs. apply piece_nonempty; assumption.
  - apply Forall_forall. auto.
Qed.

Lemma chunk_text_no_empty_chunk_witness :
  exists chunks,
    chunk_text "cv.txt" 1200 150 ("Skills" ++ nl ++ "python, rust") = Some chunks
    /\ Forall (fun c => Chunking.text c <> "") chunks.
Proof. apply (chunk_text_no_empty_chunk "cv.txt" 1200 150). lia. Defined.

(** The bound that the chunker does keep. With [max_chars >= 1] and
    [overlap_chars >= 0], when every paragraph of the text is short enough
    to follow an overlap tail and the blank line that joins them, that is
    [len(p) + overlap_chars + 2 <= max_chars], every chunk has at most
    [max_chars] characters. *)
Theorem chunk_text_bounded_for_short_paragraphs (doc_name : string)
        (max_chars overlap_chars : Z) (text : string) :
  1 <= max_chars -> 0 <= overlap_chars ->
  Forall (fun p => len p + overlap_chars + 2 <= max_chars) (paragraphs text) ->
  exists chunks,
    chunk_text doc_name max_chars overlap_chars text = Some chunks
    /\ Forall (fun c => len (Chunking.text c) <= max_chars) chunks.
Proof.
  intros Hm Ho Hp.
  destruct (ChunkingFacts.chunk_text_returns doc_name max_chars overlap_chars text Hm)
    as [chunks Hc].
  exists chunks. split; [exact Hc|].
  apply (numbered_Forall doc_name (map fst (sections_of text)) (fun t => len t <= max_chars)).
  apply (chunk_text_keeps doc_name max_chars overlap_chars Hm
           (map fst (sections_of text))
           (fun p => len p + overlap_chars + 2 <= max_chars)
           (fun buf => len buf <= max_chars)
           (fun t => len t <= max_chars)) with (text := text); auto.
  - cbn. lia.
  - intros buf p Hb Hpp T.
    pose proof (strip_len ((if 0 <? overlap_chars then slice_from buf (- overlap_chars) else "")
                             ++ nlnl ++ p)) as L.
    rewrite !len_append in L.
    pose proof (tail_length buf overlap_chars Ho). change (len nlnl) with 2 in L. lia.
  - intros p start Hpp Hl _. pose proof (len_nonneg p). lia.
Qed.

Lemma chunk_text_bounded_for_short_paragraphs_witness :
  exists chunks,
    chunk_text "d" 40 5 ("alpha beta" ++ nlnl ++ "gamma delta, epsilon" ++ nlnl ++ "zeta eta theta")
    = Some chunks
    /\ Forall (fun c => len (Chunking.text c) <= 40) chunks.
Proof.
  apply (chunk_text_bounded_for_short_paragraphs "d" 40 5).
  - lia.
  - lia.
  - vm_compute. repeat (constructor; [discriminate|]). constructor.
Defined.

End ChunkTextFacts.

(** ** Texts that give no chunk *)

Module ChunkGrowth.
Import PyStr Chunking TextShape TextFacts ChunkSpec ChunkFacts.

Lemma all_space_app (a b : string) :
  all_space (a ++ b) = all_space a && all_space b.
Proof.
  induction a as [|c a IH]; [reflexivity|]. cbn [append all_space]. rewrite IH.
  apply andb_assoc.
Qed.

Lemma stripped_not_blank (p : string) : p <> "" -> strip p = p -> all_space p = false.
Proof.
  intros Hp Hs. destruct (all_space p) eqn:E; [|reflexivity].
  rewrite (all_space_strip p E) in Hs. congruence.
Qed.

Lemma strip_keeps_text (a b p : string) :
  all_space p = false -> strip (a ++ b ++ p) <> "".
Proof.
  intros Hp H. apply strip_empty in H. rewrite !all_space_app, Hp, !andb_false_r in H.
  discriminate.
Qed.

Lemma cons_head_blank (c : ascii) (l : list string) :
  forallb all_space (cons_head c l) = is_space c && forallb all_space l.
Proof.
  destruct l as [|h t]; cbn [cons_head forallb all_space].
  - rewrite andb_true_r. reflexivity.
  - symmetry. apply andb_assoc.
Qed.

Lemma split_blank_lines_blank (s : string) :
  forallb all_space (split_blank_lines s) = true -> all_space s = true.
Proof.
  assert (G : forall n s, (String.length s <= n)%nat ->
                forallb all_space (split_blank_lines s) = true -> all_space s = true).
  { induction n as [|n IH]; intros [|c t] L; try reflexivity; [simpl in L; lia|].
    cbn [String.length] in L.
    assert (R : forallb all_space (cons_head c (split_blank_lines t)) = true ->
                all_space (String c t) = true).
    { rewrite cons_head_blank. intros H. apply andb_prop in H. destruct H as [H1 H2].
      cbn [all_space]. rewrite H1. apply IH; [lia|assumption]. }
    cbn [split_blank_lines]. destruct (Ascii.eqb c LF) eqn:E; [|exact R].
    destruct t as [|c2 t2]; [exact R|].
    destruct (Ascii.eqb c2 LF) eqn:E2; [|exact R].
    apply Ascii.eqb_eq in E, E2. subst. cbn [forallb all_space String.length] in *.
    intros H. apply IH; [lia|assumption]. }
  apply (G (String.length s)). lia.
Qed.

Lemma paragraphs_of_not_blank (body : string) :
  Forall (fun p => all_space p = false) (paragraphs_of body).
Proof.
  unfold paragraphs_of. apply Forall_forall. intros p Hp. apply in_map_iff in Hp.
  destruct Hp as [part [<- Hpart]]. apply filter_In in Hpart. destruct Hpart as [_ T].
  apply stripped_not_blank; [|apply strip_idem].
  destruct (strip part); [discriminate T|discriminate].
Qed.

Lemma paragraphs_of_some (body : string) :
  all_space body = false -> paragraphs_of body <> [].
Proof.
  intros Hb Hnil. unfold paragraphs_of in Hnil. apply map_eq_nil in Hnil.
  assert (F : forallb all_space (split_blank_lines body) = true).
  { apply forallb_forall. intros part Hin.
    destruct (PyStr.truthy (strip part)) eqn:T.
    - assert (In part (filter (fun p => PyStr.truthy (strip p)) (split_blank_lines body)))
        by (apply filter_In; auto).
      rewrite Hnil in H. contradiction.
    - apply strip_empty. destruct (strip part); [reflexivity|discriminate T]. }
  rewrite (split_blank_lines_blank body F) in Hb. discriminate.
Qed.

Section Growth.
Variables (doc_name : string) (max_chars overlap_chars : Z).

Lemma hard_split_grows (fuel : nat) (title p : string) (start : Z)
      (chunks : list Chunk) (seq : Z) (chunks' : list Chunk) (seq' : Z) :
  hard_split doc_name max_chars overlap_chars fuel title p start chunks seq
  = Some (chunks', seq') ->
  (List.length chunks <= List.length chunks')%nat
  /\ (start < len p -> (List.length chunks < List.length chunks')%nat).
Proof.
  revert start chunks seq. induction fuel as [|fuel IH]; intros start chunks seq;
    cbn [hard_split].
  - destruct (start <? len p) eqn:E; [discriminate|]. intros H. injection H as <- <-.
    apply Z.ltb_ge in E. split; [lia|lia].
  - destruct (start <? len p) eqn:E.
    + intros H. apply IH in H. rewrite length_app in H. cbn [List.length] in H. lia.
    + intros H. injection H as <- <-. apply Z.ltb_ge in E. split; [lia|lia].
Qed.

Lemma pack_step_grows (title buf : string) (chunks : list Chunk) (seq : Z) (p : string)
      (buf' : string) (chunks' : list Chunk) (seq' : Z) :
  all_space p = false ->
  pack_step doc_name max_chars overlap_chars title (buf, chunks, seq) p
  = Some (buf', chunks', seq') ->
  (List.length chunks <= List.length chunks')%nat
  /\ (buf' <> "" \/ (List.length chunks < List.length chunks')%nat).
Proof.
  intros Hp. unfold pack_step.
  destruct (len _ <=? max_chars).
  - intros H. injection H as <- <- <-. split; [lia|]. left.
    destruct (PyStr.truthy buf).
    + exact (strip_keeps_text buf nlnl p Hp).
    + intros ->. discriminate Hp.
  - destruct (PyStr.truthy buf).
    + intros H. injection H as <- <- <-. rewrite length_app. cbn [List.length].
      split; [lia|]. right. lia.
    + destruct (hard_split _ _ _ _ _ _ _ _ _) as [[c q]|] eqn:Hh; [|discriminate].
      intros H. injection H as <- <- <-. apply hard_split_grows in Hh.
      destruct Hh as [H1 H2]. split; [exact H1|]. right. apply H2.
      destruct p; [discriminate Hp|]. unfold len. cbn [String.length]. lia.
Qed.

Lemma pack_grows (title : string) (paras : list string) (buf : string)
      (chunks : list Chunk) (seq : Z) (buf' : string) (chunks' : list Chunk) (seq' : Z) :
  Forall (fun p => all_space p = false) paras ->
  pack doc_name max_chars overlap_chars title paras (buf, chunks, seq)
  = Some (buf', chunks', seq') ->
  (List.length chunks <= List.length chunks')%nat
  /\ (paras <> [] -> buf' <> "" \/ (List.length chunks < List.length chunks')%nat).
Proof.
  intros Hps. revert buf chunks seq.
  induction Hps as [|p paras Hp Hps IH]; intros buf chunks seq; cbn [pack].
  - intros H. injection H as <- <- <-. split; [lia|congruence].
  - destruct (pack_step _ _ _ _ _ p) as [[[b1 c1] q1]|] eqn:Hs; [|discriminate].
    destruct (pack_step_grows _ _ _ _ _ _ _ _ Hp Hs) as [L1 G1].
    intros H. pose proof H as H'. apply IH in H. destruct H as [L2 G2].
    split; [lia|]. intros _. destruct paras as [|p2 paras].
    + cbn [pack] in H'. injection H' as <- <- <-. exact G1.
    + destruct G2 as [G2|G2]; [discriminate|auto|right; lia].
Qed.

Lemma section_step_grows (chunks : list Chunk) (seq : Z) (title body : string)
      (chunks' : list Chunk) (seq' : Z) :
  section_step doc_name max_chars overlap_chars (chunks, seq) (title, body)
  = Some (chunks', seq') ->
  (List.length chunks <= List.length chunks')%nat
  /\ (all_space body = false -> (List.length chunks < List.length chunks')%nat).
Proof.
  unfold section_step. fold (paragraphs_of body).
  destruct (pack _ _ _ _ _ _) as [[[buf c] q]|] eqn:Hp; [|discriminate].
  destruct (pack_grows _ _ _ _ _ _ _ _ (paragraphs_of_not_blank body) Hp) as [L G].
  destruct (PyStr.truthy buf) eqn:T; intros H; injection H as <- <-.
  - rewrite length_app. cbn [List.length]. split; lia.
  - split; [exact L|]. intros Hb.
    destruct (G (paragraphs_of_some body Hb)) as [G1|G1]; [|exact G1].
    destruct buf; [congruence|discriminate T].
Qed.

Lemma chunk_sections_grows (secs : list (string * string)) (chunks : list Chunk) (seq : Z)
      (chunks' : list Chunk) (seq' : Z) :
  chunk_sections doc_name max_chars overlap_chars secs (chunks, seq) = Some (chunks', seq') ->
  (List.length chunks <= List.length chunks')%nat
  /\ (Exists (fun sec => all_space (snd sec) = false) secs ->
      (List.length chunks < List.length chunks')%nat).
Proof.
  revert chunks seq. induction secs as [|[title body] secs IH]; intros chunks seq;
    cbn [chunk_sections].
  - intros H. injection H as <- <-. split; [lia|]. intros E. inversion E.
  - destruct (section_step _ _ _ _ _) as [[c1 q1]|] eqn:Hs; [|discriminate].
    destruct (section_step_grows _ _ _ _ _ _ Hs) as [L1 G1].
    intros H. apply IH in H. destruct H as [L2 G2]. split; [lia|].
    intros E. inversion E as [? ? Hb|? ? Hrest]; subst.
    + cbn [snd] in Hb. specialize (G1 Hb). lia.
    + specialize (G2 Hrest). lia.
Qed.

End Growth.

Lemma sections_bodies (text : string) :
  Forall (fun tb => snd tb <> "" /\ strip (snd tb) = snd tb) (split_into_sections text).
Proof.
  unfold split_into_sections. apply Forall_forall. intros x Hx.
  apply in_map_iff in Hx. destruct Hx as [tb [<- Htb]]. cbn [snd].
  apply filter_In in Htb. destruct Htb as [_ Htb]. split.
  - destruct (strip (join nl (snd tb))); [discriminate Htb|discriminate].
  - apply strip_idem.
Qed.

Lemma sections_of_not_blank (text : string) :
  normalize_text text <> "" ->
  Exists (fun sec => all_space (snd sec) = false) (sections_of text).
Proof.
  intros Hn. unfold sections_of.
  pose proof (sections_bodies (normalize_text text)) as Hb.
  destruct (split_into_sections (normalize_text text)) as [|[title body] secs].
  - apply Exists_cons_hd. cbn [snd]. apply stripped_not_blank; [exact Hn|].
    unfold normalize_text. apply strip_idem.
  - inversion Hb as [|? ? [H1 H2] _]; subst. apply Exists_cons_hd. cbn [snd] in *.
    apply stripped_not_blank; assumption.
Qed.

(** *** Normalising to the empty text *)

Lemma all_space_of_replace_crlf (s : string) :
  all_space (replace_crlf s) = true -> all_space s = true.
Proof.
  assert (G : forall n s, (String.length s <= n)%nat ->
                          all_space (replace_crlf s) = true -> all_space s = true).
  { induction n as [|n IH]; intros [|a t] L; try reflexivity; [simpl in L; lia|].
    cbn [all_space replace_crlf String.length] in *.
    assert (R : all_space (String a (replace_crlf t)) = true ->
                is_space a && all_space t = true).
    { cbn [all_space]. intros H. apply andb_prop in H. destruct H as [H1 H2].
      rewrite H1. apply IH; [lia|assumption]. }
    destruct (Ascii.eqb a CR) eqn:E; [|exact R].
    apply Ascii.eqb_eq in E. subst a.
    destruct t as [|b t']; [reflexivity|].
    destruct (Ascii.eqb b LF) eqn:E2; [|exact R].
    apply Ascii.eqb_eq in E2. subst b.
    cbn [all_space String.length] in *. intros H. apply IH; [lia|assumption]. }
  apply (G (String.length s)). lia.
Qed.

Lemma all_space_of_replace_cr (s : string) :
  all_space (replace_cr s) = true -> all_space s = true.
Proof.
  induction s as [|a s IH]; [reflexivity|]. cbn [all_space replace_cr].
  intros H. apply andb_prop in H. destruct H as [H1 H2]. rewrite (IH H2), andb_true_r.
  destruct (Ascii.eqb a CR) eqn:E; [|exact H1]. apply Ascii.eqb_eq in E. subst. reflexivity.
Qed.

Lemma all_space_of_collapse_blanks (b : bool) (s : string) :
  all_space (collapse_blanks_from b s) = true -> all_space s = true.
Proof.
  revert b. induction s as [|a s IH]; intros b; [reflexivity|].
  cbn [all_space collapse_blanks_from].
  destruct (Ascii.eqb a SP) eqn:E1; cbn [orb].
  - apply Ascii.eqb_eq in E1. subst a. destruct b.
    + intros H. rewrite (IH true H). reflexivity.
    + cbn [all_space]. intros H. apply andb_prop in H. destruct H as [_ H].
      rewrite (IH true H). reflexivity.
  - destruct (Ascii.eqb a TAB) eqn:E2.
    + apply Ascii.eqb_eq in E2. subst a. destruct b.
      * intros H. rewrite (IH true H). reflexivity.
      * cbn [all_space]. intros H. apply andb_prop in H. destruct H as [_ H].
        rewrite (IH true H). reflexivity.
    + cbn [all_space]. intros H. apply andb_prop in H. destruct H as [H1 H2].
      rewrite H1, (IH false H2). reflexivity.
Qed.

Lemma all_space_of_collapse_newlines (n : nat) (s : string) :
  all_space (collapse_newlines_from n s) = true -> all_space s = true.
Proof.
  revert n. induction s as [|a s IH]; intros n; [reflexivity|].
  cbn [all_space collapse_newlines_from].
  destruct (Ascii.eqb a LF) eqn:E.
  - apply Ascii.eqb_eq in E. subst a. destruct (Nat.ltb n 2).
    + cbn [all_space]. intros H. apply andb_prop in H. destruct H as [_ H].
      rewrite (IH _ H). reflexivity.
    + intros H. rewrite (IH _ H). reflexivity.
  - cbn [all_space]. intros H. apply andb_prop in H. destruct H as [H1 H2].
    rewrite H1, (IH _ H2). reflexivity.
Qed.

Lemma normalize_text_empty (text : string) :
  normalize_text text = "" <-> all_space text = true.
Proof.
  unfold normalize_text. split.
  - intros H. apply strip_empty in H. apply all_space_of_collapse_newlines in H.
    apply all_space_of_collapse_blanks in H. apply all_space_of_replace_cr in H.
    apply all_space_of_replace_crlf in H. exact H.
  - intros H. apply all_space_strip, all_space_collapse_newlines.
    apply all_space_collapse_blanks, all_space_replace_cr, all_space_replace_crlf, H.
Qed.

Lemma chunk_text_empty_iff (doc_name : string) (max_chars overlap_chars : Z)
      (text : string) (chunks : list Chunk) :
  1 <= max_chars ->
  chunk_text doc_name max_chars overlap_chars text = Some chunks ->
  (chunks = [] <-> all_space text = true).
Proof.
  intros Hm Hc. rewrite <- normalize_text_empty. split.
  - intros ->. destruct (string_dec (normalize_text text) "") as [E|E]; [exact E|].
    exfalso. unfold chunk_text in Hc. fold (sections_of text) in Hc.
    destruct (chunk_sections _ _ _ _ _) as [[c q]|] eqn:Hs; [|discriminate].
    injection Hc as ->.
    destruct (chunk_sections_grows _ _ _ _ _ _ _ _ Hs) as [_ G].
    specialize (G (sections_of_not_blank text E)). cbn [List.length] in G. lia.
  - intros N. unfold chunk_text in Hc. rewrite N in Hc. cbn in Hc. congruence.
Qed.

(** The chunker returns no chunk exactly when the text is white space
    only, which is when its normal form is the empty text: with
    [max_chars >= 1], a text that has one character that is not white space
    gives at least one chunk. *)
Theorem chunk_text_empty_iff_blank (doc_name : string) (max_chars overlap_chars : Z)
        (text : string) :
  1 <= max_chars ->
  exists chunks,
    chunk_text doc_name max_chars overlap_chars text = Some chunks
    /\ (chunks = [] <-> all_space text = true)
    /\ (normalize_text text = "" <-> all_space text = true).
Proof.
  intros Hm.
  destruct (ChunkingFacts.chunk_text_returns doc_name max_chars overlap_chars text Hm)
    as [chunks Hc].
  exists chunks. split; [exact Hc|].
  split; [exact (chunk_text_empty_iff _ _ _ _ _ Hm Hc)|apply normalize_text_empty].
Qed.

Lemma chunk_text_empty_iff_blank_witness :
  exists chunks,
    chunk_text "cv.txt" 1200 150 (String SP (String LF (String TAB (String CR " "))))
    = Some chunks
    /\ (chunks = [] <-> all_space (String SP (String LF (String TAB (String CR " ")))) = true)
    /\ (normalize_text (String SP (String LF (String TAB (String CR " ")))) = ""
        <-> all_space (String SP (String LF (String TAB (String CR " ")))) = true).
Proof. apply (chunk_text_empty_iff_blank "cv.txt" 1200 150). lia. Defined.

End ChunkGrowth.

(** ** Vectors and tokens *)

Module TokenFacts.
Import PyStr PyFloat FloatOrder Embeddings TokenSpec EmbeddingFacts.

(** With a positive dimension [D], [embed] returns one vector for each
    text, every vector has exactly [D] components, and no component
    compares below zero. *)
Theorem embed_vectors_shape (self : LocalHashingEmbedder) (texts : list string) :
  0 < _dim self ->
  exists vs,
    embed self texts = Ok vs
    /\ List.length vs = List.length texts
    /\ Forall (fun v => Z.of_nat (List.length v) = _dim self
                        /\ Forall (fun y => ltb y zero = false) v) vs.
Proof.
  intros Hd. unfold embed. induction texts as [|t texts [vs [IH [L F]]]]; cbn [mapM].
  - exists []. repeat split; constructor.
  - destruct (embed_one_dimension self t Hd) as [v [Hv Lv]]. rewrite Hv, IH. cbn [bind].
    exists (v :: vs). split; [reflexivity|]. split; [simpl; congruence|].
    constructor; [|exact F]. split; [exact Lv|].
    exact (embed_one_not_negative self t v Hv).
Qed.

Lemma embed_vectors_shape_witness :
  exists vs,
    embed Scenario.small_embedder ["python developer"; ""] = Ok vs
    /\ List.length vs = List.length ["python developer"; ""]
    /\ Forall (fun v => Z.of_nat (List.length v) = _dim Scenario.small_embedder
                        /\ Forall (fun y => ltb y zero = false) v) vs.
Proof. apply (embed_vectors_shape Scenario.small_embedder). reflexivity. Defined.

(** *** Dimensions that are not positive *)

Lemma add_at_nil (idx : Z) (x : float) : add_at [] idx x = Raise (Exn "IndexError").
Proof.
  unfold add_at, PyList.index. cbn [List.length Z.of_nat]. change (- 0) with 0.
  destruct ((0 <=? idx) && (idx <? 0)) eqn:E.
  - apply andb_prop in E. destruct E as [E1 E2].
    apply Z.leb_le in E1. apply Z.ltb_lt in E2. lia.
  - reflexivity.
Qed.

(** An encoder whose dimension is not positive works on the empty list
    [[0.0] * dim]: a text without token is encoded as the empty vector, and
    a text with a token makes [_embed_one] raise, [ZeroDivisionError] from
    the modulo when the dimension is zero and [IndexError] from the update
    otherwise. *)
Theorem embed_one_without_buckets (self : LocalHashingEmbedder) (text : string) :
  _dim self <= 0 ->
  (findall_tokens (lower text) = [] -> _embed_one self text = Ok [])
  /\ (findall_tokens (lower text) <> [] ->
      _embed_one self text
      = Raise (Exn (if _dim self =? 0 then "ZeroDivisionError" else "IndexError"))).
Proof.
  intros Hd. split.
  - intros H. rewrite (embed_one_no_token self text H).
    replace (Z.to_nat (_dim self)) with 0%nat by lia. reflexivity.
  - intros H. unfold _embed_one.
    replace (Z.to_nat (_dim self)) with 0%nat by lia. cbn [repeat].
    destruct (findall_tokens (lower text)) as [|tok rest]; [congruence|].
    cbn [accumulate]. unfold _hash_to_idx.
    destruct (_dim self =? 0); [reflexivity|]. cbn [bind]. rewrite add_at_nil. reflexivity.
Qed.

Lemma embed_one_without_buckets_witness :
  (findall_tokens (lower "Rust") = [] -> _embed_one {| _dim := 0 |} "Rust" = Ok [])
  /\ (findall_tokens (lower "Rust") <> [] ->
      _embed_one {| _dim := 0 |} "Rust"
      = Raise (Exn (if _dim {| _dim := 0 |} =? 0 then "ZeroDivisionError" else "IndexError"))).
Proof. apply (embed_one_without_buckets {| _dim := 0 |} "Rust"). simpl. lia. Defined.

(** *** Tokens *)



Lemma lower_char_token (c : ascii) : is_token_char (lower_char c) = is_token_char c.
Proof. destruct c as [[] [] [] [] [] [] [] []]; reflexivity. Qed.



Lemma append_length (a b : string) :
  String.length (a ++ b) = (String.length a + String.length b)%nat.
Proof. induction a as [|c a IH]; simpl; [reflexivity|]. rewrite IH. reflexivity. Qed.



Lemma lone_lower (prev : bool) (s : string) :
  lone_token_chars prev (lower s) = lone_token_chars prev s.
Proof.
  revert prev. induction s as [|c s IH]; intros prev; [reflexivity|].
  cbn [lower lone_token_chars]. rewrite lower_char_token, !IH. reflexivity.
Qed.

Lemma scan_lone (cur s : string) :
  (String.length cur <= 1)%nat ->
  lone_token_chars (match cur with "" => false | _ => true end) s = true ->
  scan_tokens cur s = [].
Proof.
  revert cur. induction s as [|c s IH]; intros cur Hc.
  - intros _. cbn [scan_tokens]. unfold flush_token.
    destruct (2 <=? String.length cur)%nat eqn:E; [apply Nat.leb_le in E; lia|reflexivity].
  - cbn [scan_tokens lone_token_chars]. destruct (is_token_char c).
    + intros H. apply andb_prop in H. destruct H as [H1 H2].
      destruct cur as [|a cur]; [|discriminate H1].
      apply IH; [simpl; lia|exact H2].
    + intros H. rewrite (IH "" ltac:(simpl; lia) H). unfold flush_token.
      destruct (2 <=? String.length cur)%nat eqn:E; [apply Nat.leb_le in E; lia|reflexivity].
Qed.

(** Words of a single character are invisible to the encoder: a text in
    which no two token characters stand side by side has no token, and its
    vector is all zeros. *)
Theorem lone_characters_are_ignored (self : LocalHashingEmbedder) (text : string) :
  lone_token_chars false text = true ->
  findall_tokens (lower text) = []
  /\ _embed_one self text = Ok (repeat zero (Z.to_nat (_dim self))).
Proof.
  intros H.
  assert (T : findall_tokens (lower text) = []).
  { unfold findall_tokens. apply scan_lone; [simpl; lia|]. rewrite lone_lower. exact H. }
  split; [exact T|]. apply embed_one_no_token. exact T.
Qed.

Lemma lone_characters_are_ignored_witness :
  findall_tokens (lower "R & C, 5 y") = []
  /\ _embed_one Scenario.small_embedder "R & C, 5 y"
     = Ok (repeat zero (Z.to_nat (_dim Scenario.small_embedder))).
Proof. apply (lone_characters_are_ignored Scenario.small_embedder "R & C, 5 y"). reflexivity. Defined.

End TokenFacts.

(** ** Listings and batches *)

Module BatchFacts.
Import PyFloat FloatOrder FloatFacts VectorStore StoreSpec VectorStoreFacts UpsertFacts BatchSpec.

(** *** The listing of the documents *)

Lemma ascii_compare_trans (a b c : ascii) :
  Ascii.compare a b = Lt -> Ascii.compare b c = Lt -> Ascii.compare a c = Lt.
Proof.
  unfold Ascii.compare. rewrite !N.compare_lt_iff. lia.
Qed.

Lemma str_lt_trans (a b c : string) : str_lt a b -> str_lt b c -> str_lt a c.
Proof.
  unfold str_lt. revert b c. induction a as [|x a IH]; intros [|y b] [|z c]; simpl;
    try discriminate; try reflexivity.
  destruct (Ascii.compare x y) eqn:E1; try discriminate;
    destruct (Ascii.compare y z) eqn:E2; try discriminate; intros H1 H2.
  - apply Ascii.compare_eq_iff in E1, E2. subst. 
    replace (Ascii.compare z z) with Eq
      by (symmetry; unfold Ascii.compare; apply N.compare_refl).
    eapply IH; eassumption.
  - apply Ascii.compare_eq_iff in E1. subst. rewrite E2. reflexivity.
  - apply Ascii.compare_eq_iff in E2. subst. rewrite E1. reflexivity.
  - rewrite (ascii_compare_trans _ _ _ E1 E2). reflexivity.
Qed.

Lemma str_lt_irrefl (a : string) : ~ str_lt a a.
Proof.
  unfold str_lt. induction a as [|x a IH]; simpl; [discriminate|].
  replace (Ascii.compare x x) with Eq
    by (symmetry; unfold Ascii.compare; apply N.compare_refl).
  exact IH.
Qed.

Lemma str_gt_lt (a b : string) : String.compare a b = Gt -> str_lt b a.
Proof.
  unfold str_lt. intros H. rewrite String.compare_antisym, H. reflexivity.
Qed.

Lemma insert_name_spec (s : string) (l : list string) (x : string) :
  In x (insert_name s l) <-> x = s \/ In x l.
Proof.
  induction l as [|t l IH]; simpl; [intuition|].
  destruct (String.compare s t) eqn:E; simpl.
  - apply String.compare_eq_iff in E. subst. intuition.
  - intuition.
  - rewrite IH. intuition.
Qed.

Lemma insert_name_sorted (s : string) (l : list string) :
  StronglySorted str_lt l -> StronglySorted str_lt (insert_name s l).
Proof.
  induction 1 as [|t l Hs IH Hall]; simpl; [repeat constructor|].
  destruct (String.compare s t) eqn:E.
  - constructor; assumption.
  - constructor; [constructor; assumption|]. constructor; [exact E|].
    eapply Forall_impl; [|exact Hall]. intros u Hu. eapply str_lt_trans; eassumption.
  - constructor; [assumption|]. apply Forall_forall. intros u Hu.
    apply insert_name_spec in Hu. destruct Hu as [->|Hu].
    + apply str_gt_lt. exact E.
    + rewrite Forall_forall in Hall. auto.
Qed.

Lemma sorted_NoDup (l : list string) : StronglySorted str_lt l -> NoDup l.
Proof.
  induction 1 as [|t l Hs IH Hall]; constructor; [|assumption].
  intros Hin. rewrite Forall_forall in Hall. exact (str_lt_irrefl t (Hall t Hin)).
Qed.

Lemma list_doc_names_sorted (st : store) : StronglySorted str_lt (list_doc_names st).
Proof.
  unfold list_doc_names. induction st as [|r st IH]; simpl; [constructor|].
  apply insert_name_sorted. exact IH.
Qed.

Lemma list_doc_names_spec (st : store) (n : string) :
  In n (list_doc_names st) <-> exists row, In row st /\ doc_name row = n.
Proof.
  unfold list_doc_names. induction st as [|r st IH]; simpl.
  - split; [tauto|]. intros [row [[] _]].
  - rewrite insert_name_spec, IH. split.
    + intros [->|[row [Hin Hn]]]; [exists r; auto | exists row; auto].
    + intros [row [[->|Hin] Hn]]; [left; auto | right; exists row; auto].
Qed.

(** [list_doc_names] returns the names under which rows are stored, each
    one once, in ascending order: a name is listed exactly when a row is
    stored under it. *)
Theorem list_doc_names_sorted_distinct (st : store) :
  StronglySorted str_lt (list_doc_names st)
  /\ NoDup (list_doc_names st)
  /\ (forall n, In n (list_doc_names st) <-> exists row, In row st /\ doc_name row = n).
Proof.
  split; [apply list_doc_names_sorted|].
  split; [apply sorted_NoDup, list_doc_names_sorted|].
  apply list_doc_names_spec.
Qed.

(** *** Batches *)

Lemma zip4_firstn {A B C D : Type} (n : nat) (a : list A) (b : list B) (c : list C)
      (d : list D) :
  (List.length a <= n \/ List.length b <= n \/ List.length c <= n \/ List.length d <= n)%nat ->
  zip4 (firstn n a) (firstn n b) (firstn n c) (firstn n d) = zip4 a b c d.
Proof.
  revert a b c d. induction n as [|n IH]; intros a b c d H.
  - destruct a, b, c, d; simpl in *; try reflexivity; lia.
  - destruct a, b, c, d; try reflexivity. cbn [firstn zip4]. f_equal.
    apply IH. simpl in H. lia.
Qed.

(** [upsert] pairs the four lists as [zip] does: the records beyond the
    shortest list are dropped without an error. So a call in which one of
    the lists is empty writes nothing and returns, whatever the other
    lists hold. *)
Theorem upsert_drops_unpaired_records (X : Extern) (st : store) (ids : list string)
        (embeddings : list (list float)) (documents : list string) (metadatas : list dict) :
  let n := Nat.min (Nat.min (List.length ids) (List.length embeddings))
                   (Nat.min (List.length documents) (List.length metadatas)) in
  upsert X st ids embeddings documents metadatas
  = upsert X st (firstn n ids) (firstn n embeddings) (firstn n documents)
           (firstn n metadatas)
  /\ (n = 0%nat -> upsert X st ids embeddings documents metadatas = Ok st).
Proof.
  intros n.
  assert (E : zip4 (firstn n ids) (firstn n embeddings) (firstn n documents)
                   (firstn n metadatas)
              = zip4 ids embeddings documents metadatas).
  { apply zip4_firstn. unfold n. lia. }
  split.
  - unfold upsert. rewrite E. reflexivity.
  - intros H0. unfold upsert. rewrite <- E, H0. reflexivity.
Qed.

Lemma filter_true {A : Type} (l : list A) : filter (fun _ => true) l = l.
Proof. induction l as [|a l IH]; simpl; [reflexivity|]. rewrite IH. reflexivity. Qed.

Lemma filter_filter {A : Type} (p q : A -> bool) (l : list A) :
  filter p (filter q l) = filter (fun a => q a && p a) l.
Proof.
  induction l as [|a l IH]; simpl; [reflexivity|].
  destruct (q a); simpl; [destruct (p a)|]; rewrite IH; reflexivity.
Qed.

Lemma filter_ext_eq {A : Type} (p q : A -> bool) (l : list A) :
  (forall a, p a = q a) -> filter p l = filter q l.
Proof.
  intros H. induction l as [|a l IH]; simpl; [reflexivity|]. rewrite H, IH. reflexivity.
Qed.


Lemma row_of_id (X : Extern) (r : string * list float * string * dict) (row : Row) :
  row_of X r = Ok row -> id row = record_id r.
Proof.
  destruct r as [[[_id emb] doc] meta]. unfold row_of.
  destruct (stored_name X meta); [|discriminate]. cbn [bind]. intros H.
  injection H as <-. reflexivity.
Qed.

Lemma mapM_row_ids (X : Extern) (zs : list (string * list float * string * dict))
      (rows : list Row) :
  mapM (row_of X) zs = Ok rows -> map id rows = map record_id zs.
Proof.
  revert rows. induction zs as [|z zs IH]; intros rows; cbn [mapM].
  - intros H. injection H as <-. reflexivity.
  - destruct (row_of X z) as [row|] eqn:E; [|discriminate]. cbn [bind].
    destruct (mapM (row_of X) zs) as [rs|]; [|discriminate]. cbn [bind].
    intros H. injection H as <-. cbn [map]. rewrite (row_of_id X z row E), (IH rs eq_refl).
    reflexivity.
Qed.

Lemma zip4_ids {B C D : Type} (a : list string) (b : list B) (c : list C) (d : list D) :
  exists n, map (fun r : string * B * C * D => fst (fst (fst r))) (zip4 a b c d) = firstn n a.
Proof.
  revert b c d. induction a as [|x a IH]; intros b c d.
  - exists 0%nat. reflexivity.
  - destruct b as [|y b], c as [|z c], d as [|w d]; try (exists 0%nat; reflexivity).
    destruct (IH b c d) as [n Hn]. exists (S n). cbn [zip4 map firstn fst]. rewrite Hn.
    reflexivity.
Qed.

Lemma NoDup_firstn {A : Type} (n : nat) (l : list A) : NoDup l -> NoDup (firstn n l).
Proof.
  intros H. rewrite <- (firstn_skipn n l) in H. eapply NoDup_app_remove_r. exact H.
Qed.

Lemma existsb_eqb_In (x : string) (l : list string) :
  existsb (String.eqb x) l = true <-> In x l.
Proof.
  rewrite existsb_exists. split.
  - intros [y [Hy E]]. apply String.eqb_eq in E. subst. assumption.
  - intros H. exists x. split; [assumption|apply String.eqb_refl].
Qed.


Lemma upsert_raw (X : Extern) (st : store) (ids : list string)
      (embeddings : list (list float)) (documents : list string) (metadatas : list dict) :
  upsert X st ids embeddings documents metadatas
  = executemany X st (map raw_row (zip4 ids embeddings documents metadatas)).
Proof.
  reflexivity.
Qed.

Lemma insert_raw (X : Extern) (st : store) (r : string * list float * string * dict) :
  insert_or_replace X st (raw_row r)
  = (row <- row_of X r ;;
     Ok (filter (fun row' => negb (String.eqb (id row') (record_id r))) st ++ [row])).
Proof.
  destruct r as [[[_id emb] doc] meta]. unfold raw_row, insert_or_replace, row_of, stored_name.
  destruct (doc_name_column X _); reflexivity.
Qed.

Lemma executemany_batch (X : Extern) (zs : list (string * list float * string * dict))
      (st : store) :
  NoDup (map record_id zs) ->
  executemany X st (map raw_row zs)
  = (rows <- mapM (row_of X) zs ;;
     Ok (filter (id_not_in (map id rows)) st ++ rows)).
Proof.
  revert st. induction zs as [|z zs IH]; intros st Hnd.
  - cbn [map executemany mapM bind]. unfold id_not_in. cbn [existsb negb].
    rewrite filter_true, app_nil_r. reflexivity.
  - cbn [map] in Hnd. inversion Hnd as [|? ? Hz Hnd']; subst.
    cbn [map executemany mapM]. rewrite insert_raw.
    destruct (row_of X z) as [row|e] eqn:Hrow; [|reflexivity]. cbn [bind].
    rewrite (IH _ Hnd').
    destruct (mapM (row_of X) zs) as [rows|e] eqn:Hrows; [|reflexivity]. cbn [bind].
    f_equal. rewrite filter_app, filter_filter. cbn [filter map].
    pose proof (mapM_row_ids X zs rows Hrows) as Hids.
    pose proof (row_of_id X z row Hrow) as Hid.
    assert (Keep : id_not_in (map id rows) row = true).
    { unfold id_not_in. destruct (existsb _ _) eqn:E; [|reflexivity].
      apply existsb_eqb_In in E. rewrite Hids, Hid in E. contradiction. }
    rewrite Keep. rewrite <- app_assoc. cbn [app]. f_equal.
    apply filter_ext_eq. intros a. unfold id_not_in. cbn [existsb].
    rewrite Hid, negb_orb. reflexivity.
Qed.



(** *** Uniqueness of the ids *)

(** The rows that a deletion keeps have distinct ids when all the rows
    had. *)
Lemma kept_rows_distinct (keep : Row -> bool) (st : store) :
  NoDup (map id st) -> NoDup (map id (filter keep st)).
Proof.
  induction st as [|row st IH]; cbn [filter map]; [exact (fun H => H)|].
  intros H. apply NoDup_cons_iff in H. destruct H as [Hrow Hst].
  destruct (keep row); [|exact (IH Hst)].
  cbn [map]. apply NoDup_cons; [|exact (IH Hst)].
  intros Hin. apply Hrow. apply in_map_iff in Hin. destruct Hin as [r [E Hr]].
  apply filter_In in Hr. apply in_map_iff. exists r. split; [exact E|apply Hr].
Qed.

Lemma insert_keeps_unique (X : Extern) (st st' : store)
      (r : string * json * string * dict * list float) :
  NoDup (map id st) -> insert_or_replace X st r = Ok st' -> NoDup (map id st').
Proof.
  destruct r as [[[[_id name] doc] meta] blob]. unfold insert_or_replace.
  destruct (doc_name_column X name) as [n|]; [|discriminate]. cbn [bind].
  intros Hnd H. injection H as <-. rewrite map_app. apply NoDup_app.
  - apply kept_rows_distinct. exact Hnd.
  - cbn [map]. repeat constructor. intros [].
  - intros a Ha [<-|[]]. apply in_map_iff in Ha. destruct Ha as [row [E Hrow]].
    apply filter_In in Hrow. destruct Hrow as [_ Hrow]. cbn [id] in E.
    rewrite E, String.eqb_refl in Hrow. discriminate.
Qed.

(** The ids are a key of the store: when no two rows share an id before
    an [upsert], none do after it, whatever the batch (also when the batch
    names an id twice). *)
Theorem upsert_keeps_ids_unique (X : Extern) (st st' : store) (ids : list string)
        (embeddings : list (list float)) (documents : list string) (metadatas : list dict) :
  NoDup (map id st) ->
  upsert X st ids embeddings documents metadatas = Ok st' ->
  NoDup (map id st').
Proof.
  intros Hnd Hup. revert Hup. unfold upsert.
  generalize (map (fun r : string * list float * string * dict =>
                     let '(_id, emb, doc, meta) := r in
                     (_id,
                      py_or (py_or (get_or_none meta "doc_name") (get_or_none meta "source"))
                            (JStr "unknown"), doc, meta, array_f emb))
                  (zip4 ids embeddings documents metadatas)).
  intros rows. revert st Hnd. induction rows as [|r rows IH]; intros st Hnd; cbn [executemany].
  - intros H. injection H as <-. exact Hnd.
  - destruct (insert_or_replace X st r) as [st1|] eqn:E; [|discriminate]. cbn [bind].
    apply IH. eapply insert_keeps_unique; eassumption.
Qed.

Lemma upsert_keeps_ids_unique_witness :
  NoDup (map id (filter (fun row => negb (String.eqb (id row) "a.txt:0001"))
                        Examples.three_rows
                 ++ [mkRow "a.txt:0001" "a.txt" "second" [("doc_name", JStr "a.txt")]
                           (array_f [half])])).
Proof.
  apply (upsert_keeps_ids_unique Examples.extern Examples.three_rows _
           ["a.txt:0001"; "a.txt:0001"] [[one]; [half]] ["first"; "second"]
           [[("doc_name", JStr "a.txt")]; [("doc_name", JStr "a.txt")]]).
  - simpl. repeat constructor; simpl; intuition discriminate.
  - reflexivity.
Defined.

End BatchFacts.

(** ** Queries *)

Module QueryFacts.
Import PyFloat FloatOrder FloatFacts VectorStore StoreSpec VectorStoreFacts UpsertFacts BatchSpec
       BatchFacts.

Lemma select_by_name (X : Extern) (st : store) (w : dict) (d : string) :
  PyDict.get w "doc_name" = Some (JStr d) ->
  select_rows X st (Some w) = Ok (filter (fun row => String.eqb (doc_name row) d) st).
Proof.
  intros H. unfold select_rows, PyDict.mem, get_or_none, PyDict.get_default. rewrite H.
  assert (T : py_bool (JObj w) = true) by (destruct w; [discriminate H|reflexivity]).
  rewrite T. reflexivity.
Qed.














End QueryFacts.

(** ** Well-formed results *)

Module ResultFacts.
Import PyFloat FloatOrder FloatFacts Rag RagFacts ResultSpec.

Lemma validated_ok (resume_name : string) (overall_fit : json) (confidence : float)
      (summary : string) (strengths gaps : list string) (citations : list Citation.t)
      (r : ScreeningResult.t) :
  ScreeningResult.validated resume_name overall_fit confidence summary strengths gaps citations
  = Ok r ->
  exists fit,
    overall_fit = JStr fit
    /\ In fit ScreeningResult.OverallFit
    /\ in_unit confidence = true
    /\ r = ScreeningResult.make resume_name fit confidence summary strengths gaps citations.
Proof.
  unfold ScreeningResult.validated. destruct overall_fit as [| | | |fit| |]; try discriminate.
  destruct (existsb (String.eqb fit) ScreeningResult.OverallFit) eqn:E1; [|discriminate].
  destruct (leb zero confidence) eqn:E2; [|discriminate].
  destruct (leb confidence one) eqn:E3; [|discriminate]. cbn [andb].
  intros H. injection H as <-. exists fit. split; [reflexivity|]. split.
  - apply existsb_exists in E1. destruct E1 as [x [Hx E]]. apply String.eqb_eq in E.
    subst. assumption.
  - split; [|reflexivity]. unfold in_unit. rewrite E2, E3. reflexivity.
Qed.

Lemma slice_to_length {A : Type} (l : list A) (k : Z) :
  0 <= k -> (List.length (PyList.slice_to l k) <= Z.to_nat k)%nat.
Proof.
  intros H. rewrite slice_to_nonneg by assumption. apply firstn_le_length.
Qed.

Lemma str_list_length (X : Extern) (data : dict) (key : string) (l : list string) :
  str_list X data key = Ok l -> (List.length l <= 8)%nat.
Proof.
  unfold str_list. destruct (py_iter _); [|discriminate]. cbn [bind].
  intros H. injection H as <-. apply (slice_to_length _ 8). lia.
Qed.

Lemma parse_well_formed (X : Extern) (doc_name : string) (data : json)
      (chunks : list RetrievedChunk.t) (r : ScreeningResult.t) :
  _parse_screening_json X doc_name data chunks = Ok r -> well_formed r.
Proof.
  destruct data as [| | | | | |d]; try discriminate. unfold _parse_screening_json.
  destruct (py_iter _) as [items|]; [|discriminate]. cbn [bind].
  destruct (py_float X _) as [conf|]; [|discriminate]. cbn [bind].
  destruct (str_list X d "strengths") as [strengths|] eqn:E1; [|discriminate]. cbn [bind].
  destruct (str_list X d "gaps") as [gaps|] eqn:E2; [|discriminate]. cbn [bind].
  intros H. apply validated_ok in H. destruct H as [fit [_ [Hfit [Hconf ->]]]].
  unfold well_formed. cbn.
  split; [exact Hfit|]. split; [exact Hconf|].
  split; [exact (str_list_length X d "strengths" strengths E1)|].
  split; [exact (str_list_length X d "gaps" gaps E2)|].
  apply (slice_to_length _ 6). lia.
Qed.

Lemma fallback_well_formed (doc_name job_desc : string) (chunks : list RetrievedChunk.t)
      (reason : string) (r : ScreeningResult.t) :
  _screen_fallback doc_name job_desc chunks reason = Ok r -> well_formed r.
Proof.
  unfold _screen_fallback. intros H. apply validated_ok in H.
  destruct H as [fit [_ [Hfit [Hconf ->]]]]. unfold well_formed. cbn.
  split; [exact Hfit|]. split; [exact Hconf|].
  split; [apply Nat.leb_le; reflexivity|]. split; [apply Nat.leb_le; reflexivity|].
  rewrite length_map. pose proof (firstn_le_length (Pos.to_nat 3) (firstn (Pos.to_nat 5) chunks)).
  change (Pos.to_nat 3) with 3%nat in *. lia.
Qed.

Lemma screen_one_well_formed (X : Extern) (S : Type) (cfg : RAGConfig)
      (llm : option (BaseLLM S)) (vs : VectorStore.store) (job_desc doc_name : string)
      (s s' : S) (r : ScreeningResult.t) :
  screen_one X S cfg llm vs job_desc doc_name s = (Ok r, s') ->
  ScreeningResult.resume_name r = doc_name /\ well_formed r.
Proof.
  intros H. split; [exact (proj1 (screen_one_result X S cfg llm vs job_desc doc_name s s' r H))|].
  revert H. unfold screen_one.
  destruct (_retrieve X cfg vs job_desc _) as [chunks|]; [|discriminate].
  destruct (_guardrail_context cfg chunks) as [ok reason].
  assert (FB : forall reason st,
             (_screen_fallback doc_name job_desc chunks reason, st) = (Ok r, s') ->
             well_formed r).
  { intros rs st H. injection H as H _. eapply fallback_well_formed; exact H. }
  destruct llm as [l|]; [|apply FB].
  destruct ok; cbn [negb]; [|apply FB].
  destruct (complete_json l s Prompts.SCREEN_SYSTEM _) as [[data|e] s2]; [|apply FB].
  destruct (_parse_screening_json X doc_name data chunks) as [sr|e] eqn:P; [|apply FB].
  intros H. injection H as <- _. eapply parse_well_formed; exact P.
Qed.

(** Whatever the backend answers, [screen_resumes] returns one result
    for each name, in the order of the names and under these names, and
    every result is well formed: its label is one of the four literals,
    its confidence lies in [0, 1], and it has at most eight strengths,
    eight gaps and six citations. *)
Theorem screening_results_well_formed (X : Extern) (S : Type) (cfg : RAGConfig)
        (llm : option (BaseLLM S)) (vs : VectorStore.store) (job_desc : string)
        (resume_doc_names : list string) (s s' : S) (results : list ScreeningResult.t) :
  screen_resumes X S cfg llm vs job_desc resume_doc_names s = (Ok results, s') ->
  map ScreeningResult.resume_name results = resume_doc_names
  /\ Forall well_formed results.
Proof.
  revert s s' results. induction resume_doc_names as [|d rest IH]; intros s s' results;
    cbn [screen_resumes].
  - intros H. injection H as <- _. split; [reflexivity|constructor].
  - destruct (screen_one X S cfg llm vs job_desc d s) as [[sr|e] s1] eqn:H1; [|discriminate].
    destruct (screen_resumes X S cfg llm vs job_desc rest s1) as [[rs|e] s2] eqn:H2;
      [|discriminate].
    intros H. injection H as <- _.
    destruct (screen_one_well_formed X S cfg llm vs job_desc d s s1 sr H1) as [Hn Hw].
    destruct (IH s1 s2 rs H2) as [Hns Hws].
    split; [cbn [map]; congruence | constructor; assumption].
Qed.

Lemma screening_results_well_formed_witness :
  map ScreeningResult.resume_name Scenario.flaky_results = ["a.txt"; "a.txt"]
  /\ Forall well_formed Scenario.flaky_results.
Proof.
  apply (screening_results_well_formed Examples.extern nat Scenario.config
           (Some Scenario.flaky_llm) Scenario.resume_store "python developer"
           ["a.txt"; "a.txt"] O 2%nat).
  vm_compute. reflexivity.
Defined.

End ResultFacts.

(** ** Gate and ranking *)

Module GateFacts.
Import PyFloat FloatOrder FloatFacts Rag RagFacts ResultSpec ResultFacts.
Import VectorStoreFacts QueryFacts.

(** *** A gate that fails *)

Lemma screen_one_gate_fails (X : Extern) (S : Type) (cfg : RAGConfig) (llm : option (BaseLLM S))
      (vs : VectorStore.store) (job_desc doc_name : string) (s : S)
      (chunks : list RetrievedChunk.t) :
  _retrieve X cfg vs job_desc (Some [("doc_name", JStr doc_name)]) = Ok chunks ->
  fst (_guardrail_context cfg chunks) = false ->
  screen_one X S cfg llm vs job_desc doc_name s
  = (_screen_fallback doc_name job_desc chunks (snd (_guardrail_context cfg chunks)), s).
Proof.
  intros Hr Hg. unfold screen_one. rewrite Hr.
  destruct (_guardrail_context cfg chunks) as [ok reason]. cbn [fst snd] in *. subst ok.
  destruct llm; reflexivity.
Qed.

(** When the gate fails the backend is not consulted: [answer_question]
    returns its refusal with the reason of the gate, the turn of
    [screen_resumes] returns the evidence-only result with that reason, and
    both leave the backend in the state in which they found it; a screening
    of documents whose gates all fail gives, with a backend, what it gives
    without one. *)
Theorem failing_gate_skips_backend (X : Extern) (S : Type) (cfg : RAGConfig)
        (l : BaseLLM S) (vs : VectorStore.store) :
  (forall (question : string) (s : S) (chunks : list RetrievedChunk.t),
      _retrieve X cfg vs question None = Ok chunks ->
      fst (_guardrail_context cfg chunks) = false ->
      answer_question X S cfg (Some l) vs question s
      = (Ok ("I don't have enough evidence in the indexed resumes to answer that."
               ++ PyStr.nlnl ++ "Reason: " ++ snd (_guardrail_context cfg chunks))%string, s))
  /\ (forall (job_desc doc_name : string) (s : S) (chunks : list RetrievedChunk.t),
        _retrieve X cfg vs job_desc (Some [("doc_name", JStr doc_name)]) = Ok chunks ->
        fst (_guardrail_context cfg chunks) = false ->
        screen_one X S cfg (Some l) vs job_desc doc_name s
        = (_screen_fallback doc_name job_desc chunks (snd (_guardrail_context cfg chunks)), s))
  /\ (forall (job_desc : string) (resume_doc_names : list string) (s : S),
        Forall (fun doc_name =>
                  exists chunks,
                    _retrieve X cfg vs job_desc (Some [("doc_name", JStr doc_name)]) = Ok chunks
                    /\ fst (_guardrail_context cfg chunks) = false)
               resume_doc_names ->
        screen_resumes X S cfg (Some l) vs job_desc resume_doc_names s
        = screen_resumes X S cfg None vs job_desc resume_doc_names s).
Proof.
  split; [|split].
  - intros question s chunks Hr Hg. unfold answer_question. rewrite Hr.
    destruct (_guardrail_context cfg chunks) as [ok reason]. cbn [fst snd] in *. subst ok.
    reflexivity.
  - intros job_desc doc_name s chunks Hr Hg. apply screen_one_gate_fails; assumption.
  - intros job_desc names s H. revert s.
    induction H as [|d rest [chunks [Hr Hg]] Hrest IH]; intros s; [reflexivity|].
    cbn [screen_resumes].
    rewrite (screen_one_gate_fails X S cfg (Some l) vs job_desc d s chunks Hr Hg).
    rewrite (screen_one_gate_fails X S cfg None vs job_desc d s chunks Hr Hg).
    destruct (_screen_fallback d job_desc chunks _) as [sr|e]; [|reflexivity].
    rewrite IH. reflexivity.
Qed.

(** *** Ranking *)

Lemma retrieved_fields (X : Extern) (h : VectorStore.hit) (c : RetrievedChunk.t) :
  retrieved_of_hit X h = Ok c ->
  RetrievedChunk.chunk_id c = VectorStore.hit_id h
  /\ RetrievedChunk.text c = VectorStore.hit_text h
  /\ RetrievedChunk.score c = VectorStore.hit_score h.
Proof.
  destruct h as [[[_id doc] meta] score]. unfold retrieved_of_hit.
  destruct (validate_str X _); [|discriminate]. cbn [bind].
  destruct (validate_optional_int X _); [|discriminate]. cbn [bind].
  intros H. injection H as <-. auto.
Qed.

Lemma retrieved_all (X : Extern) (P : VectorStore.hit -> Prop) (Q : RetrievedChunk.t -> Prop)
      (res : list VectorStore.hit) (chunks : list RetrievedChunk.t) :
  (forall h c, retrieved_of_hit X h = Ok c -> P h -> Q c) ->
  mapM (retrieved_of_hit X) res = Ok chunks -> Forall P res -> Forall Q chunks.
Proof.
  intros HPQ. revert chunks. induction res as [|h res IH]; intros chunks; cbn [mapM].
  - intros H _. injection H as <-. constructor.
  - destruct (retrieved_of_hit X h) as [c|] eqn:E; [|discriminate]. cbn [bind].
    destruct (mapM (retrieved_of_hit X) res) as [cs|]; [|discriminate]. cbn [bind].
    intros H F. injection H as <-. inversion F; subst. constructor; eauto.
Qed.




Lemma select_rows_incl (X : Extern) (st : VectorStore.store) (where_ : option dict)
      (rows : list VectorStore.Row) :
  VectorStore.select_rows X st where_ = Ok rows -> incl rows st.
Proof.
  unfold VectorStore.select_rows. destruct where_ as [w|].
  - destruct (py_bool (JObj w) && PyDict.mem w "doc_name").
    + destruct (VectorStore.bind_param _); [|discriminate]. cbn [bind].
      intros H. injection H as <-. apply incl_filter.
    + intros H. injection H as <-. apply incl_refl.
  - intros H. injection H as <-. apply incl_refl.
Qed.

Lemma query_result (X : Extern) (st : VectorStore.store) (q : list float) (top_k : Z)
      (where_ : option dict) (res : list VectorStore.hit) :
  VectorStore.query X st q top_k where_ = Ok res ->
  (0 <= top_k -> Z.of_nat (List.length res) <= top_k)
  /\ Forall (fun h => in_unit (VectorStore.hit_score h) = true) res
  /\ StronglySorted StoreSpec.score_ge res
  /\ Forall (fun h => exists row, In row st /\ h = VectorStore.score_row (VectorStore.array_f q) row)
            res.
Proof.
  unfold VectorStore.query.
  destruct (VectorStore.select_rows X st where_) as [rows|] eqn:Hsel; [|discriminate].
  cbn [bind]. intros H. injection H as <-.
  set (scored := map (VectorStore.score_row (VectorStore.array_f q)) rows).
  destruct (slice_to_firstn (VectorStore.sort_desc scored) top_k) as [n [Hn Hk]].
  rewrite Hn.
  assert (Hunit : Forall (fun h => in_unit (VectorStore.hit_score h) = true)
                         (VectorStore.sort_desc scored)).
  { eapply Permutation_Forall; [apply Permutation_sym, sort_desc_perm|].
    apply scored_in_unit. }
  split; [|split; [|split]].
  - intros H0. rewrite (Hk H0).
    pose proof (firstn_le_length (Z.to_nat top_k) (VectorStore.sort_desc scored)). lia.
  - apply Forall_firstn_of. exact Hunit.
  - apply StronglySorted_firstn, sort_desc_sorted.
    eapply Forall_impl; [|apply scored_in_unit]. intros h. apply in_unit_not_nan.
  - apply Forall_firstn_of.
    eapply Permutation_Forall; [apply Permutation_sym, sort_desc_perm|].
    apply Forall_forall. intros h Hh. apply in_map_iff in Hh. destruct Hh as [row [<- Hrow]].
    exists row. split; [|reflexivity]. exact (select_rows_incl X st where_ rows Hsel row Hrow).
Qed.



(** *** Documents of which nothing is stored *)

Lemma retrieve_nothing (X : Extern) (cfg : RAGConfig) (vs : VectorStore.store)
      (query doc_name : string) :
  Forall (fun row => VectorStore.doc_name row <> doc_name) vs ->
  _retrieve X cfg vs query (Some [("doc_name", JStr doc_name)]) = Ok [].
Proof.
  intros H. unfold _retrieve.
  destruct (EmbeddingFacts.embed_one_dimension _embedder query ltac:(reflexivity))
    as [v [Hv _]].
  unfold Embeddings.embed. cbn [mapM]. rewrite Hv. cbn [bind].
  unfold VectorStore.query.
  rewrite (select_by_name X vs [("doc_name", JStr doc_name)] doc_name eq_refl
           : VectorStore.select_rows X vs (@Some (list (string * json)) [("doc_name", JStr doc_name)])
             = _).
  cbn [bind].
  assert (E : filter (fun row => String.eqb (VectorStore.doc_name row) doc_name) vs = []).
  { induction H as [|row vs Hrow Hvs IH]; [reflexivity|]. cbn [filter].
    destruct (String.eqb (VectorStore.doc_name row) doc_name) eqn:Eq; [|exact IH].
    apply String.eqb_eq in Eq. contradiction. }
  rewrite E. cbn [map VectorStore.sort_desc fold_right].
  unfold PyList.slice_to. destruct (top_k cfg <? 0); rewrite firstn_nil; reflexivity.
Qed.

(** Screening or comparing a name under which nothing is stored (a name
    that was never ingested, or any name after [reset_index]) consults no
    backend: the screening result is the evidence-only result labelled
    [Unclear] with confidence 0.0 and no citation, and the block of the
    comparison says that no strong evidence was retrieved. *)
Theorem nothing_stored_nothing_claimed (X : Extern) (S : Type) (cfg : RAGConfig)
        (llm : option (BaseLLM S)) (vs : VectorStore.store) (job_desc doc_name : string)
        (s : S) :
  Forall (fun row => VectorStore.doc_name row <> doc_name) vs ->
  screen_resumes X S cfg llm vs job_desc [doc_name] s = (Ok [no_evidence_result doc_name], s)
  /\ compare_block X cfg vs job_desc doc_name
     = Ok ("## " ++ doc_name ++ PyStr.nl
             ++ "No strong evidence retrieved. Reason: No relevant context retrieved."
             ++ PyStr.nl)%string
  /\ screen_resumes X S cfg llm (reset_index vs) job_desc [doc_name] s
     = (Ok [no_evidence_result doc_name], s).
Proof.
  assert (G : forall st, Forall (fun row => VectorStore.doc_name row <> doc_name) st ->
                screen_resumes X S cfg llm st job_desc [doc_name] s
                = (Ok [no_evidence_result doc_name], s)).
  { intros st H. cbn [screen_resumes].
    rewrite (screen_one_gate_fails X S cfg llm st job_desc doc_name s []
               (retrieve_nothing X cfg st job_desc doc_name H) eq_refl).
    reflexivity. }
  intros H. split; [exact (G vs H)|]. split.
  - unfold compare_block. rewrite (retrieve_nothing X cfg vs job_desc doc_name H). reflexivity.
  - apply G. constructor.
Qed.

Lemma nothing_stored_nothing_claimed_witness :
  screen_resumes Examples.extern nat Scenario.config (Some Scenario.flaky_llm)
                 Scenario.resume_store "python developer" ["b.txt"] O
  = (Ok [no_evidence_result "b.txt"], O)
  /\ compare_block Examples.extern Scenario.config Scenario.resume_store
                   "python developer" "b.txt"
     = Ok ("## " ++ "b.txt" ++ PyStr.nl
             ++ "No strong evidence retrieved. Reason: No relevant context retrieved."
             ++ PyStr.nl)%string
  /\ screen_resumes Examples.extern nat Scenario.config (Some Scenario.flaky_llm)
                    (reset_index Scenario.resume_store) "python developer" ["b.txt"] O
     = (Ok [no_evidence_result "b.txt"], O).
Proof.
  apply (nothing_stored_nothing_claimed Examples.extern nat Scenario.config
           (Some Scenario.flaky_llm) Scenario.resume_store "python developer" "b.txt" O).
  repeat constructor; discriminate.
Defined.

End GateFacts.

(** ** Comparison and answers in prose *)

Module ReplyFacts.
Import PyFloat FloatOrder FloatFacts Rag RagFacts ResultSpec ResultFacts GateFacts ReplySpec.

(** *** The six blocks of the comparison *)

Lemma mapM_firstn {A B : Type} (f : A -> Result B) (n : nat) (l : list A) (bs : list B) :
  mapM f l = Ok bs -> mapM f (firstn n l) = Ok (firstn n bs).
Proof.
  revert n bs. induction l as [|a l IH]; intros n bs; cbn [mapM].
  - intros H. injection H as <-. destruct n; reflexivity.
  - destruct (f a) as [b|] eqn:E; [|discriminate]. cbn [bind].
    destruct (mapM f l) as [bs'|] eqn:M; [|discriminate]. cbn [bind].
    intros H. injection H as <-. destruct n as [|n]; [reflexivity|].
    cbn [firstn mapM]. rewrite E, (IH n bs' eq_refl). reflexivity.
Qed.

(** The evidence-only comparison shows six resumes at most. Without a
    backend, comparing a list of names gives the very text that comparing
    its first six names gives; and when the backend fails, the text shows
    the blocks of the first six names only, although the prompt that was
    sent held the blocks of all. *)
Theorem compare_fallback_shows_six (X : Extern) (S : Type) (cfg : RAGConfig)
        (vs : VectorStore.store) (job_desc : string) (resume_doc_names : list string)
        (per_resume_blocks : list string) :
  mapM (compare_block X cfg vs job_desc) resume_doc_names = Ok per_resume_blocks ->
  (forall s : S,
      compare_resumes X S cfg None vs job_desc resume_doc_names s
      = compare_resumes X S cfg None vs job_desc (firstn 6 resume_doc_names) s)
  /\ (forall (l : BaseLLM S) (s s' : S) (e : exn),
        complete_markdown l s Prompts.COMPARE_SYSTEM (compare_prompt job_desc per_resume_blocks)
        = (Raise e, s') ->
        compare_resumes X S cfg (Some l) vs job_desc resume_doc_names s
        = (Ok (compare_fallback (firstn 6 per_resume_blocks)), s')).
Proof.
  intros Hb. split.
  - intros s. unfold compare_resumes. rewrite Hb, (mapM_firstn _ 6 _ _ Hb).
    rewrite !slice_to_nonneg by lia. rewrite firstn_firstn. reflexivity.
  - intros l s s' e Hc. unfold compare_resumes. rewrite Hb, Hc. unfold compare_fallback.
    rewrite !slice_to_nonneg by lia. rewrite firstn_firstn. reflexivity.
Qed.

(** *** Answers that are not the JSON asked for *)

Lemma get_none_default (data : dict) (k : string) (default : json) :
  PyDict.mem data k = false -> PyDict.get_default data k default = default.
Proof.
  unfold PyDict.mem, PyDict.get_default. destruct (PyDict.get data k); [discriminate|reflexivity].
Qed.

Lemma parse_without_keys (X : Extern) (doc_name : string) (data : dict)
      (chunks : list RetrievedChunk.t) :
  no_screening_key data = true ->
  _parse_screening_json X doc_name (JObj data) chunks = Ok (default_result doc_name chunks).
Proof.
  unfold no_screening_key. cbn [forallb]. rewrite !andb_true_iff, !negb_true_iff.
  intros [K1 [K2 [K3 [K4 [K5 [K6 _]]]]]].
  unfold _parse_screening_json, str_list, get_or_none.
  rewrite !get_none_default by assumption.
  cbn [py_or py_bool py_iter bind flat_map map py_float py_str].
  rewrite !slice_to_nonneg by lia. cbn [firstn map].
  change (Z.to_nat 3) with 3%nat. change (Z.to_nat 6) with 6%nat.
  rewrite (firstn_all2 (n := 6) (map (citation_of_chunk doc_name) (firstn 3 chunks))).
  - reflexivity.
  - rewrite length_map. pose proof (firstn_le_length 3 chunks) as L. lia.
Qed.

(** A backend that answers in prose is not treated as a failed backend.
    When the reply of the Ollama server is a text that [json.loads]
    refuses, [complete_json] wraps it as [{"raw": text}], the screening
    parses that dictionary with all its defaults, and the turn returns the
    label [Unclear] with confidence 0.4, an empty summary, no strength, no
    gap, and the first three retrieved chunks as citations; the
    evidence-only fallback is not used. *)
Theorem prose_answer_is_parsed_with_defaults (X : Extern) (S : Type) (cfg : RAGConfig)
        (vs : VectorStore.store) (post : S -> string -> json -> Z -> Result json * S)
        (json_loads : string -> Result json) (self : Ollama.OllamaLLM)
        (job_desc doc_name : string) (s s' : S) (chunks : list RetrievedChunk.t)
        (content : string) (e : exn) :
  _retrieve X cfg vs job_desc (Some [("doc_name", JStr doc_name)]) = Ok chunks ->
  fst (_guardrail_context cfg chunks) = true ->
  Ollama._chat S post self s Prompts.SCREEN_SYSTEM (screen_prompt job_desc doc_name chunks)
  = (Ok (JStr content), s') ->
  json_loads (PyStr.strip content) = Raise e ->
  complete_json (Ollama.backend S post json_loads self) s Prompts.SCREEN_SYSTEM
                (screen_prompt job_desc doc_name chunks)
  = (Ok (JObj [("raw", JStr (PyStr.strip content))]), s')
  /\ screen_one X S cfg (Some (Ollama.backend S post json_loads self)) vs job_desc doc_name s
     = (Ok (default_result doc_name chunks), s').
Proof.
  intros Hr Hg Hchat Hloads.
  assert (Hc : complete_json (Ollama.backend S post json_loads self) s Prompts.SCREEN_SYSTEM
                             (screen_prompt job_desc doc_name chunks)
               = (Ok (JObj [("raw", JStr (PyStr.strip content))]), s')).
  { cbn [Ollama.backend complete_json]. unfold Ollama.complete_json. rewrite Hchat.
    cbn [Ollama.py_strip bind]. rewrite Hloads. reflexivity. }
  split; [exact Hc|].
  unfold screen_one. rewrite Hr. gate_passed Hg. rewrite Hc.
  rewrite parse_without_keys by reflexivity. reflexivity.
Qed.

End ReplyFacts.

(** ** Ingestion *)

Module IngestFacts.
Import PyFloat VectorStore StoreSpec VectorStoreFacts UpsertFacts BatchSpec BatchFacts.
Import Chunking ChunkSpec ChunkFacts IngestSpec.

(** *** Dictionaries *)

Lemma get_set_same (d : dict) (k : string) (v : json) : PyDict.get (PyDict.set d k v) k = Some v.
Proof.
  induction d as [|[k' v'] d IH]; cbn [PyDict.set PyDict.get].
  - rewrite String.eqb_refl. reflexivity.
  - destruct (String.eqb k' k) eqn:E; cbn [PyDict.get]; rewrite E; [reflexivity|exact IH].
Qed.

Lemma get_set_other (d : dict) (k k' : string) (v : json) :
  k' <> k -> PyDict.get (PyDict.set d k' v) k = PyDict.get d k.
Proof.
  intros Hk. induction d as [|[k1 v1] d IH]; cbn [PyDict.set PyDict.get].
  - destruct (String.eqb k' k) eqn:E; [apply String.eqb_eq in E; contradiction|reflexivity].
  - destruct (String.eqb k1 k') eqn:E1; cbn [PyDict.get].
    + apply String.eqb_eq in E1. subst k1.
      destruct (String.eqb k' k) eqn:E; [apply String.eqb_eq in E; contradiction|reflexivity].
    + destruct (String.eqb k1 k); [reflexivity|exact IH].
Qed.


Lemma set_bindings (d : dict) (k k1 : string) (v' v1 : json) :
  In (k, v') (PyDict.set d k1 v1) -> In (k, v') d \/ (k = k1 /\ v' = v1).
Proof.
  induction d as [|[k2 v2] d IH]; cbn [PyDict.set].
  - intros [H|[]]. injection H as <- <-. auto.
  - destruct (String.eqb k2 k1) eqn:E.
    + apply String.eqb_eq in E. subst k2. intros [H|H].
      * injection H as <- <-. auto.
      * left. right. exact H.
    + intros [H|H]; [left; left; exact H|].
      destruct (IH H) as [H1|H1]; [left; right; exact H1|right; exact H1].
Qed.

Lemma no_binding (d : dict) (k : string) (v : json) :
  PyDict.mem d k = false -> ~ In (k, v) d.
Proof.
  unfold PyDict.mem. induction d as [|[k1 v1] d IH]; cbn [PyDict.get]; [tauto|].
  destruct (String.eqb k1 k) eqn:E; [discriminate|]. intros H [Hin|Hin].
  - injection Hin as -> _. rewrite String.eqb_refl in E. discriminate.
  - exact (IH H Hin).
Qed.

Lemma update_binds_only (k : string) (v : json) (other d : dict) :
  binds_only k v d -> PyDict.mem other k = false ->
  binds_only k v (PyDict.update d other).
Proof.
  unfold PyDict.update. revert d. induction other as [|[k1 v1] other IH]; intros d Hd Hm;
    cbn [fold_left]; [exact Hd|].
  unfold PyDict.mem in Hm. cbn [PyDict.get] in Hm.
  destruct (String.eqb k1 k) eqn:E; [discriminate|]. apply IH; [|exact Hm].
  intros v' Hin. cbn [fst snd] in Hin. apply set_bindings in Hin.
  destruct Hin as [Hin|[-> _]]; [exact (Hd v' Hin)|].
  rewrite String.eqb_refl in E. discriminate.
Qed.

Lemma update_keeps_value (k : string) (v : json) (other d : dict) :
  PyDict.get d k = Some v -> binds_only k v other ->
  PyDict.get (PyDict.update d other) k = Some v.
Proof.
  unfold PyDict.update. revert d. induction other as [|[k1 v1] other IH]; intros d Hd Ho;
    cbn [fold_left]; [exact Hd|].
  apply IH.
  - cbn [fst snd]. destruct (String.eqb k1 k) eqn:E.
    + apply String.eqb_eq in E. subst k1. rewrite (Ho v1 (or_introl eq_refl)).
      apply get_set_same.
    + rewrite get_set_other; [exact Hd|]. intros ->. rewrite String.eqb_refl in E.
      discriminate.
  - intros v' Hin. apply Ho. right. exact Hin.
Qed.

Lemma ingest_meta_name (doc : Loaders.LoadedDoc) (title txt : string) (seq : Z) :
  PyDict.mem (Loaders.meta doc) "doc_name" = false ->
  get_or_none (ingest_meta doc (make_chunk (Loaders.doc_name doc) title seq txt)) "doc_name"
  = JStr (Loaders.doc_name doc).
Proof.
  intros Hm. unfold get_or_none, PyDict.get_default, ingest_meta.
  rewrite (update_keeps_value "doc_name" (JStr (Loaders.doc_name doc))); [reflexivity|reflexivity|].
  apply update_binds_only; [|exact Hm].
  intros v' [H|[H|[]]]; [injection H as <-; reflexivity|discriminate H].
Qed.

Lemma stored_name_of (X : Extern) (meta : dict) (name : string) :
  get_or_none meta "doc_name" = JStr name -> name <> "" -> stored_name X meta = Ok name.
Proof.
  intros H Hn. unfold stored_name. rewrite H. destruct name; [congruence|reflexivity].
Qed.

Lemma embed_returns (self : Embeddings.LocalHashingEmbedder) (texts : list string) :
  0 < Embeddings._dim self ->
  exists vs, Embeddings.embed self texts = Ok vs /\ List.length vs = List.length texts.
Proof.
  intros Hd. unfold Embeddings.embed.
  induction texts as [|t texts [vs [IH L]]]; cbn [mapM].
  - exists []. auto.
  - destruct (EmbeddingFacts.embed_one_dimension self t Hd) as [v [-> _]]. rewrite IH.
    cbn [bind]. exists (v :: vs). split; [reflexivity|]. simpl. congruence.
Qed.

Lemma ingest_rows (X : Extern) (doc : Loaders.LoadedDoc) (chunks : list Chunk)
      (vecs : list (list float)) :
  PyDict.mem (Loaders.meta doc) "doc_name" = false ->
  Loaders.doc_name doc <> "" ->
  Forall (fun c => exists title seq txt, c = make_chunk (Loaders.doc_name doc) title seq txt)
         chunks ->
  List.length vecs = List.length chunks ->
  mapM (row_of X) (zip4 (map chunk_id chunks) vecs (map Chunking.text chunks)
                        (map (ingest_meta doc) chunks))
  = Ok (map (ingest_row doc) (combine chunks vecs)).
Proof.
  intros Hm Hn Hc. revert vecs. induction Hc as [|c chunks [title [seq [txt ->]]] Hc IH];
    intros [|v vecs] L; try discriminate L; [reflexivity|].
  cbn [map zip4 mapM combine]. unfold row_of at 1.
  rewrite (stored_name_of X _ (Loaders.doc_name doc) (ingest_meta_name doc title txt seq Hm) Hn).
  cbn [bind]. rewrite IH by (simpl in L; lia). reflexivity.
Qed.

Lemma ingest_row_ids (doc : Loaders.LoadedDoc) (chunks : list Chunk) (vecs : list (list float)) :
  List.length vecs = List.length chunks ->
  map id (map (ingest_row doc) (combine chunks vecs)) = map chunk_id chunks.
Proof.
  revert vecs. induction chunks as [|c chunks IH]; intros [|v vecs] L; try discriminate L;
    [reflexivity|].
  cbn [combine map]. rewrite IH by (simpl in L; lia). reflexivity.
Qed.

Lemma filter_none {A : Type} (p : A -> bool) (l : list A) :
  Forall (fun a => p a = false) l -> filter p l = [].
Proof.
  induction 1 as [|a l Ha Hl IH]; [reflexivity|]. cbn [filter]. rewrite Ha. exact IH.
Qed.

Lemma numbered_made (doc_name : string) (titles : list string) (chunks : list Chunk) :
  numbered doc_name titles (fun _ => True) chunks ->
  Forall (fun c => exists title seq txt, c = make_chunk doc_name title seq txt) chunks.
Proof.
  intros H. apply Forall_forall. intros c Hc. apply In_nth_error in Hc.
  destruct Hc as [i Hi]. destruct (H i c Hi) as [title [txt [_ [_ ->]]]]. eauto.
Qed.

Lemma chunk_ids_distinct (doc_name : string) (titles : list string) (chunks : list Chunk) :
  numbered doc_name titles (fun _ => True) chunks -> NoDup (map chunk_id chunks).
Proof.
  intros N.
  apply (ChunkTextFacts.NoDup_by_index chunk_id
           (fun i => (doc_name ++ ":" ++ PyStr.fmt_04d (Z.of_nat i))%string)).
  - intros i j E. apply append_inj_l, append_inj_l in E. apply fmt_04d_inj in E; lia.
  - intros i c Hi. destruct (N i c Hi) as [title [txt [_ [_ ->]]]]. reflexivity.
Qed.

Lemma ingest_file_result (X : Extern) (vs : store) (doc : Loaders.LoadedDoc) :
  PyDict.mem (Loaders.meta doc) "doc_name" = false ->
  Loaders.doc_name doc <> "" ->
  exists chunks vecs st',
    chunk_text (Loaders.doc_name doc) 1200 150 (Loaders.text doc) = Some chunks
    /\ Embeddings.embed Rag._embedder (map Chunking.text chunks) = Ok vecs
    /\ List.length vecs = List.length chunks
    /\ Rag.ingest_file X vs doc = Some (Ok st')
    /\ st' = filter (id_not_in (map chunk_id chunks)) vs
             ++ map (ingest_row doc) (combine chunks vecs)
    /\ (chunks <> [] -> In (Loaders.doc_name doc) (list_doc_names st'))
    /\ (chunks = [] -> st' = vs)
    /\ Rag.ingest_file X st' doc = Some (Ok st').
Proof.
  intros Hm Hn.
  destruct (ChunkingFacts.chunk_text_returns (Loaders.doc_name doc) 1200 150
              (Loaders.text doc) ltac:(lia)) as [chunks Hc].
  destruct (embed_returns Rag._embedder (map Chunking.text chunks) ltac:(reflexivity))
    as [vecs [Hv Lv]].
  rewrite length_map in Lv.
  assert (N : numbered (Loaders.doc_name doc) (map fst (sections_of (Loaders.text doc)))
                       (fun _ => True) chunks).
  { apply (chunk_text_keeps (Loaders.doc_name doc) 1200 150 ltac:(lia)
             (map fst (sections_of (Loaders.text doc)))
             (fun _ => True) (fun _ => True) (fun _ => True))
      with (text := Loaders.text doc); auto.
    apply Forall_forall. auto. }
  set (rows := map (ingest_row doc) (combine chunks vecs)).
  assert (Hrows : map id rows = map chunk_id chunks) by (apply ingest_row_ids; exact Lv).
  assert (Ing : forall st,
             Rag.ingest_file X st doc
             = Some (Ok (filter (id_not_in (map chunk_id chunks)) st ++ rows))).
  { intros st. unfold Rag.ingest_file. rewrite Hc, Hv. cbn [bind]. f_equal.
    rewrite upsert_raw.
    rewrite executemany_batch.
    - change (map (fun c => PyDict.update (Chunking.meta c) _) chunks)
        with (map (ingest_meta doc) chunks).
      rewrite (ingest_rows X doc chunks vecs Hm Hn (numbered_made _ _ _ N) Lv).
      cbn [bind]. fold rows. rewrite Hrows. reflexivity.
    - destruct (zip4_ids (map chunk_id chunks) vecs (map Chunking.text chunks)
                         (map (fun c => PyDict.update (Chunking.meta c)
                                          (PyDict.update
                                             [ ("doc_name", JStr (Loaders.doc_name doc));
                                               ("source", JStr (Loaders.doc_name doc)) ]
                                             (Loaders.meta doc))) chunks)) as [n Hz].
      unfold record_id. rewrite Hz. apply NoDup_firstn.
      exact (chunk_ids_distinct _ _ _ N). }
  exists chunks, vecs, (filter (id_not_in (map chunk_id chunks)) vs ++ rows).
  split; [exact Hc|]. split; [exact Hv|]. split; [exact Lv|]. split; [apply Ing|].
  split; [reflexivity|]. split.
  - intros Hne. destruct chunks as [|c chunks]; [congruence|].
    destruct vecs as [|v vecs]; [discriminate Lv|].
    apply (list_doc_names_in _ (ingest_row doc (c, v))).
    apply in_or_app. right. left. reflexivity.
  - split.
    { intros ->. subst rows. cbn [combine map]. unfold id_not_in. cbn [existsb negb].
      rewrite filter_true. apply app_nil_r. }
    rewrite Ing. do 2 f_equal. rewrite filter_app, UpsertFacts.filter_idem.
    rewrite (filter_none (id_not_in (map chunk_id chunks)) rows);
      [rewrite app_nil_r; reflexivity|].
    apply Forall_forall. intros row Hrow. unfold id_not_in.
    assert (Hin : In (id row) (map chunk_id chunks)).
    { rewrite <- Hrows. apply in_map. exact Hrow. }
    apply existsb_eqb_In in Hin. rewrite Hin. reflexivity.
Qed.

(** Ingestion stores the chunks of the document and can be repeated. For
    a document as [load_document] builds it (a name that is not empty, and
    metadata without a [doc_name] key), [ingest_file] returns: each chunk of
    the text is stored under its chunk id and under the name of the
    document, with its text, after the rows of the other ids, which are
    kept as they were; the document is listed as soon as its text is not
    blank, and a blank document leaves the store unchanged; and ingesting
    the same document once more leaves the store as it is. *)
Theorem ingest_file_stores_chunks (X : Extern) (vs : store) (doc : Loaders.LoadedDoc) :
  PyDict.mem (Loaders.meta doc) "doc_name" = false ->
  Loaders.doc_name doc <> "" ->
  exists chunks vecs st',
    chunk_text (Loaders.doc_name doc) 1200 150 (Loaders.text doc) = Some chunks
    /\ Embeddings.embed Rag._embedder (map Chunking.text chunks) = Ok vecs
    /\ List.length vecs = List.length chunks
    /\ Rag.ingest_file X vs doc = Some (Ok st')
    /\ st' = filter (id_not_in (map chunk_id chunks)) vs
             ++ map (ingest_row doc) (combine chunks vecs)
    /\ (TextShape.all_space (Loaders.text doc) = false ->
        In (Loaders.doc_name doc) (list_doc_names st'))
    /\ (TextShape.all_space (Loaders.text doc) = true -> st' = vs)
    /\ Rag.ingest_file X st' doc = Some (Ok st').
Proof.
  intros Hm Hn.
  destruct (ingest_file_result X vs doc Hm Hn)
    as [chunks [vecs [st' [H1 [H2 [H3 [H4 [H5 [H6 [H7 H8]]]]]]]]]].
  exists chunks, vecs, st'. repeat (split; [assumption|]).
  pose proof (ChunkGrowth.chunk_text_empty_iff _ 1200 150 _ chunks ltac:(lia) H1) as E.
  split; [|split; [|assumption]].
  - intros Hb. apply H6. intros Hc. apply E in Hc. congruence.
  - intros Hb. apply H7, E, Hb.
Qed.

Lemma ingest_file_stores_chunks_witness :
  exists chunks vecs st',
    chunk_text "cv.txt" 1200 150 ("Skills" ++ PyStr.nl ++ "python, rust") = Some chunks
    /\ Embeddings.embed Rag._embedder (map Chunking.text chunks) = Ok vecs
    /\ List.length vecs = List.length chunks
    /\ Rag.ingest_file Examples.extern Examples.three_rows
         {| Loaders.doc_name := "cv.txt";
            Loaders.text := ("Skills" ++ PyStr.nl ++ "python, rust")%string;
            Loaders.meta := [("type", JStr "txt")] |} = Some (Ok st')
    /\ st' = filter (id_not_in (map chunk_id chunks)) Examples.three_rows
             ++ map (ingest_row {| Loaders.doc_name := "cv.txt";
                                   Loaders.text := ("Skills" ++ PyStr.nl ++ "python, rust")%string;
                                   Loaders.meta := [("type", JStr "txt")] |})
                    (combine chunks vecs)
    /\ (TextShape.all_space ("Skills" ++ PyStr.nl ++ "python, rust") = false ->
        In "cv.txt" (list_doc_names st'))
    /\ (TextShape.all_space ("Skills" ++ PyStr.nl ++ "python, rust") = true ->
        st' = Examples.three_rows)
    /\ Rag.ingest_file Examples.extern st'
         {| Loaders.doc_name := "cv.txt";
            Loaders.text := ("Skills" ++ PyStr.nl ++ "python, rust")%string;
            Loaders.meta := [("type", JStr "txt")] |} = Some (Ok st').
Proof.
  apply (ingest_file_stores_chunks Examples.extern Examples.three_rows
           {| Loaders.doc_name := "cv.txt";
              Loaders.text := ("Skills" ++ PyStr.nl ++ "python, rust")%string;
              Loaders.meta := [("type", JStr "txt")] |}).
  - reflexivity.
  - discriminate.
Defined.

End IngestFacts.

(** ** Loading *)

Module LoadingFacts.
Import PyStr Loaders Ingestion LoadingSpec TextShape TextFacts ChunkGrowth IngestFacts.

Lemma load_document_shape (R : Readers) (path : Path) (doc : LoadedDoc) :
  load_document R path = Ok doc ->
  doc_name doc = name path
  /\ PyDict.mem (meta doc) "doc_name" = false
  /\ PyDict.mem (meta doc) "source" = false
  /\ exists kind,
       In kind supported
       /\ lower (suffix path) = ("." ++ kind)%string
       /\ PyDict.get (meta doc) "type" = Some (JStr kind).
Proof.
  unfold load_document.
  destruct (String.eqb (lower (suffix path)) ".txt") eqn:E1.
  { destruct (_read_txt R path); [|discriminate]. cbn [bind]. intros H. injection H as <-.
    apply String.eqb_eq in E1. repeat split. exists "txt". cbn. auto. }
  destruct (String.eqb (lower (suffix path)) ".docx") eqn:E2.
  { destruct (_read_docx R path); [|discriminate]. cbn [bind]. intros H. injection H as <-.
    apply String.eqb_eq in E2. repeat split. exists "docx". cbn. auto. }
  destruct (String.eqb (lower (suffix path)) ".pdf") eqn:E3; [|discriminate].
  unfold _read_pdf. destruct (pdf_pages R path); [|discriminate]. cbn [bind fst snd].
  intros H. injection H as <-. apply String.eqb_eq in E3. repeat split.
  exists "pdf". cbn. auto.
Qed.

(** [load_document] goes by the suffix of the name, in any letter case: a
    document that it returns is named after the file, its metadata say
    which of the three supported types it is and hold neither a [doc_name]
    nor a [source] key; and a file of any other suffix is refused with
    [ValueError], whatever the readers would do with it. *)
Theorem load_document_by_suffix (R : Readers) (path : Path) :
  (forall doc, load_document R path = Ok doc ->
     doc_name doc = name path
     /\ PyDict.mem (meta doc) "doc_name" = false
     /\ PyDict.mem (meta doc) "source" = false
     /\ exists kind,
          In kind supported
          /\ lower (suffix path) = ("." ++ kind)%string
          /\ PyDict.get (meta doc) "type" = Some (JStr kind))
  /\ ((forall kind, In kind supported -> lower (suffix path) <> ("." ++ kind)%string) ->
      load_document R path = Raise (Exn "ValueError")).
Proof.
  split; [intros doc; apply load_document_shape|].
  intros H. unfold load_document.
  destruct (String.eqb (lower (suffix path)) ".txt") eqn:E1.
  { apply String.eqb_eq in E1. exfalso. apply (H "txt"); [cbn; auto|exact E1]. }
  destruct (String.eqb (lower (suffix path)) ".docx") eqn:E2.
  { apply String.eqb_eq in E2. exfalso. apply (H "docx"); [cbn; auto|exact E2]. }
  destruct (String.eqb (lower (suffix path)) ".pdf") eqn:E3; [|reflexivity].
  apply String.eqb_eq in E3. exfalso. apply (H "pdf"); [cbn; auto|exact E3].
Qed.

(** [ingest_file(path)] raises what [load_document] raises and nothing
    else: once the document is loaded, chunking, embedding and storing
    return, and a second ingestion of the file leaves the store as the
    first one left it. *)
Theorem ingest_fails_only_at_loading (R : Readers) (X : Extern) (vs : VectorStore.store)
        (path : Path) :
  name path <> "" ->
  (forall e, load_document R path = Raise e -> ingest_path R X vs path = Some (Raise e))
  /\ (forall doc, load_document R path = Ok doc ->
        exists st',
          ingest_path R X vs path = Some (Ok st')
          /\ ingest_path R X st' path = Some (Ok st')).
Proof.
  intros Hn. split.
  - intros e H. unfold ingest_path. rewrite H. reflexivity.
  - intros doc H. unfold ingest_path. rewrite H.
    destruct (load_document_shape R path doc H) as [Hd [Hm _]].
    destruct (ingest_file_result X vs doc Hm ltac:(congruence))
      as [chunks [vecs [st' [_ [_ [_ [H1 [_ [_ [_ H2]]]]]]]]]].
    exists st'. auto.
Qed.

(** *** Pages *)

Lemma rstrip_app_keep (x y : string) :
  x <> "" -> rstrip x = x -> rstrip (x ++ y) = (x ++ rstrip y)%string.
Proof.
  induction x as [|c x IH]; [congruence|]. intros _ Hx.
  rewrite rstrip_cons in Hx. cbn [append]. rewrite rstrip_cons.
  destruct x as [|c2 x2].
  - cbn [rstrip append] in *. destruct (is_space c); [discriminate|].
    destruct (rstrip y); reflexivity.
  - destruct (rstrip (String c2 x2)) as [|r1 r2] eqn:E.
    + destruct (is_space c); discriminate.
    + assert (Hx' : String r1 r2 = String c2 x2) by congruence.
      rewrite IH; [|discriminate|exact Hx']. reflexivity.
Qed.

Lemma join_cons (sep x : string) (xs : list string) :
  exists rest, join sep (x :: xs) = (x ++ rest)%string.
Proof.
  unfold join. cbn [String.concat]. destruct xs as [|y ys].
  - exists "". clear. induction x as [|c x IH]; [reflexivity|]. cbn [append]. rewrite <- IH.
    reflexivity.
  - eexists. reflexivity.
Qed.

Lemma append_assoc (a b c : string) : ((a ++ b) ++ c = a ++ (b ++ c))%string.
Proof. induction a as [|x a IH]; [reflexivity|]. cbn [append]. rewrite IH. reflexivity. Qed.

Lemma first_page_entry (t : string) :
  exists rest, page_entry 0 t = ("[PAGE 1]" ++ rest)%string.
Proof. unfold page_entry. destruct (PyStr.truthy (strip t)); eexists; reflexivity. Qed.

Lemma read_pdf_marks_first_page (R : Readers) (path : Path)
      (pages : list (Result (option string))) :
  pdf_pages R path = Ok pages -> pages <> [] ->
  exists rest,
    _read_pdf R path
    = Ok (("[PAGE 1]" ++ rest)%string, [("num_pages", JInt (Z.of_nat (List.length pages)))]).
Proof.
  intros Hp Hne. unfold _read_pdf. rewrite Hp. cbn [bind].
  destruct pages as [|p pages]; [congruence|].
  cbn [List.length seq combine map fst snd].
  destruct (first_page_entry (page_text p)) as [r1 ->].
  destruct (join_cons nlnl ("[PAGE 1]" ++ r1)
              (map (fun ip => page_entry (fst ip) (page_text (snd ip)))
                   (combine (seq 1 (List.length pages)) pages))) as [r2 ->].
  rewrite append_assoc. unfold strip.
  change (lstrip ("[PAGE 1]" ++ r1 ++ r2)) with ("[PAGE 1]" ++ r1 ++ r2)%string.
  rewrite rstrip_app_keep; [|discriminate|reflexivity].
  eexists. reflexivity.
Qed.

(** A PDF is indexed even when no page of it gives any text. Each page
    contributes its marker, also a page whose extraction raises or returns
    nothing; so the text of a PDF of at least one page begins with
    [[PAGE 1]], its metadata count all the pages, and after the ingestion
    the document is listed, with chunks that may hold page markers
    only. *)
Theorem pdf_is_indexed_by_its_page_markers (R : Readers) (X : Extern)
        (vs : VectorStore.store) (path : Path) (pages : list (Result (option string))) :
  lower (suffix path) = ".pdf" ->
  name path <> "" ->
  pdf_pages R path = Ok pages ->
  pages <> [] ->
  exists doc rest st',
    load_document R path = Ok doc
    /\ text doc = ("[PAGE 1]" ++ rest)%string
    /\ PyDict.get (meta doc) "num_pages" = Some (JInt (Z.of_nat (List.length pages)))
    /\ ingest_path R X vs path = Some (Ok st')
    /\ In (name path) (VectorStore.list_doc_names st').
Proof.
  intros Hs Hn Hp Hne.
  destruct (read_pdf_marks_first_page R path pages Hp Hne) as [rest Hr].
  assert (Hl : load_document R path
               = Ok {| doc_name := name path; text := ("[PAGE 1]" ++ rest)%string;
                       meta := PyDict.update [("type", JStr "pdf")]
                                 [("num_pages", JInt (Z.of_nat (List.length pages)))] |}).
  { unfold load_document. rewrite Hs. cbn [String.eqb Ascii.eqb Bool.eqb]. rewrite Hr.
    reflexivity. }
  eexists. exists rest. 
  destruct (ingest_file_result X vs _ (proj1 (proj2 (load_document_shape R path _ Hl)))
              ltac:(cbn [doc_name]; exact Hn))
    as [chunks [vecs [st' [H1 [_ [_ [H4 [_ [H6 _]]]]]]]]].
  exists st'. split; [exact Hl|]. split; [reflexivity|]. split; [reflexivity|].
  split; [unfold ingest_path; rewrite Hl; exact H4|].
  apply H6. intros Hc.
  apply (ChunkGrowth.chunk_text_empty_iff _ 1200 150 _ chunks ltac:(lia) H1) in Hc.
  discriminate Hc.
Qed.

End LoadingFacts.

(** ** Questions without token *)

Module ZeroFacts.
Import PyFloat FloatOrder FloatFacts Rag RagFacts ResultSpec ResultFacts GateFacts ZeroSpec.
Import VectorStore VectorStoreFacts.

Lemma mul_zero_finite (e : float) : is_finite e = true -> is_zero (mul zero e) = true.
Proof. destruct e; try discriminate; reflexivity. Qed.

Lemma add_zeros (a b : float) : is_zero a = true -> is_zero b = true -> is_zero (add a b) = true.
Proof. destruct a as [[]| | |], b as [[]| | |]; try discriminate; reflexivity. Qed.

Lemma clamp01_zero (x : float) : is_zero x = true -> clamp01 x = zero.
Proof. destruct x as [[]| | |]; try discriminate; reflexivity. Qed.

Lemma dot_zero_vector (n : nat) (emb : list float) :
  forallb is_finite emb = true -> is_zero (dot_score (repeat zero n) emb) = true.
Proof.
  rewrite dot_score_combine.
  assert (G : forall acc, is_zero acc = true ->
                forallb is_finite emb = true ->
                is_zero (fold_left (fun acc p => add acc (mul (fst p) (snd p)))
                                   (combine (repeat zero n) emb) acc) = true).
  { revert emb. induction n as [|n IH]; intros emb acc Ha He; [exact Ha|].
    destruct emb as [|e emb]; [exact Ha|]. cbn [repeat combine fold_left fst snd].
    cbn [forallb] in He. apply andb_prop in He. destruct He as [He1 He2].
    apply IH; [|exact He2]. apply add_zeros; [exact Ha|apply mul_zero_finite; exact He1]. }
  apply G. reflexivity.
Qed.

Lemma array_f_zeros (n : nat) : array_f (repeat zero n) = repeat zero n.
Proof.
  unfold array_f. induction n as [|n IH]; [reflexivity|]. cbn [repeat map]. rewrite IH.
  reflexivity.
Qed.

Lemma best_of_zeros (cs : list RetrievedChunk.t) :
  Forall (fun c => RetrievedChunk.score c = zero) cs ->
  fold_left (fun best c' => py_max best (RetrievedChunk.score c')) cs zero = zero.
Proof.
  induction 1 as [|c cs Hc Hcs IH]; [reflexivity|]. cbn [fold_left]. rewrite Hc. exact IH.
Qed.

(** A question without a token is always refused. When the text of the
    question holds no token (punctuation, single letters), its vector is
    all zeros, so every chunk of a store whose vectors are finite scores
    0.0; with a positive threshold the gate fails, and [answer_question]
    returns its refusal without consulting the backend, whatever the
    store holds. *)
Theorem question_without_token_is_refused (X : Extern) (S : Type) (cfg : RAGConfig)
        (llm : option (BaseLLM S)) (vs : store) (question : string) (s : S)
        (chunks : list RetrievedChunk.t) :
  Embeddings.findall_tokens (PyStr.lower question) = [] ->
  Forall (fun row => forallb is_finite (embedding row) = true) vs ->
  ltb zero (min_relevance_score cfg) = true ->
  _retrieve X cfg vs question None = Ok chunks ->
  Forall (fun c => RetrievedChunk.score c = zero) chunks
  /\ fst (_guardrail_context cfg chunks) = false
  /\ answer_question X S cfg llm vs question s
     = (Ok (refusal (snd (_guardrail_context cfg chunks))), s).
Proof.
  intros Ht Hvs Hthr Hr.
  assert (Hz : Forall (fun c => RetrievedChunk.score c = zero) chunks).
  { revert Hr. unfold _retrieve, Embeddings.embed. cbn [mapM].
    rewrite (EmbeddingFacts.embed_one_no_token _embedder question Ht). cbn [bind].
    destruct (query X vs _ (top_k cfg) None) as [res|] eqn:Hq; [|discriminate].
    cbn [bind]. intros Hm.
    destruct (query_result X vs _ (top_k cfg) None res Hq) as [_ [_ [_ Hrows]]].
    apply (retrieved_all X _ (fun c => RetrievedChunk.score c = zero) res chunks)
      with (3 := Hrows); [|exact Hm].
    intros h c E [row [Hin ->]]. destruct (retrieved_fields X _ c E) as [_ [_ ->]].
    cbn [score_row hit_score snd]. apply clamp01_zero. rewrite array_f_zeros.
    apply dot_zero_vector. rewrite Forall_forall in Hvs. exact (Hvs row Hin). }
  assert (Hg : fst (_guardrail_context cfg chunks) = false).
  { destruct chunks as [|c cs]; [reflexivity|]. cbn [_guardrail_context].
    inversion Hz as [|? ? Hc Hcs]; subst. unfold best_score. rewrite Hc.
    rewrite (best_of_zeros cs Hcs), Hthr. reflexivity. }
  split; [exact Hz|]. split; [exact Hg|].
  unfold answer_question. rewrite Hr.
  destruct (_guardrail_context cfg chunks) as [ok reason]. cbn [fst snd] in *. subst ok.
  reflexivity.
Qed.

End ZeroFacts.

(** ** Replies of the Ollama server *)

Module OllamaFacts.
Import Ollama.

Lemma rstrip_slash_cons (c : ascii) (s : string) :
  rstrip_slash (String c s)
  = match rstrip_slash s with
    | "" => if Ascii.eqb c "/"%char then "" else String c ""
    | r => String c r
    end.
Proof. reflexivity. Qed.

Lemma rstrip_slash_idem (s : string) : rstrip_slash (rstrip_slash s) = rstrip_slash s.
Proof.
  induction s as [|a s IH]; [reflexivity|]. rewrite rstrip_slash_cons.
  destruct (rstrip_slash s) as [|b r] eqn:E.
  - destruct (Ascii.eqb a "/"%char) eqn:Ea; [reflexivity|]. cbn [rstrip_slash]. rewrite Ea.
    reflexivity.
  - rewrite rstrip_slash_cons, IH. reflexivity.
Qed.

(** *** What the calls raise *)

Lemma py_get_raises (v : json) (k : string) (d : json) (e : exn) :
  py_get v k d = Raise e -> e = Exn "AttributeError".
Proof. destruct v; cbn [py_get]; intros H; congruence. Qed.

Lemma py_strip_raises (v : json) (e : exn) :
  py_strip v = Raise e -> e = Exn "AttributeError".
Proof. destruct v; cbn [py_strip]; intros H; congruence. Qed.

Lemma chat_raises (S : Type) (post : S -> string -> json -> Z -> Result json * S)
      (self : OllamaLLM) (s s1 : S) (system user : string) (e : exn) :
  _chat S post self s system user = (Raise e, s1) ->
  post s (_base_url self ++ "/api/chat")%string (payload self system user) 120 = (Raise e, s1)
  \/ e = Exn "AttributeError".
Proof.
  unfold _chat.
  destruct (post s (_base_url self ++ "/api/chat")%string (payload self system user) 120)
    as [[data|e0] s0]; [|intros H; left; exact H].
  intros H. right. injection H as H _.
  destruct (py_get data "message" (JObj [])) as [message|e1] eqn:E1.
  - cbn [bind] in H.
    destruct (py_get (py_or message (JObj [])) "content" (JStr "")) as [content|e2] eqn:E2.
    + discriminate H.
    + cbn [bind] in H. injection H as <-. exact (py_get_raises _ _ _ _ E2).
  - cbn [bind] in H. injection H as <-. exact (py_get_raises _ _ _ _ E1).
Qed.

Lemma complete_json_raises (S : Type) (post : S -> string -> json -> Z -> Result json * S)
      (json_loads : string -> Result json)
      (self : OllamaLLM) (s s1 : S) (system user : string) (e : exn) :
  complete_json S post json_loads self s system user = (Raise e, s1) ->
  post s (_base_url self ++ "/api/chat")%string (payload self system user) 120 = (Raise e, s1)
  \/ e = Exn "AttributeError".
Proof.
  unfold complete_json.
  destruct (_chat S post self s system user) as [[content|e0] s0] eqn:E.
  - intros H. right. injection H as H _.
    destruct (py_strip content) as [text|e1] eqn:E1.
    + cbn [bind] in H. destruct (json_loads text); discriminate H.
    + cbn [bind] in H. injection H as <-. exact (py_strip_raises _ _ E1).
  - intros H. injection H as <- <-. exact (chat_raises _ _ _ _ _ _ _ _ E).
Qed.

Lemma complete_markdown_raises (S : Type) (post : S -> string -> json -> Z -> Result json * S)
      (self : OllamaLLM) (s s1 : S) (system user : string) (e : exn) :
  complete_markdown S post self s system user = (Raise e, s1) ->
  post s (_base_url self ++ "/api/chat")%string (payload self system user) 120 = (Raise e, s1)
  \/ e = Exn "AttributeError".
Proof.
  unfold complete_markdown.
  destruct (_chat S post self s system user) as [[content|e0] s0] eqn:E.
  - intros H. right. injection H as H _. exact (py_strip_raises _ _ H).
  - intros H. injection H as <- <-. exact (chat_raises _ _ _ _ _ _ _ _ E).
Qed.

(** The base address never ends with a slash. *)
Lemma rstrip_slash_end (s : string) (r : string) :
  rstrip_slash s <> (r ++ "/")%string.
Proof.
  revert r. induction s as [|a s IH]; intros r.
  - destruct r; discriminate.
  - cbn [rstrip_slash]. destruct (rstrip_slash s) as [|b t] eqn:E.
    + destruct (Ascii.eqb a "/"%char) eqn:Ea.
      * destruct r; discriminate.
      * destruct r as [|c r]; cbn [append].
        -- intros H. injection H as ->. discriminate Ea.
        -- intros H. injection H as _ H. destruct r; discriminate H.
    + destruct r as [|c r]; cbn [append].
      * discriminate.
      * intros H. injection H as _ H. exact (IH r H).
Qed.

(** How [OllamaLLM] reads a reply. The two calls raise what the HTTP
    exchange raises, or [AttributeError] when the reply has not the shape
    of a chat reply, and nothing else: text that is not JSON never makes
    [complete_json] raise. A reply whose message has a content string gives
    that string, stripped, as markdown; as JSON it gives what [json.loads]
    makes of it, or the dictionary [{"raw": text}] when [json.loads] refuses
    it. A reply without message, or whose message has no content, counts as
    the empty text. And the address that is posted to is built from a base
    address without trailing slash, however many the caller wrote. *)
Theorem ollama_reads_reply (S : Type) (post : S -> string -> json -> Z -> Result json * S)
        (json_loads : string -> Result json) (self : OllamaLLM) (s s' : S)
        (system user : string) :
  (forall e,
      complete_json S post json_loads self s system user = (Raise e, s')
      \/ complete_markdown S post self s system user = (Raise e, s') ->
      post s (_base_url self ++ "/api/chat")%string (payload self system user) 120
      = (Raise e, s')
      \/ e = Exn "AttributeError")
  /\ (forall e,
        post s (_base_url self ++ "/api/chat")%string (payload self system user) 120
        = (Raise e, s') ->
        complete_json S post json_loads self s system user = (Raise e, s')
        /\ complete_markdown S post self s system user = (Raise e, s'))
  /\ (forall body message content,
        post s (_base_url self ++ "/api/chat")%string (payload self system user) 120
        = (Ok (JObj body), s') ->
        PyDict.get body "message" = Some (JObj message) ->
        PyDict.get message "content" = Some (JStr content) ->
        complete_markdown S post self s system user = (Ok (PyStr.strip content), s')
        /\ complete_json S post json_loads self s system user
           = (Ok (match json_loads (PyStr.strip content) with
                  | Ok v => v
                  | Raise _ => JObj [("raw", JStr (PyStr.strip content))]
                  end), s'))
  /\ (forall body,
        post s (_base_url self ++ "/api/chat")%string (payload self system user) 120
        = (Ok (JObj body), s') ->
        py_bool (get_or_none body "message") = false ->
        _chat S post self s system user = (Ok (JStr ""), s')
        /\ complete_markdown S post self s system user = (Ok "", s'))
  /\ (forall body message,
        post s (_base_url self ++ "/api/chat")%string (payload self system user) 120
        = (Ok (JObj body), s') ->
        PyDict.get body "message" = Some (JObj message) ->
        PyDict.get message "content" = None ->
        _chat S post self s system user = (Ok (JStr ""), s'))
  /\ (forall model base_url,
        (forall r, _base_url (make model base_url) <> (r ++ "/")%string)
        /\ _base_url (make model (_base_url (make model base_url)))
           = _base_url (make model base_url)).
Proof.
  split; [|split; [|split; [|split; [|split]]]].
  - intros e [H|H].
    + exact (complete_json_raises _ _ _ _ _ _ _ _ _ H).
    + exact (complete_markdown_raises _ _ _ _ _ _ _ _ H).
  - intros e H. unfold complete_json, complete_markdown, _chat. rewrite H. auto.
  - intros body message content H Hm Hc.
    assert (Chat : _chat S post self s system user = (Ok (JStr content), s')).
    { unfold _chat. rewrite H. cbn [py_get bind]. unfold PyDict.get_default. rewrite Hm.
      assert (T : py_or (JObj message) (JObj []) = JObj message).
      { destruct message; [discriminate Hc|reflexivity]. }
      rewrite T. cbn [py_get bind]. unfold PyDict.get_default. rewrite Hc.
      destruct content; reflexivity. }
    unfold complete_markdown, complete_json. rewrite Chat. cbn [py_strip bind].
    split; [reflexivity|]. destruct (json_loads (PyStr.strip content)); reflexivity.
  - intros body H Hm.
    assert (Chat : _chat S post self s system user = (Ok (JStr ""), s')).
    { unfold _chat. rewrite H. cbn [py_get bind].
      unfold get_or_none, PyDict.get_default in *.
      destruct (PyDict.get body "message") as [v|].
      - unfold py_or at 1. rewrite Hm. reflexivity.
      - reflexivity. }
    split; [exact Chat|]. unfold complete_markdown. rewrite Chat. reflexivity.
  - intros body message H Hm Hc. unfold _chat. rewrite H. cbn [py_get bind].
    unfold PyDict.get_default. rewrite Hm.
    destruct message as [|kv message]; [reflexivity|].
    cbn [py_or py_bool py_get bind]. unfold PyDict.get_default. rewrite Hc. reflexivity.
  - intros model base_url. cbn [make _base_url]. split.
    + apply rstrip_slash_end.
    + apply rstrip_slash_idem.
Qed.

End OllamaFacts.

(** ** Worked cases *)

Module WorkedCases.
Import PyFloat Rag Ingestion ResultSpec ReplySpec ZeroSpec LoadingSpec.

Lemma compare_fallback_shows_six_witness :
  (forall s : nat,
      compare_resumes Examples.extern nat Scenario.config None Scenario.resume_store
                      "python developer" Cases.seven_names s
      = compare_resumes Examples.extern nat Scenario.config None Scenario.resume_store
                        "python developer" (firstn 6 Cases.seven_names) s)
  /\ (forall (l : BaseLLM nat) (s s' : nat) (e : exn),
        complete_markdown l s Prompts.COMPARE_SYSTEM
                          (compare_prompt "python developer" Cases.seven_blocks)
        = (Raise e, s') ->
        compare_resumes Examples.extern nat Scenario.config (Some l) Scenario.resume_store
                        "python developer" Cases.seven_names s
        = (Ok (compare_fallback (firstn 6 Cases.seven_blocks)), s')).
Proof.
  apply (ReplyFacts.compare_fallback_shows_six Examples.extern nat Scenario.config
           Scenario.resume_store "python developer" Cases.seven_names Cases.seven_blocks).
  vm_compute. reflexivity.
Defined.

Lemma prose_answer_is_parsed_with_defaults_witness :
  complete_json (Ollama.backend nat Cases.prose_server Cases.refusing_loads Cases.local_ollama)
                O Prompts.SCREEN_SYSTEM
                (screen_prompt "python developer" "a.txt" Scenario.retrieved)
  = (Ok (JObj [("raw", JStr (PyStr.strip " A good fit, I think. "))]), 1%nat)
  /\ screen_one Examples.extern nat Scenario.config
                (Some (Ollama.backend nat Cases.prose_server Cases.refusing_loads
                                      Cases.local_ollama))
                Scenario.resume_store "python developer" "a.txt" O
     = (Ok (default_result "a.txt" Scenario.retrieved), 1%nat).
Proof.
  apply (ReplyFacts.prose_answer_is_parsed_with_defaults Examples.extern nat Scenario.config
           Scenario.resume_store Cases.prose_server Cases.refusing_loads Cases.local_ollama
           "python developer" "a.txt" O 1%nat Scenario.retrieved " A good fit, I think. "
           (Exn "JSONDecodeError")).
  - vm_compute. reflexivity.
  - vm_compute. reflexivity.
  - reflexivity.
  - reflexivity.
Defined.

Lemma ingest_fails_only_at_loading_witness :
  (forall e, Loaders.load_document Cases.scanned Cases.scan_path = Raise e ->
             ingest_path Cases.scanned Examples.extern Examples.three_rows Cases.scan_path
             = Some (Raise e))
  /\ (forall doc, Loaders.load_document Cases.scanned Cases.scan_path = Ok doc ->
        exists st',
          ingest_path Cases.scanned Examples.extern Examples.three_rows Cases.scan_path
          = Some (Ok st')
          /\ ingest_path Cases.scanned Examples.extern st' Cases.scan_path = Some (Ok st')).
Proof.
  apply (LoadingFacts.ingest_fails_only_at_loading Cases.scanned Examples.extern
           Examples.three_rows Cases.scan_path).
  simpl. discriminate.
Defined.

Lemma pdf_is_indexed_by_its_page_markers_witness :
  exists doc rest st',
    Loaders.load_document Cases.scanned Cases.scan_path = Ok doc
    /\ Loaders.text doc = ("[PAGE 1]" ++ rest)%string
    /\ PyDict.get (Loaders.meta doc) "num_pages"
       = Some (JInt (Z.of_nat (List.length [Raise (Exn "PdfReadError");
                                             @Ok (option string) None])))
    /\ ingest_path Cases.scanned Examples.extern Examples.three_rows Cases.scan_path
       = Some (Ok st')
    /\ In (Loaders.name Cases.scan_path) (VectorStore.list_doc_names st').
Proof.
  apply (LoadingFacts.pdf_is_indexed_by_its_page_markers Cases.scanned Examples.extern
           Examples.three_rows Cases.scan_path
           [Raise (Exn "PdfReadError"); Ok None]).
  - reflexivity.
  - simpl. discriminate.
  - reflexivity.
  - discriminate.
Defined.

Lemma question_without_token_is_refused_witness :
  Forall (fun c => RetrievedChunk.score c = zero) Cases.retrieved_for_no_token
  /\ fst (_guardrail_context Scenario.config Cases.retrieved_for_no_token) = false
  /\ answer_question Examples.extern nat Scenario.config (Some Scenario.flaky_llm)
                     Scenario.resume_store "? & !" O
     = (Ok (refusal (snd (_guardrail_context Scenario.config Cases.retrieved_for_no_token))),
        O).
Proof.
  apply (ZeroFacts.question_without_token_is_refused Examples.extern nat Scenario.config
           (Some Scenario.flaky_llm) Scenario.resume_store "? & !" O
           Cases.retrieved_for_no_token).
  - reflexivity.
  - vm_compute. repeat (constructor; [reflexivity|]). constructor.
  - reflexivity.
  - vm_compute. reflexivity.
Defined.

Lemma failing_gate_skips_backend_witness :
  answer_question Examples.extern nat Scenario.config (Some Scenario.flaky_llm)
                  Scenario.resume_store "? & !" O
  = (Ok ("I don't have enough evidence in the indexed resumes to answer that."
           ++ PyStr.nlnl ++ "Reason: "
           ++ snd (_guardrail_context Scenario.config Cases.retrieved_for_no_token))%string, O).
Proof.
  apply (proj1 (GateFacts.failing_gate_skips_backend Examples.extern nat Scenario.config
                  Scenario.flaky_llm Scenario.resume_store)
           "? & !" O Cases.retrieved_for_no_token).
  - vm_compute. reflexivity.
  - vm_compute. reflexivity.
Defined.

Lemma ollama_reads_reply_witness :
  Ollama.complete_markdown nat Cases.prose_server Cases.local_ollama O "Be brief." "Is it a fit?"
  = (Ok "A good fit, I think.", 1%nat)
  /\ Ollama.complete_json nat Cases.prose_server Cases.refusing_loads Cases.local_ollama O
                          "Be brief." "Is it a fit?"
     = (Ok (JObj [("raw", JStr "A good fit, I think.")]), 1%nat).
Proof.
  apply (proj1 (proj2 (proj2 (OllamaFacts.ollama_reads_reply nat Cases.prose_server
                                Cases.refusing_loads Cases.local_ollama O 1%nat
                                "Be brief." "Is it a fit?")))
           [ ("model", JStr "llama3.1");
             ("message", JObj [ ("role", JStr "assistant");
                                ("content", JStr " A good fit, I think. ") ]) ]
           [ ("role", JStr "assistant"); ("content", JStr " A good fit, I think. ") ]
           " A good fit, I think. ").
  - reflexivity.
  - reflexivity.
  - reflexivity.
Defined.

Lemma load_document_by_suffix_witness :
  Loaders.doc_name Cases.scanned_doc = "scan.PDF"
  /\ PyDict.mem (Loaders.meta Cases.scanned_doc) "doc_name" = false
  /\ PyDict.mem (Loaders.meta Cases.scanned_doc) "source" = false
  /\ exists kind,
       In kind supported
       /\ PyStr.lower ".PDF" = ("." ++ kind)%string
       /\ PyDict.get (Loaders.meta Cases.scanned_doc) "type" = Some (JStr kind).
Proof.
  apply (proj1 (LoadingFacts.load_document_by_suffix Cases.scanned Cases.scan_path)
           Cases.scanned_doc).
  reflexivity.
Defined.

End WorkedCases.
